(** * SEOFrog report sheets: a shallow embedding of the exporters

    The Python sources under [seofrog/exporters] turn a pandas DataFrame of
    crawl records into one Excel sheet per problem category.  This file
    embeds the record model, the detection rules, the consolidation
    (dedup + sort) and the sheet assembly as Rocq functions, and proves the
    properties stated about them.

    Modelling conventions.
    - A DataFrame is a list of column names together with a list of rows;
      a cell is an [option]: [None] stands for a missing value (NaN).
      A count is read as the integer it denotes ([Z]), a float as the
      rational it denotes ([Q]), strings as byte strings (UTF-8).  A cell
      of a column of detail lists can also hold Python's [None], which
      the code tells from NaN.
    - [row.get(c, d)] returns the cell when the column exists (possibly
      NaN) and [d] otherwise; comparisons against NaN are false.
    - The [url] field of a row is what [row.get('url', '')] reads: the
      url of the record or, in a frame without the url column, the empty
      string.  In a frame that has the column every record carries its
      url.  All the other fields are optional.
    - An issue keeps the fields that drive consolidation ([url], the problem
      label, [criticidade], the priority and [response_time]); the constant
      explanatory texts of each issue (recommendation, impact, fix) take no
      part in any decision and are left out.
    - The frame built from a list of issues has the columns of the issue
      dictionaries of its sheet (the union over the sheet's rules).
    - A Python [int] is printed in decimal.  How a cell of a column of
      counts is printed depends on the dtype pandas infers for the column
      ([61] in a column of integers, [61.0] once a record lacks the value
      and the column is held as floats); like the formatting of floats and
      the float division, it is a parameter of the sheets ([FloatFormat]).
    - Sorting on several keys, [sorted] and [groupby] keep rows of equal
      key in frame order.  [sort_values] on a single key is pandas'
      quicksort, which does not: the status sheet takes that sort as a
      parameter.
    - What a sheet function leaves in the workbook is the last frame it
      hands to the writer under its sheet name, a value of type [Sheet];
      nothing written is [None].  An exception is a value of type [exn],
      caught where the source catches it; the text of an exception raised
      inside pandas is a parameter.  Logging is left out.
    - Of [excel_exporter.py] the model covers [export_results] up to the
      raw-data view, with the clock, [os.path.join] and the failure of the
      file system or of the Excel engine as parameters;
      [empty_headings_sheet.py], whose text depends on the iteration order
      of a Python set, is not modelled. *)

From Stdlib Require Import List String Ascii ZArith QArith Bool Lia.
From Stdlib Require Import Sorted Permutation DecimalString.
Import ListNotations.

Local Open Scope string_scope.
Local Open Scope list_scope.
Local Open Scope Z_scope.

(** ** Strings as Python uses them *)

Module Py.

(** [str(n)] for an integer. *)
Definition str_of_Z (z : Z) : string := NilZero.string_of_int (Z.to_int z).

(** [sub in s]. *)
Definition contains (sub s : string) : bool :=
  match String.index 0 sub s with
  | Some _ => true
  | None => false
  end.

(** [c.lower()] on one byte: ASCII letters only. *)
Definition lower_ascii (c : ascii) : ascii :=
  let n := nat_of_ascii c in
  if (Nat.leb 65 n && Nat.leb n 90)%bool then ascii_of_nat (n + 32) else c.

(** [s.lower()]. *)
Fixpoint lower (s : string) : string :=
  match s with
  | EmptyString => EmptyString
  | String c t => String (lower_ascii c) (lower t)
  end.

(** [s.count(c)] for a one-character pattern. *)
Fixpoint count_char (c : ascii) (s : string) : nat :=
  match s with
  | EmptyString => O
  | String d t => if Ascii.eqb c d then S (count_char c t) else count_char c t
  end.

(** [s.endswith(c)] for a one-character suffix. *)
Fixpoint endswith_char (c : ascii) (s : string) : bool :=
  match s with
  | EmptyString => false
  | String d EmptyString => Ascii.eqb c d
  | String _ t => endswith_char c t
  end.

(** [sep.join(l)]. *)
Fixpoint join (sep : string) (l : list string) : string :=
  match l with
  | [] => EmptyString
  | [x] => x
  | x :: t => String.append x (String.append sep (join sep t))
  end.

(** [x in l] for a list of strings. *)
Definition mem (x : string) (l : list string) : bool :=
  existsb (String.eqb x) l.

(** [c.upper()] on one byte and [s.upper()]: ASCII letters only. *)
Definition upper_ascii (c : ascii) : ascii :=
  let n := nat_of_ascii c in
  if (Nat.leb 97 n && Nat.leb n 122)%bool then ascii_of_nat (n - 32) else c.

Fixpoint upper (s : string) : string :=
  match s with
  | EmptyString => EmptyString
  | String c t => String (upper_ascii c) (upper t)
  end.

(** [repr(l)] for a list of plain strings. *)
Definition repr_list (l : list string) : string :=
  String.append "["
    (String.append
       (join ", " (map (fun x => String.append "'" (String.append x "'")) l))
       "]").

(** A cell that may be NaN: [fillna] and comparisons (every comparison
    against NaN is false). *)
Definition fillna {V : Type} (c : option V) (d : V) : V :=
  match c with Some v => v | None => d end.

Definition gt (c : option Z) (k : Z) : bool :=
  match c with Some v => Z.ltb k v | None => false end.

Definition lt (c : option Z) (k : Z) : bool :=
  match c with Some v => Z.ltb v k | None => false end.

Definition eq (c : option Z) (k : Z) : bool :=
  match c with Some v => Z.eqb v k | None => false end.

(** Arithmetic on cells propagates NaN. *)
Definition sub (a b : option Z) : option Z :=
  match a, b with Some x, Some y => Some (x - y) | _, _ => None end.

Definition add (a b : option Z) : option Z :=
  match a, b with Some x, Some y => Some (x + y) | _, _ => None end.

End Py.

(** ** Stable sorting and first-occurrence deduplication

    [sort_values] on several keys and [sorted] are stable; both are
    modelled by a stable insertion sort on a boolean total preorder.
    [drop_duplicates(subset=..., keep='first')] keeps the first row of
    every key, in the original order. *)

Section Sorting.
Context {A : Type}.
Variable leb : A -> A -> bool.

Fixpoint insert_sorted (x : A) (l : list A) : list A :=
  match l with
  | [] => [x]
  | y :: t => if leb x y then x :: y :: t else y :: insert_sorted x t
  end.

Fixpoint stable_sort (l : list A) : list A :=
  match l with
  | [] => []
  | x :: t => insert_sorted x (stable_sort t)
  end.
End Sorting.

Section Dedup.
Context {A K : Type}.
Variable eqb : K -> K -> bool.
Variable key : A -> K.

Fixpoint dedup_from (seen : list K) (l : list A) : list A :=
  match l with
  | [] => []
  | x :: t =>
      if existsb (eqb (key x)) seen then dedup_from seen t
      else x :: dedup_from (key x :: seen) t
  end.

Definition drop_duplicates (l : list A) : list A := dedup_from [] l.
End Dedup.

(** Lexicographic combination of two boolean orders. *)
Definition lex_leb {A : Type} (cmp1 : A -> A -> comparison)
           (leb2 : A -> A -> bool) (x y : A) : bool :=
  match cmp1 x y with
  | Lt => true
  | Eq => leb2 x y
  | Gt => false
  end.

(** ** Frames, issues and sheets *)

Record Frame (A : Type) := mkFrame {
  columns : list string;
  rows : list A
}.
Arguments mkFrame {A} _ _.
Arguments columns {A} _.
Arguments rows {A} _.

Definition has_column {A} (df : Frame A) (c : string) : bool :=
  Py.mem c (columns df).

(** [df.empty]: no rows or no columns. *)
Definition frame_empty {A} (df : Frame A) : bool :=
  match rows df, columns df with
  | [], _ => true
  | _, [] => true
  | _, _ => false
  end.

Record Issue := mkIssue {
  i_url : string;
  problema : string;
  criticidade : string;
  prioridade : Z;
  i_response_time : option Q
}.

Inductive Sheet (A : Type) :=
| SuccessSheet (msg : string)
| ErrorSheet (msg : string)
| TableSheet (cols : list string) (body : list A).
Arguments SuccessSheet {A} _.
Arguments ErrorSheet {A} _.
Arguments TableSheet {A} _ _.

(** [KeyError]: a column that the frame does not have.  [PandasError]:
    another exception raised inside pandas, with its text. *)
Inductive exn :=
| KeyError (column : string)
| PandasError (msg : string).

Definition str_of_exn (e : exn) : string :=
  match e with
  | KeyError c => String.append "'" (String.append c "'")
  | PandasError m => m
  end.

Inductive result (A : Type) :=
| Ok (a : A)
| Raise (e : exn).
Arguments Ok {A} _.
Arguments Raise {A} _.

(** [df[c]]: a [KeyError] when the frame has no such column. *)
Definition column_or_raise {A B} (df : Frame A) (c : string)
           (k : result B) : result B :=
  if has_column df c then k else Raise (KeyError c).

(** ** base_sheet.py *)

Module BaseSheet.

(** [_safe_filter(df, column, mask)], entered with the mask already
    computed by the caller: an empty frame without columns when the
    column is missing, the rows selected by the mask otherwise. *)
Definition _safe_filter {A} (df : Frame A) (column : string)
           (mask : A -> bool) : Frame A :=
  if has_column df column then mkFrame (columns df) (filter mask (rows df))
  else mkFrame [] [].

Section WithName.
Variable sheet_name : string.

Definition _create_error_sheet {A} (error_msg : string) : Sheet A :=
  ErrorSheet error_msg.

Definition _create_success_sheet {A} (success_msg : string) : Sheet A :=
  SuccessSheet success_msg.

(** [_export_dataframe]: all-clear marker on an empty frame, error
    marker when none of the wanted columns exists, otherwise the frame
    restricted to the available columns with one row per url. *)
Definition _export_dataframe {A} (url : A -> string) (df : Frame A)
           (cols : list string) : Sheet A :=
  if frame_empty df then
    _create_success_sheet
      (String.append "✅ Nenhum problema encontrado na categoria "
                     (String.append sheet_name "!"))
  else
    match cols with
    | [] =>
        if has_column df "url"
        then TableSheet (columns df)
                        (drop_duplicates String.eqb url (rows df))
        else TableSheet (columns df) (rows df)
    | _ =>
        let available_cols := filter (has_column df) cols in
        match available_cols with
        | [] =>
            _create_error_sheet
              (String.append "Colunas necessárias não encontradas: "
                             (Py.repr_list cols))
        | _ =>
            if Py.mem "url" available_cols
            then TableSheet available_cols
                            (drop_duplicates String.eqb url (rows df))
            else TableSheet available_cols (rows df)
        end
    end.
End WithName.

Definition criticality_order (c : string) : nat :=
  if String.eqb c "CRÍTICO MÁXIMO" then 0%nat
  else if String.eqb c "CRÍTICO" then 1%nat
  else if String.eqb c "ALTO" then 2%nat
  else if String.eqb c "MÉDIO" then 3%nat
  else if String.eqb c "BAIXO" then 4%nat
  else 5%nat.

Definition sort_key_leb (a b : Issue) : bool :=
  lex_leb (fun x y => Nat.compare (criticality_order (criticidade x))
                                  (criticality_order (criticidade y)))
          (fun x y => String.leb (i_url x) (i_url y)) a b.

(** [_sort_by_criticality]: unchanged when the frame has no
    [criticidade] column, otherwise ordered by rank then url. *)
Definition _sort_by_criticality (df : Frame Issue) : Frame Issue :=
  if has_column df "criticidade"
  then mkFrame (columns df) (stable_sort sort_key_leb (rows df))
  else df.

End BaseSheet.

(** ** The crawl record *)

(** An item of a detail list: a dictionary whose ['type'] and ['url']
    are strings when present.  A cell of a column of detail lists is
    missing ([None]), holds Python's [None] ([Some None]) or holds a list
    ([Some (Some l)]). *)
Record MixedItem := mkMixedItem {
  m_type : option string;
  m_url : option string
}.

Record Row := mkRow {
  url : string;
  status_code : option Z;
  title : option string;
  title_length : option Z;
  meta_description : option string;
  meta_description_length : option Z;
  h1_count : option Z;
  h2_count : option Z;
  h3_count : option Z;
  h4_count : option Z;
  h5_count : option Z;
  h6_count : option Z;
  h1_length : option Z;
  images_count : option Z;
  images_without_alt : option Z;
  images_without_src : option Z;
  images_with_dimensions : option Z;
  total_links_count : option Z;
  canonical_url : option string;
  canonical_is_self : option bool;
  has_viewport : option bool;
  has_charset : option bool;
  has_favicon : option bool;
  meta_robots_noindex : option bool;
  meta_robots_nofollow : option bool;
  schema_total_count : option Z;
  og_tags_count : option Z;
  response_time : option Q;
  content_length : option Z;
  text_ratio : option Q;
  is_https_page : option bool;
  total_mixed_content_count : option Z;
  active_mixed_content_count : option Z;
  passive_mixed_content_count : option Z;
  active_mixed_content_details : option (option (list MixedItem));
  passive_mixed_content_details : option (option (list MixedItem));
  mixed_content_risk : option string;
  http_links_count : option Z;
  http_forms_count : option Z
}.

(** A record in which every optional field is missing. *)
Definition blank_row (u : string) : Row :=
  mkRow u None None None None None None None None None None None None None
        None None None None None None None None None None None None None None
        None None None None None None None None None None None.

(** [row.get(c, d)] inside a loop over a frame with columns [cols]: the
    cell when the column exists, the default otherwise. *)
Definition row_get {V : Type} (cols : list string) (c : string)
           (cell : option V) (d : V) : option V :=
  if Py.mem c cols then cell else Some d.

Definition pair_eqb (a b : string * string) : bool :=
  (String.eqb (fst a) (fst b) && String.eqb (snd a) (snd b))%bool.

Definition url_problema (i : Issue) : string * string := (i_url i, problema i).

(** An issue of a sheet that has neither priority nor response time. *)
Definition plain_issue (u p c : string) : Issue := mkIssue u p c 0 None.

(** [df[df[c].duplicated(keep=False)]] followed by [groupby(c)] on a string
    column without missing values: the groups of size two or more, in
    ascending key order, each with its rows in frame order. *)
Section GroupBy.
Variable key : Row -> option string.

Definition key_is (k : string) (r : Row) : bool :=
  match key r with Some t => String.eqb t k | None => false end.

Definition duplicated_keep_false (l : list Row) : list Row :=
  filter (fun r => match key r with
                   | Some t => Nat.leb 2 (List.length (filter (key_is t) l))
                   | None => false
                   end) l.

Definition group_keys (l : list Row) : list string :=
  stable_sort String.leb
    (drop_duplicates String.eqb (fun k : string => k)
       (flat_map (fun r => match key r with Some t => [t] | None => [] end) l)).

Definition groupby (l : list Row) : list (string * list Row) :=
  map (fun k => (k, filter (key_is k) l)) (group_keys l).
End GroupBy.

(** ** Numbers as Python prints and divides them

    [response_time], [text_ratio] and the sizes in MB are floats, read as
    the rationals they denote; a count is read as the integer it denotes.
    What Python and pandas do to a number beyond comparing it with a
    constant is a primitive of theirs, and the sheets take it as a
    parameter:
    - the text of a float under a format specification;
    - the text of a count inside an f-string: pandas holds a column of
      counts as integers, printed [61], or, once a record of the frame
      lacks the value, as floats, printed [61.0], and which of the two
      reaches the f-string depends on the dtypes it infers for the frame;
    - a percentage computed by float division. *)

Record FloatFormat := mkFloatFormat {
  (** [format(x, '.Nf')], with ['nan'] for a missing value *)
  fmt_fixed : nat -> option Q -> string;
  (** [format(x, '.N%')] *)
  fmt_percent : nat -> option Q -> string;
  (** [f"{x}"] for the cell [x] of the column of counts [c] *)
  fmt_count : string -> Z -> string;
  (** [f"{x - y}"] for the cells [x] and [y] of two columns of counts *)
  fmt_diff : string -> string -> Z -> Z -> string;
  (** [x / y * 100 < k] for two counts [x] and [y], in floating point *)
  pct_below : Z -> Z -> Z -> bool
}.

(** [f"{row.get(c, d)}"] for a column of counts: the default [d] is a
    Python integer, a missing cell prints [nan]. *)
Definition str_of_count (F : FloatFormat) (cols : list string) (c : string)
           (cell : option Z) (d : Z) : string :=
  if Py.mem c cols then
    match cell with
    | Some v => fmt_count F c v
    | None => "nan"
    end
  else Py.str_of_Z d.

Module PyQ.
Definition ltb (a b : Q) : bool := negb (Qle_bool b a).
Definition gt (c : option Q) (k : Q) : bool :=
  match c with Some v => ltb k v | None => false end.
End PyQ.

(** ** title_problems_sheet.py *)

Module TitleProblemsSheet.

Definition get_sheet_name : string := "Problemas Títulos".

Definition issue_columns : list string :=
  ["url"; "problema"; "criticidade"; "title"; "title_length";
   "title_words"; "recomendacao"; "impacto_seo"].

Definition _find_no_title_issues (df : Frame Row) : list Issue :=
  if negb (has_column df "title") then []
  else
    let no_title :=
      BaseSheet._safe_filter df "title"
        (fun r => String.eqb (Py.fillna (title r) "") "") in
    map (fun row => plain_issue (url row) "Sem título" "CRÍTICO")
        (rows no_title).

Definition long_title_issue (F : FloatFormat) (cols : list string)
           (row : Row) : Issue :=
  let cell := title_length row in
  let title_length := row_get cols "title_length" cell 0 in
  plain_issue (url row)
    (String.append "Título muito longo ("
       (String.append (str_of_count F cols "title_length" cell 0) " chars)"))
    (if Py.gt title_length 70 then "ALTO" else "MÉDIO").

Definition _find_long_title_issues (F : FloatFormat) (df : Frame Row)
  : list Issue :=
  if negb (has_column df "title_length") then []
  else
    let long_titles :=
      BaseSheet._safe_filter df "title_length"
        (fun r => Z.ltb 60 (Py.fillna (title_length r) 0)) in
    map (long_title_issue F (columns long_titles)) (rows long_titles).

Definition short_title_issue (F : FloatFormat) (cols : list string)
           (row : Row) : Issue :=
  let cell := title_length row in
  plain_issue (url row)
    (String.append "Título muito curto ("
       (String.append (str_of_count F cols "title_length" cell 0) " chars)"))
    "MÉDIO".

Definition _find_short_title_issues (F : FloatFormat) (df : Frame Row)
  : list Issue :=
  if (negb (has_column df "title_length") || negb (has_column df "title"))%bool
  then []
  else
    let short_titles :=
      BaseSheet._safe_filter df "title_length"
        (fun r => (Z.ltb (Py.fillna (title_length r) 100) 30
                   && negb (String.eqb (Py.fillna (title r) "") ""))%bool) in
    map (short_title_issue F (columns short_titles)) (rows short_titles).

Definition duplicate_title_issue (duplicate_count : nat) (row : Row) : Issue :=
  plain_issue (url row)
    (String.append "Título duplicado ("
       (String.append (Py.str_of_Z (Z.of_nat duplicate_count)) " páginas)"))
    (if Nat.ltb 3 duplicate_count then "ALTO" else "MÉDIO").

(** The loop over the groups reads [group['url']], unguarded: with a
    group to visit and no url column it raises a [KeyError]. *)
Definition _find_duplicate_title_issues (df : Frame Row)
  : result (list Issue) :=
  if negb (has_column df "title") then Ok []
  else
    let non_empty_titles :=
      filter (fun r => negb (String.eqb (Py.fillna (title r) "") ""))
             (rows df) in
    match non_empty_titles with
    | [] => Ok []
    | _ =>
        let duplicate_titles := duplicated_keep_false title non_empty_titles in
        match groupby title duplicate_titles with
        | [] => Ok []
        | groups =>
            column_or_raise df "url"
              (Ok (flat_map
                     (fun g : string * list Row =>
                        let duplicate_count := List.length (snd g) in
                        map (duplicate_title_issue duplicate_count) (snd g))
                     groups))
        end
    end.

Definition consolidate (issues : list Issue) : Frame Issue :=
  let issues_df := mkFrame issue_columns issues in
  let issues_df :=
    mkFrame (columns issues_df)
            (drop_duplicates pair_eqb url_problema (rows issues_df)) in
  BaseSheet._sort_by_criticality issues_df.

Definition _export_consolidated_issues (issues : list Issue)
  : option (Sheet Issue) :=
  match issues with
  | [] => None
  | _ =>
      let issues_df := consolidate issues in
      let cols := ["url"; "problema"; "criticidade"; "title"; "title_length";
                   "title_words"; "recomendacao"; "impacto_seo"] in
      Some (BaseSheet._export_dataframe get_sheet_name i_url issues_df cols)
  end.

(** The drafts of the four rules, in the order [create_sheet] collects
    them, or the exception that the last rule raises. *)
Definition detect (F : FloatFormat) (df : Frame Row) : result (list Issue) :=
  let no_title_issues := _find_no_title_issues df in
  let long_title_issues := _find_long_title_issues F df in
  let short_title_issues := _find_short_title_issues F df in
  match _find_duplicate_title_issues df with
  | Ok duplicate_title_issues =>
      Ok (no_title_issues ++ long_title_issues
            ++ short_title_issues ++ duplicate_title_issues)
  | Raise e => Raise e
  end.

Definition create_sheet (F : FloatFormat) (df : Frame Row)
  : option (Sheet Issue) :=
  match detect F df with
  | Ok [] => Some (BaseSheet._create_success_sheet
                     "✅ Nenhum problema de título encontrado!")
  | Ok title_issues => _export_consolidated_issues title_issues
  | Raise e =>
      Some (BaseSheet._create_error_sheet
              (String.append "Erro: " (str_of_exn e)))
  end.

End TitleProblemsSheet.

(** ** meta_problems_sheet.py *)

Module MetaProblemsSheet.

Definition get_sheet_name : string := "Problemas Meta".

Definition issue_columns : list string :=
  ["url"; "problema"; "criticidade"; "meta_description";
   "meta_description_length"; "recomendacao"; "impacto_seo"; "exemplo"].

Definition _find_no_meta_issues (df : Frame Row) : list Issue :=
  if negb (has_column df "meta_description") then []
  else
    let no_meta :=
      BaseSheet._safe_filter df "meta_description"
        (fun r => String.eqb (Py.fillna (meta_description r) "") "") in
    map (fun row => plain_issue (url row) "Sem meta description" "ALTO")
        (rows no_meta).

Definition long_meta_issue (F : FloatFormat) (cols : list string)
           (row : Row) : Issue :=
  let cell := meta_description_length row in
  let meta_length := row_get cols "meta_description_length" cell 0 in
  plain_issue (url row)
    (String.append "Meta description muito longa ("
       (String.append (str_of_count F cols "meta_description_length" cell 0)
                      " chars)"))
    (if Py.lt meta_length 180 then "MÉDIO" else "ALTO").

Definition _find_long_meta_issues (F : FloatFormat) (df : Frame Row)
  : list Issue :=
  if negb (has_column df "meta_description_length") then []
  else
    let long_meta :=
      BaseSheet._safe_filter df "meta_description_length"
        (fun r => Z.ltb 160 (Py.fillna (meta_description_length r) 0)) in
    map (long_meta_issue F (columns long_meta)) (rows long_meta).

Definition short_meta_issue (F : FloatFormat) (cols : list string)
           (row : Row) : Issue :=
  let cell := meta_description_length row in
  plain_issue (url row)
    (String.append "Meta description muito curta ("
       (String.append (str_of_count F cols "meta_description_length" cell 0)
                      " chars)"))
    "BAIXO".

Definition _find_short_meta_issues (F : FloatFormat) (df : Frame Row)
  : list Issue :=
  if (negb (has_column df "meta_description_length")
      || negb (has_column df "meta_description"))%bool
  then []
  else
    let short_meta :=
      BaseSheet._safe_filter df "meta_description_length"
        (fun r => (Z.ltb (Py.fillna (meta_description_length r) 200) 120
                   && negb (String.eqb (Py.fillna (meta_description r) "") ""))%bool) in
    map (short_meta_issue F (columns short_meta)) (rows short_meta).

Definition duplicate_meta_issue (duplicate_count : nat) (row : Row) : Issue :=
  plain_issue (url row)
    (String.append "Meta description duplicada ("
       (String.append (Py.str_of_Z (Z.of_nat duplicate_count)) " páginas)"))
    (if Nat.ltb 2 duplicate_count then "ALTO" else "MÉDIO").

(** As for the titles, the loop over the groups reads [group['url']]
    unguarded. *)
Definition _find_duplicate_meta_issues (df : Frame Row)
  : result (list Issue) :=
  if negb (has_column df "meta_description") then Ok []
  else
    let non_empty_meta :=
      filter (fun r => negb (String.eqb (Py.fillna (meta_description r) "") ""))
             (rows df) in
    match non_empty_meta with
    | [] => Ok []
    | _ =>
        let duplicate_meta :=
          duplicated_keep_false meta_description non_empty_meta in
        match groupby meta_description duplicate_meta with
        | [] => Ok []
        | groups =>
            column_or_raise df "url"
              (Ok (flat_map
                     (fun g : string * list Row =>
                        let duplicate_count := List.length (snd g) in
                        map (duplicate_meta_issue duplicate_count) (snd g))
                     groups))
        end
    end.

Definition consolidate (issues : list Issue) : Frame Issue :=
  let issues_df := mkFrame issue_columns issues in
  let issues_df :=
    mkFrame (columns issues_df)
            (drop_duplicates pair_eqb url_problema (rows issues_df)) in
  BaseSheet._sort_by_criticality issues_df.

Definition _export_consolidated_issues (issues : list Issue)
  : option (Sheet Issue) :=
  match issues with
  | [] => None
  | _ =>
      let issues_df := consolidate issues in
      let cols := ["url"; "problema"; "criticidade"; "meta_description";
                   "meta_description_length"; "recomendacao"; "impacto_seo";
                   "exemplo"] in
      Some (BaseSheet._export_dataframe get_sheet_name i_url issues_df cols)
  end.

Definition detect (F : FloatFormat) (df : Frame Row) : result (list Issue) :=
  let no_meta_issues := _find_no_meta_issues df in
  let long_meta_issues := _find_long_meta_issues F df in
  let short_meta_issues := _find_short_meta_issues F df in
  match _find_duplicate_meta_issues df with
  | Ok duplicate_meta_issues =>
      Ok (no_meta_issues ++ long_meta_issues
            ++ short_meta_issues ++ duplicate_meta_issues)
  | Raise e => Raise e
  end.

Definition create_sheet (F : FloatFormat) (df : Frame Row)
  : option (Sheet Issue) :=
  match detect F df with
  | Ok [] => Some (BaseSheet._create_success_sheet
                     "✅ Nenhum problema de meta description!")
  | Ok meta_issues => _export_consolidated_issues meta_issues
  | Raise e =>
      Some (BaseSheet._create_error_sheet
              (String.append "Erro: " (str_of_exn e)))
  end.

End MetaProblemsSheet.

(** ** heading_problems_sheet.py *)

Module HeadingProblemsSheet.

Definition get_sheet_name : string := "Problemas Headings".

Definition issue_columns : list string :=
  ["url"; "problema"; "criticidade"; "h1_count"; "h1_text"; "h2_count";
   "h3_count"; "estrutura_headings"; "recomendacao"; "impacto_seo"].

Definition _find_no_h1_issues (df : Frame Row) : list Issue :=
  if negb (has_column df "h1_count") then []
  else
    let no_h1 :=
      BaseSheet._safe_filter df "h1_count"
        (fun r => Z.eqb (Py.fillna (h1_count r) 0) 0) in
    map (fun row => plain_issue (url row) "Sem H1" "CRÍTICO") (rows no_h1).

Definition multiple_h1_issue (F : FloatFormat) (cols : list string)
           (row : Row) : Issue :=
  plain_issue (url row)
    (String.append "Múltiplos H1 ("
       (String.append (str_of_count F cols "h1_count" (h1_count row) 0)
                      " H1s)"))
    "ALTO".

Definition _find_multiple_h1_issues (F : FloatFormat) (df : Frame Row)
  : list Issue :=
  if negb (has_column df "h1_count") then []
  else
    let multiple_h1 :=
      BaseSheet._safe_filter df "h1_count"
        (fun r => Z.ltb 1 (Py.fillna (h1_count r) 0)) in
    map (multiple_h1_issue F (columns multiple_h1)) (rows multiple_h1).

Definition no_h2_issue (cols : list string) (row : Row) : list Issue :=
  let h1_count := row_get cols "h1_count" (h1_count row) 0 in
  if Py.gt h1_count 0
  then [plain_issue (url row) "Sem H2 (estrutura incompleta)" "MÉDIO"]
  else [].

Definition _find_no_h2_issues (df : Frame Row) : list Issue :=
  if negb (has_column df "h2_count") then []
  else
    let no_h2 :=
      BaseSheet._safe_filter df "h2_count"
        (fun r => Z.eqb (Py.fillna (h2_count r) 0) 0) in
    flat_map (no_h2_issue (columns no_h2)) (rows no_h2).

Definition hierarchy_problems (cols : list string) (row : Row) : list string :=
  let h2_count := row_get cols "h2_count" (h2_count row) 0 in
  let h3_count := row_get cols "h3_count" (h3_count row) 0 in
  let h4_count := row_get cols "h4_count" (h4_count row) 0 in
  let h5_count := row_get cols "h5_count" (h5_count row) 0 in
  let h6_count := row_get cols "h6_count" (h6_count row) 0 in
  (if (Py.gt h3_count 0 && Py.eq h2_count 0)%bool then ["H3 sem H2"] else [])
    ++ (if (Py.gt h4_count 0 && Py.eq h3_count 0)%bool then ["H4 sem H3"] else [])
    ++ (if (Py.gt h5_count 0 && Py.eq h4_count 0)%bool then ["H5 sem H4"] else [])
    ++ (if (Py.gt h6_count 0 && Py.eq h5_count 0)%bool then ["H6 sem H5"] else []).

Definition hierarchy_issue (cols : list string) (row : Row) : list Issue :=
  match hierarchy_problems cols row with
  | [] => []
  | problems =>
      [plain_issue (url row)
         (String.append "Hierarquia quebrada: " (Py.join ", " problems))
         "MÉDIO"]
  end.

Definition _find_hierarchy_issues (df : Frame Row) : list Issue :=
  flat_map (hierarchy_issue (columns df)) (rows df).

Definition long_h1_issue (F : FloatFormat) (cols : list string)
           (row : Row) : Issue :=
  plain_issue (url row)
    (String.append "H1 muito longo ("
       (String.append (str_of_count F cols "h1_length" (h1_length row) 0)
                      " chars)"))
    "BAIXO".

Definition _find_long_h1_issues (F : FloatFormat) (df : Frame Row)
  : list Issue :=
  if negb (has_column df "h1_length") then []
  else
    let long_h1 :=
      BaseSheet._safe_filter df "h1_length"
        (fun r => Z.ltb 70 (Py.fillna (h1_length r) 0)) in
    map (long_h1_issue F (columns long_h1)) (rows long_h1).

Definition consolidate (issues : list Issue) : Frame Issue :=
  let issues_df := mkFrame issue_columns issues in
  let issues_df :=
    mkFrame (columns issues_df)
            (drop_duplicates pair_eqb url_problema (rows issues_df)) in
  BaseSheet._sort_by_criticality issues_df.

Definition _export_consolidated_issues (issues : list Issue)
  : option (Sheet Issue) :=
  match issues with
  | [] => None
  | _ =>
      let issues_df := consolidate issues in
      let cols := ["url"; "problema"; "criticidade"; "h1_count"; "h1_text";
                   "h2_count"; "h3_count"; "estrutura_headings";
                   "recomendacao"; "impacto_seo"] in
      Some (BaseSheet._export_dataframe get_sheet_name i_url issues_df cols)
  end.

Definition detect (F : FloatFormat) (df : Frame Row) : list Issue :=
  _find_no_h1_issues df ++ _find_multiple_h1_issues F df
    ++ _find_no_h2_issues df ++ _find_hierarchy_issues df
    ++ _find_long_h1_issues F df.

Definition create_sheet (F : FloatFormat) (df : Frame Row)
  : option (Sheet Issue) :=
  let heading_issues := detect F df in
  match heading_issues with
  | [] => Some (BaseSheet._create_success_sheet
                  "✅ Estrutura de headings adequada!")
  | _ => _export_consolidated_issues heading_issues
  end.

End HeadingProblemsSheet.

(** ** h1_h2_missing_sheet.py *)

Module H1H2MissingSheet.

Definition get_sheet_name : string := "H1 H2 Ausentes".

Definition issue_columns : list string :=
  ["url"; "problema_h1_h2"; "criticidade"; "prioridade"; "h1_count";
   "h1_text"; "h2_count"; "title"; "page_type"; "action_required";
   "business_impact"; "technical_fix"].

(** The [problema] field of an issue of this sheet is its
    [problema_h1_h2] column. *)
Definition h1h2_issue (u p c : string) (prio : Z) : Issue :=
  mkIssue u p c prio None.

Definition _find_no_h1_issues (df : Frame Row) : list Issue :=
  if negb (has_column df "h1_count") then []
  else
    let no_h1 :=
      BaseSheet._safe_filter df "h1_count"
        (fun r => Z.eqb (Py.fillna (h1_count r) 0) 0) in
    map (fun row => h1h2_issue (url row) "Sem H1" "CRÍTICO" 1) (rows no_h1).

Definition no_h2_issue (cols : list string) (row : Row) : list Issue :=
  let h1_count := row_get cols "h1_count" (h1_count row) 0 in
  if Py.gt h1_count 0
  then [h1h2_issue (url row) "Sem H2" "ALTO" 2]
  else [].

Definition _find_no_h2_issues (df : Frame Row) : list Issue :=
  if negb (has_column df "h2_count") then []
  else
    let no_h2 :=
      BaseSheet._safe_filter df "h2_count"
        (fun r => Z.eqb (Py.fillna (h2_count r) 0) 0) in
    flat_map (no_h2_issue (columns no_h2)) (rows no_h2).

Definition _find_no_h1_h2_issues (df : Frame Row) : list Issue :=
  if (negb (has_column df "h1_count") || negb (has_column df "h2_count"))%bool
  then []
  else
    let no_h1_h2 :=
      BaseSheet._safe_filter df "h1_count"
        (fun r => (Z.eqb (Py.fillna (h1_count r) 0) 0
                   && Z.eqb (Py.fillna (h2_count r) 0) 0)%bool) in
    map (fun row =>
           h1h2_issue (url row) "Sem H1 E sem H2" "CRÍTICO MÁXIMO" 0)
        (rows no_h1_h2).

Definition _detect_page_type (row : Row) : string :=
  let url := Py.lower (url row) in
  if (Py.contains "/blog/" url || Py.contains "/artigo/" url)%bool
  then "Blog/Artigo"
  else if (Py.contains "/produto/" url || Py.contains "/product/" url)%bool
  then "Produto"
  else if (Py.contains "/categoria/" url || Py.contains "/category/" url)%bool
  then "Categoria"
  else if (Py.contains "/sobre" url || Py.contains "/about" url)%bool
  then "Institucional"
  else if (Py.contains "/contato" url || Py.contains "/contact" url)%bool
  then "Contato"
  else if (Py.endswith_char "/" url && Nat.leb (Py.count_char "/" url) 3)%bool
  then "Homepage"
  else "Conteúdo".

Definition prioridade_url_leb (a b : Issue) : bool :=
  lex_leb (fun x y => Z.compare (prioridade x) (prioridade y))
          (fun x y => String.leb (i_url x) (i_url y)) a b.

Definition consolidate (issues : list Issue) : Frame Issue :=
  let issues_df := mkFrame issue_columns issues in
  let issues_df :=
    mkFrame (columns issues_df)
            (drop_duplicates String.eqb i_url (rows issues_df)) in
  mkFrame (columns issues_df)
          (stable_sort prioridade_url_leb (rows issues_df)).

Definition _export_consolidated_issues (issues : list Issue)
  : option (Sheet Issue) :=
  match issues with
  | [] => None
  | _ =>
      let issues_df := consolidate issues in
      let cols := ["url"; "problema_h1_h2"; "criticidade"; "h1_count";
                   "h2_count"; "h1_text"; "title"; "page_type";
                   "action_required"; "business_impact"; "technical_fix"] in
      Some (BaseSheet._export_dataframe get_sheet_name i_url issues_df cols)
  end.

Definition detect (df : Frame Row) : list Issue :=
  _find_no_h1_issues df ++ _find_no_h2_issues df
    ++ _find_no_h1_h2_issues df.

Definition create_sheet (df : Frame Row) : option (Sheet Issue) :=
  let h1_h2_issues := detect df in
  match h1_h2_issues with
  | [] => Some (BaseSheet._create_success_sheet
                  "✅ Estrutura de H1/H2 adequada!")
  | _ => _export_consolidated_issues h1_h2_issues
  end.

End H1H2MissingSheet.

(** ** technical_problems_sheet.py *)

Module TechnicalProblemsSheet.

Definition get_sheet_name : string := "Problemas Técnicos".

Definition issue_columns : list string :=
  ["url"; "problema"; "criticidade"; "categoria"; "valor_atual";
   "valor_esperado"; "impacto_seo"; "action_required"; "technical_fix";
   "priority_score"].

Definition tech_issue (u p c : string) (priority_score : Z) : Issue :=
  mkIssue u p c priority_score None.

Definition _detect_page_type (row : Row) : string :=
  let url := Py.lower (url row) in
  if (Py.contains "/blog/" url || Py.contains "/artigo/" url
      || Py.contains "/post/" url)%bool
  then "Blog/Artigo"
  else if (Py.contains "/produto/" url || Py.contains "/product/" url)%bool
  then "Produto"
  else if (Py.contains "/categoria/" url || Py.contains "/category/" url)%bool
  then "Categoria"
  else if (Py.contains "/sobre" url || Py.contains "/about" url)%bool
  then "Institucional"
  else if (Py.contains "/contato" url || Py.contains "/contact" url)%bool
  then "Contato"
  else if (Py.endswith_char "/" url && Nat.leb (Py.count_char "/" url) 3)%bool
  then "Homepage"
  else "Conteúdo".

Definition _find_canonical_issues (df : Frame Row) : list Issue :=
  (if has_column df "canonical_url" then
     let no_canonical :=
       BaseSheet._safe_filter df "canonical_url"
         (fun r => String.eqb (Py.fillna (canonical_url r) "") "") in
     map (fun row => tech_issue (url row) "Sem canonical URL" "MÉDIO" 6)
         (rows no_canonical)
   else [])
    ++
    (if has_column df "canonical_is_self" then
       let canonical_not_self :=
         BaseSheet._safe_filter df "canonical_is_self"
           (fun r => Bool.eqb (Py.fillna (canonical_is_self r) true) false) in
       map (fun row =>
              tech_issue (url row) "Canonical aponta para outra URL" "BAIXO" 3)
           (rows canonical_not_self)
     else []).

Definition _find_viewport_issues (df : Frame Row) : list Issue :=
  if negb (has_column df "has_viewport") then []
  else
    let no_viewport :=
      BaseSheet._safe_filter df "has_viewport"
        (fun r => Bool.eqb (Py.fillna (has_viewport r) false) false) in
    map (fun row => tech_issue (url row) "Sem meta viewport" "ALTO" 8)
        (rows no_viewport).

Definition _find_charset_issues (df : Frame Row) : list Issue :=
  if negb (has_column df "has_charset") then []
  else
    let no_charset :=
      BaseSheet._safe_filter df "has_charset"
        (fun r => Bool.eqb (Py.fillna (has_charset r) false) false) in
    map (fun row => tech_issue (url row) "Sem charset definido" "MÉDIO" 5)
        (rows no_charset).

Definition schema_issue (row : Row) : list Issue :=
  let page_type := _detect_page_type row in
  if Py.mem page_type ["Produto"; "Blog/Artigo"; "Categoria"; "Institucional"]
  then
    let criticality :=
      if String.eqb page_type "Produto" then "MÉDIO" else "BAIXO" in
    let priority := if String.eqb page_type "Produto" then 7 else 4 in
    [tech_issue (url row) "Sem structured data (Schema)" criticality priority]
  else [].

Definition _find_schema_issues (df : Frame Row) : list Issue :=
  if negb (has_column df "schema_total_count") then []
  else
    let no_schema :=
      BaseSheet._safe_filter df "schema_total_count"
        (fun r => Z.eqb (Py.fillna (schema_total_count r) 0) 0) in
    flat_map schema_issue (rows no_schema).

Definition _find_robots_issues (df : Frame Row) : list Issue :=
  (if has_column df "meta_robots_noindex" then
     let noindex_pages :=
       BaseSheet._safe_filter df "meta_robots_noindex"
         (fun r => Bool.eqb (Py.fillna (meta_robots_noindex r) false) true) in
     map (fun row => tech_issue (url row) "Meta robots: noindex" "ALTO" 9)
         (rows noindex_pages)
   else [])
    ++
    (if has_column df "meta_robots_nofollow" then
       let nofollow_pages :=
         BaseSheet._safe_filter df "meta_robots_nofollow"
           (fun r => Bool.eqb (Py.fillna (meta_robots_nofollow r) false) true) in
       map (fun row => tech_issue (url row) "Meta robots: nofollow" "MÉDIO" 5)
           (rows nofollow_pages)
     else []).

Definition _find_favicon_issues (df : Frame Row) : list Issue :=
  if negb (has_column df "has_favicon") then []
  else
    let no_favicon :=
      BaseSheet._safe_filter df "has_favicon"
        (fun r => Bool.eqb (Py.fillna (has_favicon r) false) false) in
    map (fun row => tech_issue (url row) "Sem favicon" "BAIXO" 2)
        (rows no_favicon).

Definition og_issue (row : Row) : list Issue :=
  let page_type := _detect_page_type row in
  if Py.mem page_type ["Produto"; "Blog/Artigo"; "Homepage"]
  then
    let criticality :=
      if Py.mem page_type ["Produto"; "Homepage"] then "MÉDIO" else "BAIXO" in
    let priority := if Py.mem page_type ["Produto"; "Homepage"] then 6 else 3 in
    [tech_issue (url row) "Sem Open Graph tags" criticality priority]
  else [].

Definition _find_og_issues (df : Frame Row) : list Issue :=
  if negb (has_column df "og_tags_count") then []
  else
    let no_og :=
      BaseSheet._safe_filter df "og_tags_count"
        (fun r => Z.eqb (Py.fillna (og_tags_count r) 0) 0) in
    flat_map og_issue (rows no_og).

(** [sort_values(['priority_score', 'criticidade'],
    ascending=[False, True])]. *)
Definition priority_criticidade_leb (a b : Issue) : bool :=
  lex_leb (fun x y => Z.compare (prioridade y) (prioridade x))
          (fun x y => String.leb (criticidade x) (criticidade y)) a b.

Definition consolidate (issues : list Issue) : Frame Issue :=
  let issues_df := mkFrame issue_columns issues in
  let issues_df :=
    mkFrame (columns issues_df)
            (drop_duplicates pair_eqb url_problema (rows issues_df)) in
  mkFrame (columns issues_df)
          (stable_sort priority_criticidade_leb (rows issues_df)).

Definition _export_consolidated_issues (issues : list Issue)
  : option (Sheet Issue) :=
  match issues with
  | [] => None
  | _ =>
      let issues_df := consolidate issues in
      let cols := ["url"; "problema"; "criticidade"; "categoria";
                   "valor_atual"; "valor_esperado"; "impacto_seo";
                   "action_required"; "technical_fix"] in
      Some (BaseSheet._export_dataframe get_sheet_name i_url issues_df cols)
  end.

Definition detect (df : Frame Row) : list Issue :=
  _find_canonical_issues df ++ _find_viewport_issues df
    ++ _find_charset_issues df ++ _find_schema_issues df
    ++ _find_robots_issues df ++ _find_favicon_issues df
    ++ _find_og_issues df.

Definition create_sheet (df : Frame Row) : option (Sheet Issue) :=
  let technical_issues := detect df in
  match technical_issues with
  | [] => Some (BaseSheet._create_success_sheet
                  "✅ Nenhum problema técnico encontrado!")
  | _ => _export_consolidated_issues technical_issues
  end.

End TechnicalProblemsSheet.

(** ** performance_sheet.py *)

Module PerformanceSheet.

Definition get_sheet_name : string := "Problemas Performance".

Definition issue_columns : list string :=
  ["url"; "problema"; "criticidade"; "categoria"; "response_time";
   "content_length"; "content_length_mb"; "page_type";
   "core_web_vitals_impact"; "user_experience_impact"; "seo_impact";
   "action_required"; "technical_recommendations"; "business_impact";
   "priority_score"].

Definition _detect_page_type (row : Row) : string :=
  let url := Py.lower (url row) in
  if (Py.contains "/blog/" url || Py.contains "/artigo/" url)%bool
  then "Blog/Artigo"
  else if (Py.contains "/produto/" url || Py.contains "/product/" url)%bool
  then "Produto"
  else if (Py.contains "/categoria/" url || Py.contains "/category/" url)%bool
  then "Categoria"
  else if (Py.endswith_char "/" url && Nat.leb (Py.count_char "/" url) 3)%bool
  then "Homepage"
  else "Conteúdo".

(** [_bytes_to_mb]: [0] for a zero size. *)
Definition _bytes_to_mb (bytes_value : option Z) : option Q :=
  match bytes_value with
  | Some b => if Z.eqb b 0 then Some 0%Q else Some (b # 1048576)%Q
  | None => None
  end.

Section WithFormat.
Variable F : FloatFormat.

Definition slow_page_issue (cols : list string) (row : Row) : Issue :=
  let response_time := row_get cols "response_time" (response_time row) 0%Q in
  mkIssue (url row)
    (String.append "Página lenta ("
       (String.append (fmt_fixed F 2 response_time) "s)"))
    "ALTO" 8 response_time.

Definition _find_slow_pages_issues (df : Frame Row) : list Issue :=
  if negb (has_column df "response_time") then []
  else
    let slow_pages :=
      BaseSheet._safe_filter df "response_time"
        (fun r => (PyQ.ltb 3 (Py.fillna (response_time r) 0%Q)
                   && Qle_bool (Py.fillna (response_time r) 0%Q) 5)%bool) in
    map (slow_page_issue (columns slow_pages)) (rows slow_pages).

Definition very_slow_page_issue (cols : list string) (row : Row) : Issue :=
  let response_time := row_get cols "response_time" (response_time row) 0%Q in
  mkIssue (url row)
    (String.append "Página muito lenta ("
       (String.append (fmt_fixed F 2 response_time) "s)"))
    "CRÍTICO" 10 response_time.

Definition _find_very_slow_pages_issues (df : Frame Row) : list Issue :=
  if negb (has_column df "response_time") then []
  else
    let very_slow_pages :=
      BaseSheet._safe_filter df "response_time"
        (fun r => PyQ.ltb 5 (Py.fillna (response_time r) 0%Q)) in
    map (very_slow_page_issue (columns very_slow_pages))
        (rows very_slow_pages).

Definition heavy_page_issue (cols : list string) (row : Row) : Issue :=
  let content_length := row_get cols "content_length" (content_length row) 0 in
  let content_mb := _bytes_to_mb content_length in
  let criticality :=
    if PyQ.gt content_mb 5 then "CRÍTICO"
    else if PyQ.gt content_mb 3 then "ALTO" else "MÉDIO" in
  let priority :=
    if PyQ.gt content_mb 5 then 9
    else if PyQ.gt content_mb 3 then 7 else 5 in
  mkIssue (url row)
    (String.append "Página pesada ("
       (String.append (fmt_fixed F 1 content_mb) " MB)"))
    criticality priority
    (row_get cols "response_time" (response_time row) 0%Q).

Definition _find_heavy_pages_issues (df : Frame Row) : list Issue :=
  if negb (has_column df "content_length") then []
  else
    let heavy_pages :=
      BaseSheet._safe_filter df "content_length"
        (fun r => Z.ltb 1048576 (Py.fillna (content_length r) 0)) in
    map (heavy_page_issue (columns heavy_pages)) (rows heavy_pages).

Definition resource_heavy_issue (cols : list string) (row : Row)
  : list Issue :=
  let images_cell := images_count row in
  let links_cell := total_links_count row in
  let images_count := row_get cols "images_count" images_cell 0 in
  let total_links := row_get cols "total_links_count" links_cell 0 in
  let total_resources := Py.add images_count total_links in
  let resource_problems :=
    (if Py.gt images_count 50
     then [String.append (str_of_count F cols "images_count" images_cell 0)
                         " imagens"]
     else [])
      ++ (if Py.gt total_links 200
          then [String.append
                  (str_of_count F cols "total_links_count" links_cell 0)
                  " links"]
          else []) in
  match resource_problems with
  | [] => []
  | _ =>
      if Py.gt total_resources 100 then
        let criticality :=
          if Py.gt total_resources 300 then "ALTO" else "MÉDIO" in
        [mkIssue (url row)
           (String.append "Muitos recursos: "
                          (Py.join ", " resource_problems))
           criticality 6
           (row_get cols "response_time" (response_time row) 0%Q)]
      else []
  end.

Definition _find_resource_heavy_issues (df : Frame Row) : list Issue :=
  flat_map (resource_heavy_issue (columns df)) (rows df).

Definition content_efficiency_issue (cols : list string) (row : Row)
  : Issue :=
  let text_ratio := row_get cols "text_ratio" (text_ratio row) 0%Q in
  mkIssue (url row)
    (String.append "Baixa eficiência de conteúdo ("
       (String.append (fmt_percent F 1 text_ratio) " texto)"))
    "BAIXO" 3
    (row_get cols "response_time" (response_time row) 0%Q).

Definition _find_content_efficiency_issues (df : Frame Row) : list Issue :=
  if negb (has_column df "text_ratio") then []
  else
    let low_text_ratio :=
      BaseSheet._safe_filter df "text_ratio"
        (fun r => PyQ.ltb (Py.fillna (text_ratio r) 1%Q) (1 # 10)%Q) in
    map (content_efficiency_issue (columns low_text_ratio))
        (rows low_text_ratio).

(** [sort_values(['priority_score', 'response_time'],
    ascending=[False, False])]: missing response times go last. *)
Definition response_time_desc_leb (a b : Issue) : bool :=
  match i_response_time a, i_response_time b with
  | _, None => true
  | None, Some _ => false
  | Some x, Some y => Qle_bool y x
  end.

Definition priority_response_leb (a b : Issue) : bool :=
  lex_leb (fun x y => Z.compare (prioridade y) (prioridade x))
          response_time_desc_leb a b.

Definition consolidate (issues : list Issue) : Frame Issue :=
  let issues_df := mkFrame issue_columns issues in
  let issues_df :=
    mkFrame (columns issues_df)
            (drop_duplicates pair_eqb url_problema (rows issues_df)) in
  mkFrame (columns issues_df)
          (stable_sort priority_response_leb (rows issues_df)).

Definition _export_consolidated_issues (issues : list Issue)
  : option (Sheet Issue) :=
  match issues with
  | [] => None
  | _ =>
      let issues_df := consolidate issues in
      let cols := ["url"; "problema"; "criticidade"; "categoria";
                   "response_time"; "content_length_mb"; "page_type";
                   "core_web_vitals_impact"; "user_experience_impact";
                   "seo_impact"; "action_required";
                   "technical_recommendations"; "business_impact"] in
      Some (BaseSheet._export_dataframe get_sheet_name i_url issues_df cols)
  end.

Definition detect (df : Frame Row) : list Issue :=
  _find_slow_pages_issues df ++ _find_very_slow_pages_issues df
    ++ _find_heavy_pages_issues df ++ _find_resource_heavy_issues df
    ++ _find_content_efficiency_issues df.

Definition create_sheet (df : Frame Row) : option (Sheet Issue) :=
  let performance_issues := detect df in
  match performance_issues with
  | [] => Some (BaseSheet._create_success_sheet
                  "✅ Nenhum problema de performance encontrado!")
  | _ => _export_consolidated_issues performance_issues
  end.
End WithFormat.

End PerformanceSheet.

(** ** image_problems_sheet.py *)

Module ImageProblemsSheet.

Definition get_sheet_name : string := "Problemas Imagens".

Definition issue_columns : list string :=
  ["url"; "problema"; "criticidade"; "images_count"; "images_without_alt";
   "images_with_alt"; "alt_coverage"; "page_type"; "accessibility_impact";
   "seo_impact"; "action_required"; "technical_fix"; "images_without_src"].

Definition _detect_page_type (row : Row) : string :=
  let url := Py.lower (url row) in
  if (Py.contains "/blog/" url || Py.contains "/artigo/" url)%bool
  then "Blog/Artigo"
  else if (Py.contains "/produto/" url || Py.contains "/product/" url)%bool
  then "Produto"
  else if (Py.contains "/categoria/" url || Py.contains "/category/" url)%bool
  then "Categoria"
  else if (Py.contains "/galeria/" url || Py.contains "/gallery/" url)%bool
  then "Galeria"
  else if (Py.contains "/sobre" url || Py.contains "/about" url)%bool
  then "Institucional"
  else "Conteúdo".

Definition no_alt_issue (F : FloatFormat) (cols : list string) (row : Row)
  : Issue :=
  let cell := images_without_alt row in
  let images_without_alt := row_get cols "images_without_alt" cell 0 in
  let criticality := if Py.gt images_without_alt 5 then "CRÍTICO" else "ALTO" in
  plain_issue (url row)
    (String.append (str_of_count F cols "images_without_alt" cell 0)
                   " imagens sem ALT")
    criticality.

Definition _find_no_alt_issues (F : FloatFormat) (df : Frame Row)
  : list Issue :=
  if negb (has_column df "images_without_alt") then []
  else
    let no_alt_pages :=
      BaseSheet._safe_filter df "images_without_alt"
        (fun r => Z.ltb 0 (Py.fillna (images_without_alt r) 0)) in
    map (no_alt_issue F (columns no_alt_pages)) (rows no_alt_pages).

Definition no_src_issue (F : FloatFormat) (cols : list string) (row : Row)
  : Issue :=
  plain_issue (url row)
    (String.append
       (str_of_count F cols "images_without_src" (images_without_src row) 0)
       " imagens sem SRC")
    "CRÍTICO".

Definition _find_no_src_issues (F : FloatFormat) (df : Frame Row)
  : list Issue :=
  if negb (has_column df "images_without_src") then []
  else
    let no_src_pages :=
      BaseSheet._safe_filter df "images_without_src"
        (fun r => Z.ltb 0 (Py.fillna (images_without_src r) 0)) in
    map (no_src_issue F (columns no_src_pages)) (rows no_src_pages).

Definition many_images_issue (F : FloatFormat) (cols : list string)
           (row : Row) : Issue :=
  let cell := images_count row in
  let images_count := row_get cols "images_count" cell 0 in
  let criticality := if Py.gt images_count 100 then "ALTO" else "MÉDIO" in
  plain_issue (url row)
    (String.append "Muitas imagens ("
       (String.append (str_of_count F cols "images_count" cell 0)
                      " imagens)"))
    criticality.

Definition _find_many_images_issues (F : FloatFormat) (df : Frame Row)
  : list Issue :=
  if negb (has_column df "images_count") then []
  else
    let many_images :=
      BaseSheet._safe_filter df "images_count"
        (fun r => Z.ltb 50 (Py.fillna (images_count r) 0)) in
    map (many_images_issue F (columns many_images)) (rows many_images).

Definition no_images_issue (row : Row) : list Issue :=
  let page_type := _detect_page_type row in
  if Py.mem page_type ["Produto"; "Blog/Artigo"; "Categoria"]
  then [plain_issue (url row) "Nenhuma imagem encontrada"
          (if String.eqb page_type "Produto" then "MÉDIO" else "BAIXO")]
  else [].

Definition _find_no_images_issues (df : Frame Row) : list Issue :=
  if negb (has_column df "images_count") then []
  else
    let no_images :=
      BaseSheet._safe_filter df "images_count"
        (fun r => Z.eqb (Py.fillna (images_count r) 0) 0) in
    flat_map no_images_issue (rows no_images).

(** The rule runs on a frame that has both columns.  The coverage,
    [images_with_dimensions / images_count * 100], is a float quotient,
    and a comparison with a missing value is false. *)
Definition dimension_issue (F : FloatFormat) (cols : list string) (row : Row)
  : list Issue :=
  let images_count := row_get cols "images_count" (images_count row) 0 in
  let images_with_dimensions :=
    row_get cols "images_with_dimensions" (images_with_dimensions row) 0 in
  if Py.gt images_count 0 then
    let images_without_dimensions :=
      Py.sub images_count images_with_dimensions in
    match images_count, images_with_dimensions with
    | Some c, Some d =>
        if (pct_below F d c 80 && Py.gt images_without_dimensions 0)%bool
        then [plain_issue (url row)
                (String.append
                   (fmt_diff F "images_count" "images_with_dimensions" c d)
                   " imagens sem dimensões")
                "BAIXO"]
        else []
    | _, _ => []
    end
  else [].

Definition _find_dimension_issues (F : FloatFormat) (df : Frame Row)
  : list Issue :=
  if (negb (has_column df "images_with_dimensions")
      || negb (has_column df "images_count"))%bool
  then []
  else flat_map (dimension_issue F (columns df)) (rows df).

Definition consolidate (issues : list Issue) : Frame Issue :=
  let issues_df := mkFrame issue_columns issues in
  let issues_df :=
    mkFrame (columns issues_df)
            (drop_duplicates pair_eqb url_problema (rows issues_df)) in
  BaseSheet._sort_by_criticality issues_df.

Definition _export_consolidated_issues (issues : list Issue)
  : option (Sheet Issue) :=
  match issues with
  | [] => None
  | _ =>
      let issues_df := consolidate issues in
      let cols := ["url"; "problema"; "criticidade"; "images_count";
                   "images_without_alt"; "images_with_alt"; "alt_coverage";
                   "page_type"; "accessibility_impact"; "seo_impact";
                   "action_required"; "technical_fix"] in
      Some (BaseSheet._export_dataframe get_sheet_name i_url issues_df cols)
  end.

Definition detect (F : FloatFormat) (df : Frame Row) : list Issue :=
  _find_no_alt_issues F df ++ _find_no_src_issues F df
    ++ _find_many_images_issues F df ++ _find_no_images_issues df
    ++ _find_dimension_issues F df.

Definition create_sheet (F : FloatFormat) (df : Frame Row)
  : option (Sheet Issue) :=
  let image_issues := detect F df in
  match image_issues with
  | [] => Some (BaseSheet._create_success_sheet
                  "✅ Nenhum problema de imagem encontrado!")
  | _ => _export_consolidated_issues image_issues
  end.

End ImageProblemsSheet.

(** ** status_problems_sheet.py *)

Module StatusProblemsSheet.

Definition get_sheet_name : string := "Erros HTTP".

(** The order of [sort_values('status_code')]: ascending, missing codes
    last. *)
Definition status_leb (a b : Row) : bool :=
  match status_code a, status_code b with
  | _, None => true
  | None, Some _ => false
  | Some x, Some y => Z.leb x y
  end.

(** The sort itself is pandas' default quicksort, which may reorder rows
    of equal code: [sort_values] is a parameter of the sheet. *)
Definition create_sheet (sort_values : list Row -> list Row) (df : Frame Row)
  : option (Sheet Row) :=
  if negb (has_column df "status_code")
  then Some (BaseSheet._create_error_sheet "Coluna status_code não encontrada")
  else
    let status_problems :=
      BaseSheet._safe_filter df "status_code"
        (fun r => negb (Z.eqb (Py.fillna (status_code r) 0) 200)) in
    if frame_empty status_problems
    then Some (BaseSheet._create_success_sheet "✅ Nenhum erro HTTP encontrado!")
    else
      let status_problems :=
        mkFrame (columns status_problems)
                (sort_values (rows status_problems)) in
      let cols := ["url"; "status_code"; "final_url"; "response_time"] in
      Some (BaseSheet._export_dataframe get_sheet_name url status_problems cols).

End StatusProblemsSheet.

(** ** mixed_content_sheet.py *)

Module MixedContentSheet.

Definition get_sheet_name : string := "🔒 Mixed Content".

Record MixedIssue := mkMixedIssue {
  mi_url : string;
  tipo_mixed_content : string;
  tipo_recurso : string;
  url_http : string;
  risco : option string
}.

Definition issue_columns : list string :=
  ["url"; "tipo_mixed_content"; "tipo_recurso"; "url_http"; "risco";
   "impacto"; "solucao"].

(** [row.get(c, [])] for a column of detail lists, and its truth value:
    an empty list and Python's [None] are false, a missing value (NaN) is
    true. *)
Definition truthy_details (d : option (option (list MixedItem))) : bool :=
  match d with
  | Some (Some []) => false
  | Some None => false
  | _ => true
  end.

(** The loop runs when the cell is true and a list. *)
Definition detail_issues (tipo risk : string) (u : string)
           (d : option (option (list MixedItem))) : list MixedIssue :=
  match d with
  | Some (Some items) =>
      map (fun item =>
             mkMixedIssue u tipo
               (Py.upper (Py.fillna (m_type item) "unknown"))
               (Py.fillna (m_url item) "")
               (Some risk))
          items
  | _ => []
  end.

Definition https_row_issues (F : FloatFormat) (cols : list string) (row : Row)
  : list MixedIssue :=
  let url := url row in
  let active_cell := active_mixed_content_count row in
  let passive_cell := passive_mixed_content_count row in
  let active_count :=
    row_get cols "active_mixed_content_count" active_cell 0 in
  let passive_count :=
    row_get cols "passive_mixed_content_count" passive_cell 0 in
  let active_details :=
    row_get cols "active_mixed_content_details"
            (active_mixed_content_details row) (Some []) in
  let passive_details :=
    row_get cols "passive_mixed_content_details"
            (passive_mixed_content_details row) (Some []) in
  detail_issues "ACTIVE (Crítico)" "CRÍTICO - Bloqueado pelo browser"
                url active_details
    ++ detail_issues "PASSIVE (Aviso)" "MÉDIO - Cadeado quebrado"
                     url passive_details
    ++ (if ((negb (truthy_details active_details) && Py.gt active_count 0)
            || (negb (truthy_details passive_details)
                && Py.gt passive_count 0))%bool
        then
          let risk_level :=
            row_get cols "mixed_content_risk" (mixed_content_risk row)
                    "DESCONHECIDO" in
          [mkMixedIssue url "MIXED CONTENT" "MÚLTIPLOS"
             (String.append
                (str_of_count F cols "active_mixed_content_count"
                              active_cell 0)
                (String.append " active + "
                   (String.append
                      (str_of_count F cols "passive_mixed_content_count"
                                    passive_cell 0)
                      " passive")))
             risk_level]
        else []).

(** The mask handed to [_safe_filter] is built first, from
    [df['is_https_page']] and [df['total_mixed_content_count']]. *)
Definition _process_https_issues (F : FloatFormat) (df : Frame Row)
  : result (list MixedIssue) :=
  column_or_raise df "is_https_page"
    (column_or_raise df "total_mixed_content_count"
       (let https_pages :=
          BaseSheet._safe_filter df "is_https_page"
            (fun r => (Bool.eqb (Py.fillna (is_https_page r) false) true
                       && Z.ltb 0 (Py.fillna (total_mixed_content_count r) 0))%bool) in
        Ok (flat_map (https_row_issues F (columns https_pages))
                     (rows https_pages)))).

Definition http_row_issues (F : FloatFormat) (cols : list string) (row : Row)
  : list MixedIssue :=
  let url := url row in
  let links_cell := http_links_count row in
  let forms_cell := http_forms_count row in
  let links_count := row_get cols "http_links_count" links_cell 0 in
  let forms_count := row_get cols "http_forms_count" forms_cell 0 in
  (if Py.gt links_count 0
   then [mkMixedIssue url "HTTP LINKS" "LINKS"
           (String.append (str_of_count F cols "http_links_count" links_cell 0)
                          " links HTTP")
           (Some "BAIXO - Não é mixed content")]
   else [])
    ++ (if Py.gt forms_count 0
        then [mkMixedIssue url "HTTP FORMS" "FORMS"
                (String.append
                   (str_of_count F cols "http_forms_count" forms_cell 0)
                   " forms HTTP")
                (Some "MÉDIO - Dados não criptografados")]
        else []).

Definition _process_http_issues (F : FloatFormat) (df : Frame Row)
  : result (list MixedIssue) :=
  column_or_raise df "http_links_count"
    (column_or_raise df "http_forms_count"
       (let http_pages :=
          BaseSheet._safe_filter df "http_links_count"
            (fun r => (Z.ltb 0 (Py.fillna (http_links_count r) 0)
                       || Z.ltb 0 (Py.fillna (http_forms_count r) 0))%bool) in
        Ok (flat_map (http_row_issues F (columns http_pages))
                     (rows http_pages)))).

Definition risk_order (r : option string) : nat :=
  match r with
  | Some s =>
      if String.eqb s "CRÍTICO - Bloqueado pelo browser" then 1%nat
      else if String.eqb s "MÉDIO - Cadeado quebrado" then 2%nat
      else if String.eqb s "MÉDIO - Dados não criptografados" then 3%nat
      else if String.eqb s "BAIXO - Não é mixed content" then 4%nat
      else 5%nat
  | None => 5%nat
  end.

Definition risk_url_leb (a b : MixedIssue) : bool :=
  lex_leb (fun x y => Nat.compare (risk_order (risco x)) (risk_order (risco y)))
          (fun x y => String.leb (mi_url x) (mi_url y)) a b.

Definition dedup_key (i : MixedIssue) : string * (string * string) :=
  (mi_url i, (tipo_mixed_content i, url_http i)).

Definition dedup_key_eqb (a b : string * (string * string)) : bool :=
  (String.eqb (fst a) (fst b)
   && String.eqb (fst (snd a)) (fst (snd b))
   && String.eqb (snd (snd a)) (snd (snd b)))%bool.

Definition _export_issues (issues : list MixedIssue) : Sheet MixedIssue :=
  let issues_df := mkFrame issue_columns issues in
  let issues_df :=
    mkFrame (columns issues_df)
            (drop_duplicates dedup_key_eqb dedup_key (rows issues_df)) in
  let issues_df :=
    mkFrame (columns issues_df)
            (stable_sort risk_url_leb (rows issues_df)) in
  TableSheet (columns issues_df) (rows issues_df).

(** What [_export_issues] does once the table is written: it counts the
    rows by risk with [issues_df['risco'].str.contains].  On a frame in
    which a risk is missing that raises inside pandas; the text of the
    exception is a parameter. *)
Definition risk_missing (i : MixedIssue) : bool :=
  match risco i with
  | None => true
  | Some _ => false
  end.

Definition _export_issues_statistics (pandas_error : string)
           (issues : list MixedIssue) : result unit :=
  let issues_df := drop_duplicates dedup_key_eqb dedup_key issues in
  if existsb risk_missing issues_df
  then Raise (PandasError pandas_error)
  else Ok tt.

(** [create_sheet] catches whatever the two passes and the export raise
    and writes the error sheet.  When it is the statistics of the export
    that raise, the table has been handed to the writer before, and the
    error marker follows it under the same sheet name. *)
Definition create_sheet (F : FloatFormat) (pandas_error : string)
           (df : Frame Row) : option (Sheet MixedIssue) :=
  match _process_https_issues F df with
  | Raise e =>
      Some (BaseSheet._create_error_sheet
              (String.append "Erro: " (str_of_exn e)))
  | Ok https_issues =>
      match _process_http_issues F df with
      | Raise e =>
          Some (BaseSheet._create_error_sheet
                  (String.append "Erro: " (str_of_exn e)))
      | Ok http_issues =>
          match https_issues ++ http_issues with
          | [] =>
              Some (BaseSheet._create_success_sheet
                      (String.append
                         "✅ Nenhum problema de Mixed Content encontrado!"
                         (String.append (String "010" EmptyString)
                            "🔒 Todas as páginas HTTPS estão seguras")))
          | mixed_content_issues =>
              match _export_issues_statistics pandas_error
                                              mixed_content_issues with
              | Ok _ => Some (_export_issues mixed_content_issues)
              | Raise e =>
                  Some (BaseSheet._create_error_sheet
                          (String.append "Erro: " (str_of_exn e)))
              end
          end
      end
  end.

End MixedContentSheet.

(** ** summary_sheet.py *)

Module SummarySheet.

Definition get_sheet_name : string := "Resumo Executivo".

Record SummaryRow := mkSummaryRow {
  metrica : string;
  valor : Z;
  percentual : string
}.

Section WithFormat.
Variable F : FloatFormat.

(** [f"{count/total_urls*100:.1f}%"] *)
Definition percentage (count total_urls : nat) : string :=
  String.append
    (fmt_fixed F 1
       (Some ((Z.of_nat count # Pos.of_nat total_urls) * 100)%Q))
    "%".

Definition stat_row (label : string) (count total_urls : nat)
  : list SummaryRow :=
  if Nat.ltb 0 count
  then [mkSummaryRow label (Z.of_nat count) (percentage count total_urls)]
  else [].

Definition count_rows (df : Frame Row) (p : Row -> bool) : nat :=
  List.length (filter p (rows df)).

(** [df['status_code'].value_counts()]: the distinct codes with their
    counts, most frequent first (codes of equal count in order of first
    appearance); missing codes are not counted. *)
Definition value_counts (l : list (option Z)) : list (Z * nat) :=
  let present := flat_map (fun c => match c with Some v => [v] | None => [] end) l in
  let keys := drop_duplicates Z.eqb (fun k : Z => k) present in
  stable_sort (fun a b : Z * nat => Nat.leb (snd b) (snd a))
    (map (fun k => (k, List.length (filter (Z.eqb k) present))) keys).

Definition _add_status_codes_stats (df : Frame Row) (total_urls : nat)
  : list SummaryRow :=
  if negb (has_column df "status_code") then []
  else
    map (fun sc : Z * nat =>
           mkSummaryRow
             (String.append "Status " (fmt_count F "status_code" (fst sc)))
                        (Z.of_nat (snd sc))
                        (percentage (snd sc) total_urls))
        (firstn 10 (value_counts (map status_code (rows df)))).

Definition _add_seo_problems_stats (df : Frame Row) (total_urls : nat)
  : list SummaryRow :=
  (if has_column df "title"
   then stat_row "URLs sem título"
          (count_rows df (fun r => String.eqb (Py.fillna (title r) "") ""))
          total_urls
   else [])
    ++ (if has_column df "meta_description"
        then stat_row "URLs sem meta description"
               (count_rows df
                  (fun r => String.eqb (Py.fillna (meta_description r) "") ""))
               total_urls
        else [])
    ++ (if has_column df "h1_count"
        then stat_row "URLs sem H1"
               (count_rows df (fun r => Z.eqb (Py.fillna (h1_count r) 0) 0))
               total_urls
        else [])
    ++ (if has_column df "h2_count"
        then stat_row "URLs sem H2"
               (count_rows df (fun r => Z.eqb (Py.fillna (h2_count r) 0) 0))
               total_urls
        else [])
    ++ (if has_column df "images_without_alt"
        then stat_row "URLs com imagens sem ALT"
               (count_rows df
                  (fun r => Z.ltb 0 (Py.fillna (images_without_alt r) 0)))
               total_urls
        else []).

Definition _add_technical_stats (df : Frame Row) (total_urls : nat)
  : list SummaryRow :=
  (if has_column df "canonical_url"
   then stat_row "URLs sem canonical"
          (count_rows df
             (fun r => String.eqb (Py.fillna (canonical_url r) "") ""))
          total_urls
   else [])
    ++ (if has_column df "has_viewport"
        then stat_row "URLs sem viewport"
               (count_rows df
                  (fun r => Bool.eqb (Py.fillna (has_viewport r) false) false))
               total_urls
        else [])
    ++ (if has_column df "response_time"
        then stat_row "URLs lentas (>3s)"
               (count_rows df
                  (fun r => PyQ.ltb 3 (Py.fillna (response_time r) 0%Q)))
               total_urls
        else []).

Definition _add_mixed_content_stats (df : Frame Row) (total_urls : nat)
  : list SummaryRow :=
  (if has_column df "total_mixed_content_count"
   then stat_row "URLs com Mixed Content"
          (count_rows df
             (fun r => Z.ltb 0 (Py.fillna (total_mixed_content_count r) 0)))
          total_urls
   else [])
    ++ (if has_column df "active_mixed_content_count"
        then stat_row "URLs com Mixed Content CRÍTICO"
               (count_rows df
                  (fun r => Z.ltb 0 (Py.fillna (active_mixed_content_count r) 0)))
               total_urls
        else [])
    ++ (if has_column df "is_https_page"
        then stat_row "Total páginas HTTPS"
               (count_rows df
                  (fun r => Bool.eqb (Py.fillna (is_https_page r) false) true))
               total_urls
        else []).

Definition create_sheet (df : Frame Row) : option (Sheet SummaryRow) :=
  let total_urls := List.length (rows df) in
  if Nat.eqb total_urls 0
  then Some (BaseSheet._create_error_sheet "Nenhum dado para resumir")
  else
    let summary_data :=
      [mkSummaryRow "Total de URLs" (Z.of_nat total_urls) "100%"]
        ++ _add_status_codes_stats df total_urls
        ++ _add_seo_problems_stats df total_urls
        ++ _add_technical_stats df total_urls
        ++ _add_mixed_content_stats df total_urls in
    match summary_data with
    | [] => Some (BaseSheet._create_error_sheet "Erro na criação do resumo")
    | _ => Some (TableSheet ["Métrica"; "Valor"; "Percentual"] summary_data)
    end.
End WithFormat.

End SummarySheet.

(** ** excel_exporter.py *)

Module ExcelExporter.

Definition _get_column_order : list string :=
  ["url"; "final_url"; "status_code";
   "title"; "title_length"; "title_words";
   "meta_description"; "meta_description_length"; "meta_keywords";
   "h1_count"; "h1_text"; "h1_length";
   "h2_count"; "h3_count"; "h4_count"; "h5_count"; "h6_count";
   "internal_links_count"; "external_links_count"; "total_links_count";
   "images_count"; "images_without_alt"; "images_without_src";
   "word_count"; "character_count"; "text_ratio";
   "canonical_url"; "canonical_is_self"; "meta_robots";
   "has_viewport"; "has_charset"; "has_favicon";
   "schema_total_count"; "og_tags_count"; "twitter_tags_count";
   "response_time"; "content_length"; "content_type";
   "crawl_timestamp"].

(** The column order of the raw-data view, as [export_results] builds
    it from the frame's columns. *)
Definition final_columns (df_columns : list string) : list string :=
  let column_order := _get_column_order in
  let available_columns :=
    filter (fun col => Py.mem col df_columns) column_order in
  let extra_columns :=
    filter (fun col => negb (Py.mem col column_order)) df_columns in
  available_columns ++ stable_sort String.leb extra_columns.

(** What [export_results] hands back when it returns: the path of the
    workbook and its first sheet, the raw-data view 'Dados Completos'.
    The empty path with no sheet at all stands for the two early returns.
    The view is written with [fillna('')], a missing cell shown as empty
    text; the model keeps the rows as they are and follows the columns.
    The other sheets of the workbook are written after the raw-data view
    by the exporter's own [_create_*] helpers and are not part of this
    model. *)
Record Exported := mkExported {
  filepath : string;
  dados_completos : option (Sheet Row)
}.

(** The world around [export_results]: the clock as
    [datetime.now().strftime('%Y%m%d_%H%M%S')] reads it, [os.path.join],
    and the text of the exception, if any, raised inside the [try] block
    while the workbook is written (by the file system, the Excel engine or
    the sheets that follow the raw-data view). *)
Record Environment := mkEnvironment {
  timestamp : string;
  path_join : string -> string -> string;
  write_error : option string
}.

(** [export_results] returns, or raises [ExportException] with its
    message and the path of the workbook. *)
Inductive Outcome :=
| Returned (e : Exported)
| ExportException (error_msg filename : string).

(** [if not filename]: a name made from the clock replaces a missing or
    empty file name. *)
Definition workbook_name (env : Environment) (filename : option string)
  : string :=
  match filename with
  | None | Some EmptyString =>
      String.append "seofrog_crawl_"
                    (String.append (timestamp env) ".xlsx")
  | Some name => name
  end.

Definition export_results (env : Environment) (output_dir : string)
           (crawl_data : Frame Row) (filename : option string) : Outcome :=
  match rows crawl_data with
  | [] => Returned (mkExported "" None)
  | _ =>
      let filename := workbook_name env filename in
      let filepath := path_join env output_dir filename in
      let df := crawl_data in
      if frame_empty df then Returned (mkExported "" None)
      else
        match write_error env with
        | Some e =>
            ExportException (String.append "Erro exportando Excel: " e)
                            filepath
        | None =>
            Returned
              (mkExported filepath
                 (Some (TableSheet (final_columns (columns df)) (rows df))))
        end
  end.

End ExcelExporter.

(** * Vocabulary of the statements *)

(** The rank of an issue under the criticality order. *)
Definition rank (i : Issue) : nat :=
  BaseSheet.criticality_order (criticidade i).

Definition named_criticalities : list string :=
  ["CRÍTICO MÁXIMO"; "CRÍTICO"; "ALTO"; "MÉDIO"; "BAIXO"].

(** Rank first, url as the tiebreak. *)
Definition rank_url_le (a b : Issue) : Prop :=
  (rank a < rank b)%nat \/
  (rank a = rank b /\ String.leb (i_url a) (i_url b) = true).

Definition ranks_ascending (l : list Issue) : Prop :=
  StronglySorted (fun a b => (rank a <= rank b)%nat) l.

(** The first row of a list that carries a given url. *)
Definition first_with_url {A} (url : A -> string) (u : string) (l : list A)
  : option A :=
  find (fun x => String.eqb (url x) u) l.

(** Labels of the length rules, with the measured value embedded as
    the f-string prints it. *)
Definition long_title_label (F : FloatFormat) (n : Z) : string :=
  String.append "Título muito longo ("
                (String.append (fmt_count F "title_length" n) " chars)").

Definition short_title_label (F : FloatFormat) (n : Z) : string :=
  String.append "Título muito curto ("
                (String.append (fmt_count F "title_length" n) " chars)").

Definition long_meta_label (F : FloatFormat) (n : Z) : string :=
  String.append "Meta description muito longa ("
    (String.append (fmt_count F "meta_description_length" n) " chars)").

Definition short_meta_label (F : FloatFormat) (n : Z) : string :=
  String.append "Meta description muito curta ("
    (String.append (fmt_count F "meta_description_length" n) " chars)").

(** An environment in which the workbook can be written: a fixed clock
    and the path join of a POSIX system for a relative file name. *)
Definition posix_environment : ExcelExporter.Environment :=
  ExcelExporter.mkEnvironment "20240101_120000"
    (fun dir name => String.append dir (String.append "/" name))
    None.

(** The number format of a frame whose columns of counts pandas holds as
    integers: a count is printed in decimal and the percentage of two
    counts is exact.  (The texts of floats are placeholders.) *)
Definition integer_format : FloatFormat :=
  mkFloatFormat (fun _ _ => "float") (fun _ _ => "float%")
                (fun _ v => Py.str_of_Z v)
                (fun _ _ x y => Py.str_of_Z (x - y))
                (fun x y k => Z.ltb (x * 100) (k * y)).

(** A record whose cell holds a non-empty string. *)
Definition non_empty_text (cell : option string) : Prop :=
  exists t, cell = Some t /\ t <> "".

(** Records used as concrete inputs: only the named fields are present. *)
Definition title_row (u t : string) (n : Z) : Row :=
  mkRow u None (Some t) (Some n) None None None None None None None None None
        None None None None None None None None None None None None None None
        None None None None None None None None None None None None.

Definition meta_row (u m : string) (n : Z) : Row :=
  mkRow u None None None (Some m) (Some n) None None None None None None None
        None None None None None None None None None None None None None None
        None None None None None None None None None None None None.

Definition heading_row (u : string) (h1 h2 : Z) : Row :=
  mkRow u None None None None None (Some h1) (Some h2) None None None None
        None None None None None None None None None None None None None None
        None None None None None None None None None None None None None.

Definition resource_row (u : string) (images links : Z) (seconds : Q) : Row :=
  mkRow u None None None None None None None None None None None None
        (Some images) None None None (Some links) None None None None None
        None None None None (Some seconds) None None None None None None None
        None None None None.

(** The records of a frame whose title is exactly [t], and the label of
    the duplicate-title issue for a group of [n] records. *)
Definition rows_with_title (t : string) (df : Frame Row) : list Row :=
  filter (key_is title t) (rows df).



(** Orders of the consolidated reports.  [rank_priority_le]: rank first,
    higher priority score first within a rank.  [priority_response_le]:
    higher priority score first, slower response first within a score. *)
Definition rank_priority_le (a b : Issue) : Prop :=
  (rank a < rank b)%nat \/ (rank a = rank b /\ prioridade b <= prioridade a).

Definition priority_response_le (a b : Issue) : Prop :=
  prioridade b < prioridade a \/
  (prioridade a = prioridade b /\
   PerformanceSheet.response_time_desc_leb a b = true).

(** The rank that goes with a priority score of the technical rules:
    8 and 9 are ALTO, 5 to 7 MÉDIO, 2 to 4 BAIXO. *)
Definition technical_band (p : Z) : nat :=
  if 8 <=? p then 2%nat else if 5 <=? p then 3%nat else 4%nat.

(** Two pages with as many resources but different totals: same priority
    score, different criticality. *)
Definition resource_pages : Frame Row :=
  mkFrame ["url"; "images_count"; "total_links_count"; "response_time"]
    [resource_row "https://a/" 60 50 2; resource_row "https://b/" 60 250 1].

(** A report written as its all-clear marker. *)
Definition is_all_clear {A} (s : option (Sheet A)) : Prop :=
  exists msg, s = Some (SuccessSheet msg).

(** The page-type classifier in the words of the specification: ordered
    substring checks on the lower-cased url where the first match wins,
    then (where the rule pack has it) the homepage heuristic, a url ending
    with the separator and holding at most three separators, and
    otherwise the generic tag.  To be compared with each rule pack's
    [_detect_page_type]. *)
Fixpoint first_match (checks : list (list string * string)) (u : string)
  : option string :=
  match checks with
  | [] => None
  | (patterns, tag) :: rest =>
      if existsb (fun p => Py.contains p u) patterns then Some tag
      else first_match rest u
  end.

Definition homepage_heuristic (u : string) : bool :=
  (Py.endswith_char "/" u && Nat.leb (Py.count_char "/" u) 3)%bool.

Definition spec_classifier (checks : list (list string * string))
           (with_homepage : bool) (raw_url : string) : string :=
  let u := Py.lower raw_url in
  match first_match checks u with
  | Some tag => tag
  | None =>
      if (with_homepage && homepage_heuristic u)%bool then "Homepage"
      else "Conteúdo"
  end.

Definition seven_tags : list string :=
  ["Blog/Artigo"; "Produto"; "Categoria"; "Institucional"; "Contato";
   "Homepage"; "Conteúdo"].

Definition h1h2_checks : list (list string * string) :=
  [(["/blog/"; "/artigo/"], "Blog/Artigo");
   (["/produto/"; "/product/"], "Produto");
   (["/categoria/"; "/category/"], "Categoria");
   (["/sobre"; "/about"], "Institucional");
   (["/contato"; "/contact"], "Contato")].

Definition technical_checks : list (list string * string) :=
  [(["/blog/"; "/artigo/"; "/post/"], "Blog/Artigo");
   (["/produto/"; "/product/"], "Produto");
   (["/categoria/"; "/category/"], "Categoria");
   (["/sobre"; "/about"], "Institucional");
   (["/contato"; "/contact"], "Contato")].

Definition image_checks : list (list string * string) :=
  [(["/blog/"; "/artigo/"], "Blog/Artigo");
   (["/produto/"; "/product/"], "Produto");
   (["/categoria/"; "/category/"], "Categoria");
   (["/galeria/"; "/gallery/"], "Galeria");
   (["/sobre"; "/about"], "Institucional")].

Definition performance_checks : list (list string * string) :=
  [(["/blog/"; "/artigo/"], "Blog/Artigo");
   (["/produto/"; "/product/"], "Produto");
   (["/categoria/"; "/category/"], "Categoria")].

(** * Vocabulary of the further properties *)

(** Issues of the same rank and url as [r]. *)
Definition same_rank_url (r x : Issue) : bool :=
  (Nat.eqb (rank x) (rank r) && String.eqb (i_url x) (i_url r))%bool.


(** What consolidation does to the (url, problem) pairs of a draft list:
    every pair of the drafts is kept, once, by the first draft that
    carries it, and no other row appears. *)
Definition keeps_each_pair_once (issues out : list Issue) : Prop :=
  NoDup (map url_problema out) /\
  (forall k, In k (map url_problema issues) <-> In k (map url_problema out)) /\
  (forall r, In r out ->
             find (fun x => pair_eqb (url_problema x) (url_problema r)) issues
             = Some r).

(** The order of the mixed-content report: risk first, url within a
    risk. *)
Definition risk_url_le (a b : MixedContentSheet.MixedIssue) : Prop :=
  (MixedContentSheet.risk_order (MixedContentSheet.risco a)
   < MixedContentSheet.risk_order (MixedContentSheet.risco b))%nat \/
  (MixedContentSheet.risk_order (MixedContentSheet.risco a)
   = MixedContentSheet.risk_order (MixedContentSheet.risco b) /\
   String.leb (MixedContentSheet.mi_url a) (MixedContentSheet.mi_url b) = true).

(** The four columns the masks of the mixed-content rules read. *)
Definition mixed_mask_columns (df : Frame Row) : bool :=
  (has_column df "is_https_page" && has_column df "total_mixed_content_count"
   && has_column df "http_links_count" && has_column df "http_forms_count")%bool.

(** Ascending status codes, a missing code after every code. *)
Definition status_le (a b : Row) : Prop :=
  match status_code a, status_code b with
  | _, None => True
  | None, Some _ => False
  | Some x, Some y => x <= y
  end.

Definition status_row (u : string) (code : Z) : Row :=
  mkRow u (Some code) None None None None None None None None None None None
        None None None None None None None None None None None None None None
        None None None None None None None None None None None None.







(** A count that the filters read as zero: zero itself or a missing
    value. *)
Definition zero_or_missing (c : option Z) : Prop := c = None \/ c = Some 0.

Definition multiple_h1_label (F : FloatFormat) (n : Z) : string :=
  String.append "Múltiplos H1 ("
                (String.append (fmt_count F "h1_count" n) " H1s)").

Definition long_h1_label (F : FloatFormat) (n : Z) : string :=
  String.append "H1 muito longo ("
                (String.append (fmt_count F "h1_length" n) " chars)").


(** A flag that the filters read as false: false itself or a missing
    value. *)
Definition false_or_missing (c : option bool) : Prop :=
  c = None \/ c = Some false.

Definition flag_row (u : string) (viewport charset favicon : option bool)
  : Row :=
  mkRow u None None None None None None None None None None None None
        None None None None None None None viewport charset favicon None None
        None None None None None None None None None None None None None None.

(** The records of a frame whose meta description is exactly [m]. *)
Definition rows_with_meta (m : string) (df : Frame Row) : list Row :=
  filter (key_is meta_description m) (rows df).

(** A heading level is used ([row.get] reads a number above zero) while the
    level above it reads exactly zero: its column is not in the data, or the
    cell holds 0.  A missing cell of a present column reads NaN, which is
    neither above zero nor equal to zero. *)
Definition level_gap (cols : list string)
           (lower : string) (lower_cell : option Z)
           (upper : string) (upper_cell : option Z) : Prop :=
  (exists n, row_get cols lower lower_cell 0 = Some n /\ 0 < n) /\
  row_get cols upper upper_cell 0 = Some 0.

Definition broken_hierarchy (cols : list string) (r : Row) : Prop :=
  level_gap cols "h3_count" (h3_count r) "h2_count" (h2_count r) \/
  level_gap cols "h4_count" (h4_count r) "h3_count" (h3_count r) \/
  level_gap cols "h5_count" (h5_count r) "h4_count" (h4_count r) \/
  level_gap cols "h6_count" (h6_count r) "h5_count" (h5_count r).


(** The rows of a sheet written as a table. *)
Definition table_rows {A} (s : Sheet A) : list A :=
  match s with
  | TableSheet _ body => body
  | _ => []
  end.

(** The rules of the mixed-content sheet return, and a row of the table
    exported for their issues has no risk. *)
Definition exports_missing_risk (F : FloatFormat) (df : Frame Row) : Prop :=
  exists https_issues http_issues,
    MixedContentSheet._process_https_issues F df = Ok https_issues /\
    MixedContentSheet._process_http_issues F df = Ok http_issues /\
    exists i,
      In i (table_rows
              (MixedContentSheet._export_issues (https_issues ++ http_issues)))
      /\ MixedContentSheet.risco i = None.

(** What [sort_values('status_code')] guarantees, whatever it does with
    rows of equal code: the same rows, in ascending order of the code. *)
Definition sorts_by_status (sort_values : list Row -> list Row) : Prop :=
  forall l, Permutation l (sort_values l) /\
            StronglySorted status_le (sort_values l).






(** The record [r] of the frame carries the non-empty title [t], and at
    least two records of the frame carry it. *)
Definition shared_title (df : Frame Row) (r : Row) (t : string) : Prop :=
  In r (rows df) /\ title r = Some t /\ t <> "" /\
  (2 <= List.length (rows_with_title t df))%nat.

(** The same for the meta description [m]. *)
Definition shared_meta (df : Frame Row) (r : Row) (m : string) : Prop :=
  In r (rows df) /\ meta_description r = Some m /\ m <> "" /\
  (2 <= List.length (rows_with_meta m df))%nat.

Definition duplicate_meta_label (n : nat) : string :=
  String.append "Meta description duplicada ("
                (String.append (Py.str_of_Z (Z.of_nat n)) " páginas)").



(** * Properties *)

(** ** Facts about the string order *)

Lemma string_leb_trans (a b c : string) :
  String.leb a b = true -> String.leb b c = true -> String.leb a c = true.
Proof.
  unfold String.leb.
  revert b c; induction a as [|x a' IH]; intros [|y b'] [|z c']; simpl;
    try congruence.
  unfold Ascii.compare.
  destruct (N.compare_spec (N_of_ascii x) (N_of_ascii y)) as [Hxy|Hxy|Hxy];
    destruct (N.compare_spec (N_of_ascii y) (N_of_ascii z)) as [Hyz|Hyz|Hyz];
    try congruence; intros H1 H2.
  - rewrite Hxy, Hyz, N.compare_refl. now apply IH with b'.
  - rewrite Hxy. apply N.compare_lt_iff in Hyz. now rewrite Hyz.
  - rewrite <- Hyz. apply N.compare_lt_iff in Hxy. now rewrite Hxy.
  - assert (Hxz : (N_of_ascii x < N_of_ascii z)%N) by (eapply N.lt_trans; eauto).
    apply N.compare_lt_iff in Hxz. now rewrite Hxz.
Qed.

(** ** Facts about [stable_sort] *)

Section SortingFacts.
Context {A : Type}.
Variable leb : A -> A -> bool.
Hypothesis leb_total : forall x y, leb x y = true \/ leb y x = true.

Let R (a b : A) : Prop := leb a b = true.

Lemma insert_sorted_perm (x : A) (l : list A) :
  Permutation (x :: l) (insert_sorted leb x l).
Proof.
  induction l as [|y t IH]; simpl; [reflexivity|].
  destruct (leb x y); [reflexivity|].
  rewrite perm_swap. now constructor.
Qed.

Lemma stable_sort_perm (l : list A) : Permutation l (stable_sort leb l).
Proof.
  induction l as [|x t IH]; simpl; [constructor|].
  rewrite <- insert_sorted_perm. now constructor.
Qed.

Lemma stable_sort_In (l : list A) (x : A) :
  In x (stable_sort leb l) <-> In x l.
Proof.
  split; apply Permutation_in;
    [symmetry|]; apply stable_sort_perm.
Qed.

Lemma insert_sorted_HdRel (a x : A) (l : list A) :
  R a x -> HdRel R a l -> HdRel R a (insert_sorted leb x l).
Proof.
  intros Hax Hl. destruct l as [|y t]; simpl; [now constructor|].
  destruct (leb x y); constructor; [assumption|].
  now inversion Hl.
Qed.

Lemma insert_sorted_Sorted (x : A) (l : list A) :
  Sorted R l -> Sorted R (insert_sorted leb x l).
Proof.
  induction l as [|y t IH]; intros Hs; simpl.
  - repeat constructor.
  - destruct (leb x y) eqn:Hxy.
    + constructor; [assumption|]. now constructor.
    + inversion Hs as [|? ? Hst Hhd]; subst.
      constructor; [now apply IH|].
      apply insert_sorted_HdRel; [|assumption].
      destruct (leb_total x y) as [H|H]; [congruence|exact H].
Qed.

Lemma stable_sort_Sorted (l : list A) : Sorted R (stable_sort leb l).
Proof.
  induction l as [|x t IH]; simpl; [constructor|].
  now apply insert_sorted_Sorted.
Qed.

Hypothesis leb_trans :
  forall x y z, leb x y = true -> leb y z = true -> leb x z = true.

Lemma stable_sort_StronglySorted (l : list A) :
  StronglySorted R (stable_sort leb l).
Proof.
  apply Sorted_StronglySorted; [|apply stable_sort_Sorted].
  intros x y z. apply leb_trans.
Qed.
End SortingFacts.

(** ** Facts about [lex_leb] *)

Section LexFacts.
Context {A K : Type}.
Variable cmp : K -> K -> comparison.
Variable k1 : A -> K.
Variable leb2 : A -> A -> bool.
Hypothesis cmp_antisym : forall x y, cmp x y = CompOpp (cmp y x).
Hypothesis cmp_lt_trans :
  forall x y z, cmp x y = Lt -> cmp y z = Lt -> cmp x z = Lt.
Hypothesis cmp_eq : forall x y, cmp x y = Eq -> x = y.
Hypothesis leb2_total : forall x y, leb2 x y = true \/ leb2 y x = true.
Hypothesis leb2_trans :
  forall x y z, leb2 x y = true -> leb2 y z = true -> leb2 x z = true.

Let lx := lex_leb (fun x y => cmp (k1 x) (k1 y)) leb2.

Lemma lex_leb_total (x y : A) : lx x y = true \/ lx y x = true.
Proof.
  unfold lx, lex_leb. rewrite (cmp_antisym (k1 y) (k1 x)).
  destruct (cmp (k1 x) (k1 y)); simpl; auto.
Qed.

Lemma lex_leb_trans (x y z : A) :
  lx x y = true -> lx y z = true -> lx x z = true.
Proof.
  unfold lx, lex_leb.
  destruct (cmp (k1 x) (k1 y)) eqn:Hxy; try discriminate;
    destruct (cmp (k1 y) (k1 z)) eqn:Hyz; try discriminate; intros H1 H2.
  - apply cmp_eq in Hxy. rewrite Hxy, Hyz. eauto.
  - apply cmp_eq in Hxy. now rewrite Hxy, Hyz.
  - apply cmp_eq in Hyz. now rewrite <- Hyz, Hxy.
  - now rewrite (cmp_lt_trans _ _ _ Hxy Hyz).
Qed.
End LexFacts.

(** ** Facts about [drop_duplicates] *)

Section DedupFacts.
Context {A K : Type}.
Variable eqb : K -> K -> bool.
Variable key : A -> K.
Hypothesis eqb_spec : forall a b, eqb a b = true <-> a = b.

Lemma seen_spec (k : K) (seen : list K) :
  existsb (eqb k) seen = true <-> In k seen.
Proof.
  rewrite existsb_exists. split.
  - intros (y & Hy & He). apply eqb_spec in He. now subst.
  - intros H. exists k. split; [assumption|now apply eqb_spec].
Qed.

Lemma dedup_from_In (seen : list K) (l : list A) (x : A) :
  In x (dedup_from eqb key seen l) -> In x l /\ ~ In (key x) seen.
Proof.
  revert seen; induction l as [|a t IH]; intros seen; simpl; [tauto|].
  destruct (existsb (eqb (key a)) seen) eqn:He.
  - intros H. apply IH in H. tauto.
  - intros [H|H].
    + subst. split; [now left|].
      intros Hin. apply seen_spec in Hin. congruence.
    + apply IH in H. simpl in H. tauto.
Qed.

Lemma dedup_from_keys (seen : list K) (l : list A) (x : A) :
  In x l -> ~ In (key x) seen ->
  exists y, In y (dedup_from eqb key seen l) /\ key y = key x.
Proof.
  revert seen; induction l as [|a t IH]; intros seen; simpl; [tauto|].
  intros Hin Hseen.
  destruct (existsb (eqb (key a)) seen) eqn:He.
  - destruct Hin as [->|Hin].
    + apply seen_spec in He. contradiction.
    + now apply IH.
  - destruct Hin as [->|Hin].
    + exists x. split; [now left|reflexivity].
    + destruct (eqb (key a) (key x)) eqn:Hax.
      * apply eqb_spec in Hax. exists a. split; [now left|assumption].
      * destruct (IH (key a :: seen) Hin) as (y & Hy & Hk).
        { simpl. intros [H|H]; [|contradiction].
          apply eqb_spec in H. congruence. }
        exists y. split; [now right|assumption].
Qed.

Lemma dedup_from_NoDup (seen : list K) (l : list A) :
  NoDup (map key (dedup_from eqb key seen l)).
Proof.
  revert seen; induction l as [|a t IH]; intros seen; simpl; [constructor|].
  destruct (existsb (eqb (key a)) seen); [apply IH|].
  simpl. constructor; [|apply IH].
  intros Hin. apply in_map_iff in Hin. destruct Hin as (y & Hk & Hy).
  apply dedup_from_In in Hy. destruct Hy as [_ Hy].
  apply Hy. simpl. now left.
Qed.

Lemma dedup_from_first (seen : list K) (l : list A) (x : A) :
  In x (dedup_from eqb key seen l) ->
  exists l1 l2, l = l1 ++ x :: l2 /\ forall y, In y l1 -> key y <> key x.
Proof.
  revert seen; induction l as [|a t IH]; intros seen; simpl; [tauto|].
  destruct (existsb (eqb (key a)) seen) eqn:He.
  - intros H. pose proof (dedup_from_In _ _ _ H) as [_ Hns].
    destruct (IH _ H) as (l1 & l2 & -> & Hl1).
    exists (a :: l1), l2. split; [reflexivity|].
    intros y [<-|Hy]; [|now apply Hl1].
    intros Hk. apply seen_spec in He. congruence.
  - intros [<-|H].
    + exists [], t. split; [reflexivity|]. intros y [].
    + pose proof (dedup_from_In _ _ _ H) as [_ Hns].
      destruct (IH _ H) as (l1 & l2 & -> & Hl1).
      exists (a :: l1), l2. split; [reflexivity|].
      intros y [<-|Hy]; [|now apply Hl1].
      intros Hk. apply Hns. simpl. now left.
Qed.

Lemma drop_duplicates_In (l : list A) (x : A) :
  In x (drop_duplicates eqb key l) -> In x l.
Proof. intros H. now apply dedup_from_In in H. Qed.

Lemma drop_duplicates_NoDup (l : list A) :
  NoDup (map key (drop_duplicates eqb key l)).
Proof. apply dedup_from_NoDup. Qed.

(** Every row of the input is represented by the first row of its key,
    which stands at or before it. *)
Lemma drop_duplicates_first (l : list A) (x : A) :
  In x l ->
  exists f l1 l2,
    In f (drop_duplicates eqb key l) /\ key f = key x /\
    l = l1 ++ f :: l2 /\ (forall y, In y l1 -> key y <> key f) /\
    In x (f :: l2).
Proof.
  intros Hx.
  destruct (dedup_from_keys [] l x Hx) as (f & Hf & Hk); [intros []|].
  destruct (dedup_from_first [] l f Hf) as (l1 & l2 & Hl & Hl1).
  exists f, l1, l2. repeat split; try assumption.
  rewrite Hl in Hx. apply in_app_or in Hx. destruct Hx as [Hx|Hx]; [|assumption].
  exfalso. apply (Hl1 x Hx). congruence.
Qed.
End DedupFacts.

Lemma StronglySorted_app_r {A} (R : A -> A -> Prop) (l1 l2 : list A) :
  StronglySorted R (l1 ++ l2) -> StronglySorted R l2.
Proof.
  induction l1 as [|a t IH]; simpl; [trivial|].
  intros H. inversion H; subst. now apply IH.
Qed.

Lemma pair_eqb_spec (a b : string * string) : pair_eqb a b = true <-> a = b.
Proof.
  destruct a as [a1 a2], b as [b1 b2]. unfold pair_eqb. simpl.
  rewrite andb_true_iff, !String.eqb_eq. split.
  - intros [-> ->]. reflexivity.
  - intros H. inversion H. auto.
Qed.

(** ** The criticality sort *)

Lemma StronglySorted_weaken {A} (R S : A -> A -> Prop) (l : list A) :
  (forall a b, R a b -> S a b) -> StronglySorted R l -> StronglySorted S l.
Proof.
  intros HRS. induction 1 as [|a t Ht IH Hf]; constructor; [assumption|].
  eapply Forall_impl; [|exact Hf]. intros b. apply HRS.
Qed.

Lemma nat_compare_lt_trans (x y z : nat) :
  Nat.compare x y = Lt -> Nat.compare y z = Lt -> Nat.compare x z = Lt.
Proof. rewrite !Nat.compare_lt_iff. lia. Qed.

Lemma sort_key_leb_total (a b : Issue) :
  BaseSheet.sort_key_leb a b = true \/ BaseSheet.sort_key_leb b a = true.
Proof.
  apply (lex_leb_total Nat.compare (fun i => BaseSheet.criticality_order (criticidade i))).
  - intros x y. apply Nat.compare_antisym.
  - intros x y. apply String.leb_total.
Qed.

Lemma sort_key_leb_trans (a b c : Issue) :
  BaseSheet.sort_key_leb a b = true -> BaseSheet.sort_key_leb b c = true ->
  BaseSheet.sort_key_leb a c = true.
Proof.
  apply (lex_leb_trans Nat.compare (fun i => BaseSheet.criticality_order (criticidade i))).
  - exact nat_compare_lt_trans.
  - intros x y. apply Nat.compare_eq.
  - intros x y z. apply string_leb_trans.
Qed.

Lemma sort_key_leb_rank_url (a b : Issue) :
  BaseSheet.sort_key_leb a b = true -> rank_url_le a b.
Proof.
  unfold BaseSheet.sort_key_leb, lex_leb, rank_url_le, rank.
  destruct (Nat.compare_spec (BaseSheet.criticality_order (criticidade a))
                             (BaseSheet.criticality_order (criticidade b)))
    as [E|E|E]; intros H; try discriminate; auto.
Qed.

Lemma rank_url_le_rank (a b : Issue) : rank_url_le a b -> (rank a <= rank b)%nat.
Proof. unfold rank_url_le. lia. Qed.

Lemma sorted_rows_rank_url (l : list Issue) :
  StronglySorted rank_url_le (stable_sort BaseSheet.sort_key_leb l).
Proof.
  eapply StronglySorted_weaken; [exact sort_key_leb_rank_url|].
  apply stable_sort_StronglySorted.
  - exact sort_key_leb_total.
  - exact sort_key_leb_trans.
Qed.

Lemma criticality_order_unmapped (c : string) :
  ~ In c named_criticalities -> BaseSheet.criticality_order c = 5%nat.
Proof.
  unfold named_criticalities, BaseSheet.criticality_order. simpl. intros H.
  repeat match goal with
         | |- context [String.eqb c ?s] =>
             destruct (String.eqb_spec c s); [exfalso; apply H; subst; tauto|]
         end.
  reflexivity.
Qed.

(** C7. Sorting by criticality yields the same issues in ascending rank
    order, where the ranks are CRÍTICO MÁXIMO = 0 < CRÍTICO = 1 < ALTO = 2
    < MÉDIO = 3 < BAIXO = 4 and every other label has rank 5, after BAIXO;
    issues of equal rank are in ascending url order. *)
Theorem sort_by_criticality_ordered (df : Frame Issue) :
  has_column df "criticidade" = true ->
  Permutation (rows df) (rows (BaseSheet._sort_by_criticality df)) /\
  StronglySorted rank_url_le (rows (BaseSheet._sort_by_criticality df)) /\
  ranks_ascending (rows (BaseSheet._sort_by_criticality df)) /\
  map BaseSheet.criticality_order named_criticalities
    = [0; 1; 2; 3; 4]%nat /\
  (forall c, ~ In c named_criticalities ->
             BaseSheet.criticality_order c = 5%nat).
Proof.
  intros Hcol. unfold BaseSheet._sort_by_criticality. rewrite Hcol. simpl.
  split; [apply stable_sort_perm|].
  split; [apply sorted_rows_rank_url|].
  split.
  - eapply StronglySorted_weaken; [exact rank_url_le_rank|].
    apply sorted_rows_rank_url.
  - split; [reflexivity|exact criticality_order_unmapped].
Qed.

Lemma sort_by_criticality_ordered_witness :
  let df :=
    mkFrame ["url"; "problema"; "criticidade"]
      [plain_issue "b" "p1" "BAIXO"; plain_issue "a" "p2" "URGENTE";
       plain_issue "c" "p3" "CRÍTICO MÁXIMO"; plain_issue "a" "p4" "BAIXO";
       plain_issue "d" "p5" "ALTO"] in
  has_column df "criticidade" = true /\
  StronglySorted rank_url_le (rows (BaseSheet._sort_by_criticality df)).
Proof.
  intros df. split; [reflexivity|].
  destruct (sort_by_criticality_ordered df eq_refl) as (_ & H & _).
  exact H.
Defined.

(** ** The common export path *)

Lemma mem_In (x : string) (l : list string) : Py.mem x l = true <-> In x l.
Proof.
  unfold Py.mem. rewrite existsb_exists. split.
  - intros (y & Hy & He). apply String.eqb_eq in He. now subst.
  - intros H. exists x. split; [assumption|apply String.eqb_refl].
Qed.

Lemma find_first {A} (p : A -> bool) (l1 l2 : list A) (x : A) :
  (forall y, In y l1 -> p y = false) -> p x = true ->
  find p (l1 ++ x :: l2) = Some x.
Proof.
  intros Hl1 Hx. induction l1 as [|a t IH]; simpl.
  - now rewrite Hx.
  - rewrite (Hl1 a) by now left. apply IH. intros y Hy. apply Hl1. now right.
Qed.

Lemma export_dataframe_table {A} (sheet_name : string) (url : A -> string)
      (df : Frame A) (cols : list string) :
  frame_empty df = false -> has_column df "url" = true -> In "url" cols ->
  BaseSheet._export_dataframe sheet_name url df cols
  = TableSheet (filter (has_column df) cols)
               (drop_duplicates String.eqb url (rows df)).
Proof.
  intros Hne Hcol Hin. unfold BaseSheet._export_dataframe. rewrite Hne.
  destruct cols as [|c cs]; [destruct Hin|].
  assert (Hav : In "url" (filter (has_column df) (c :: cs)))
    by (apply filter_In; split; assumption).
  destruct (filter (has_column df) (c :: cs)) as [|a av] eqn:Hf;
    [destruct Hav|].
  apply mem_In in Hav. now rewrite Hav.
Qed.

Lemma first_with_url_dedup {A} (url : A -> string) (l : list A) (r : A) :
  In r (drop_duplicates String.eqb url l) ->
  first_with_url url (url r) l = Some r.
Proof.
  intros H.
  destruct (dedup_from_first String.eqb url String.eqb_eq [] l r H)
    as (l1 & l2 & -> & Hl1).
  unfold first_with_url. apply find_first.
  - intros y Hy. apply String.eqb_neq. now apply Hl1.
  - apply String.eqb_refl.
Qed.

(** C10. A frame exported through [_export_dataframe] ends with at most
    one row per url: every url of the frame keeps exactly its first row.
    For the title report, whose rows reach the export sorted by
    criticality, the row kept for a url is one of least rank among the
    consolidated issues of that url, so further problems of the same url
    do not surface. *)
Theorem export_dataframe_one_row_per_url
        (sheet_name : string) (df : Frame Issue) (cols : list string) :
  frame_empty df = false -> has_column df "url" = true -> In "url" cols ->
  exists out_cols body,
    BaseSheet._export_dataframe sheet_name i_url df cols
    = TableSheet out_cols body /\
    NoDup (map i_url body) /\
    (forall u, In u (map i_url (rows df)) <-> In u (map i_url body)) /\
    (forall r, In r body ->
               first_with_url i_url (i_url r) (rows df) = Some r) /\
    (forall issues, issues <> [] ->
       exists tcols tbody,
         TitleProblemsSheet._export_consolidated_issues issues
         = Some (TableSheet tcols tbody) /\
         NoDup (map i_url tbody) /\
         forall r x, In r tbody ->
                     In x (rows (TitleProblemsSheet.consolidate issues)) ->
                     i_url x = i_url r -> (rank r <= rank x)%nat).
Proof.
  intros Hne Hcol Hin.
  exists (filter (has_column df) cols),
         (drop_duplicates String.eqb i_url (rows df)).
  split; [now apply export_dataframe_table|].
  split; [apply drop_duplicates_NoDup; exact String.eqb_eq|].
  split; [|split].
  - intros u. rewrite !in_map_iff. split.
    + intros (x & Hu & Hx).
      destruct (drop_duplicates_first String.eqb i_url String.eqb_eq _ _ Hx)
        as (f & _ & _ & Hf & Hk & _).
      exists f. split; [congruence|assumption].
    + intros (x & Hu & Hx). exists x. split; [assumption|].
      eapply drop_duplicates_In; [exact String.eqb_eq|exact Hx].
  - intros r Hr. now apply first_with_url_dedup.
  - intros issues Hissues.
    set (cdf := TitleProblemsSheet.consolidate issues).
    exists (filter (has_column cdf)
                   ["url"; "problema"; "criticidade"; "title"; "title_length";
                    "title_words"; "recomendacao"; "impacto_seo"]),
           (drop_duplicates String.eqb i_url (rows cdf)).
    assert (Hrows : rows cdf
                    = stable_sort BaseSheet.sort_key_leb
                        (drop_duplicates pair_eqb url_problema issues))
      by reflexivity.
    assert (Hcols : columns cdf = TitleProblemsSheet.issue_columns)
      by reflexivity.
    assert (Hx0 : exists x0, In x0 (rows cdf)).
    { destruct issues as [|i0 rest]; [congruence|].
      destruct (drop_duplicates_first pair_eqb url_problema pair_eqb_spec
                  (i0 :: rest) i0 (or_introl eq_refl))
        as (f & _ & _ & Hf & _).
      exists f. rewrite Hrows. now apply stable_sort_In. }
    split; [|split].
    + unfold TitleProblemsSheet._export_consolidated_issues.
      destruct issues as [|i0 rest]; [congruence|].
      fold cdf. f_equal.
      apply export_dataframe_table.
      * unfold frame_empty. rewrite Hcols.
        destruct Hx0 as (x0 & Hx0). destruct (rows cdf); [destruct Hx0|reflexivity].
      * unfold has_column. now rewrite Hcols.
      * simpl. tauto.
    + apply drop_duplicates_NoDup. exact String.eqb_eq.
    + intros r x Hr Hx Hurl.
      destruct (dedup_from_first String.eqb i_url String.eqb_eq [] _ r Hr)
        as (l1 & l2 & Hl & Hl1).
      pose proof (sorted_rows_rank_url
                    (drop_duplicates pair_eqb url_problema issues)) as Hs.
      rewrite <- Hrows, Hl in Hs.
      apply StronglySorted_app_r in Hs. inversion Hs as [|? ? _ Hall]; subst.
      rewrite Hl in Hx. apply in_app_or in Hx. destruct Hx as [Hx|[<-|Hx]].
      * exfalso. now apply (Hl1 x Hx).
      * lia.
      * apply rank_url_le_rank. rewrite Forall_forall in Hall. now apply Hall.
Qed.

Lemma export_dataframe_one_row_per_url_witness :
  let df :=
    mkFrame ["url"; "problema"; "criticidade"]
      [plain_issue "a" "p1" "ALTO"; plain_issue "a" "p2" "BAIXO";
       plain_issue "b" "p3" "MÉDIO"] in
  let cols := ["url"; "problema"] in
  frame_empty df = false /\ has_column df "url" = true /\ In "url" cols /\
  exists out_cols body,
    BaseSheet._export_dataframe "Problemas" i_url df cols
    = TableSheet out_cols body /\
    NoDup (map i_url body).
Proof.
  intros df cols.
  split; [reflexivity|]. split; [reflexivity|]. split; [now left|].
  destruct (export_dataframe_one_row_per_url "Problemas" df cols
              eq_refl eq_refl (or_introl eq_refl))
    as (c & b & H1 & H2 & _).
  exists c, b. split; assumption.
Defined.

(** Two pages share the short title "Home": each draws a short-title and
    a duplicate-title draft of the same rank, and the written sheet shows
    one row per page, the draft of the earlier rule. *)
Example title_report_one_row_per_page (F : FloatFormat) :
  let df :=
    mkFrame ["url"; "title"; "title_length"]
      [title_row "https://a/1" "Home" 4; title_row "https://a/2" "Home" 4] in
  TitleProblemsSheet.detect F df
  = Ok [plain_issue "https://a/1" (short_title_label F 4) "MÉDIO";
        plain_issue "https://a/2" (short_title_label F 4) "MÉDIO";
        plain_issue "https://a/1" "Título duplicado (2 páginas)" "MÉDIO";
        plain_issue "https://a/2" "Título duplicado (2 páginas)" "MÉDIO"] /\
  TitleProblemsSheet.create_sheet F df
  = Some (TableSheet
            ["url"; "problema"; "criticidade"; "title"; "title_length";
             "title_words"; "recomendacao"; "impacto_seo"]
            [plain_issue "https://a/1" (short_title_label F 4) "MÉDIO";
             plain_issue "https://a/2" (short_title_label F 4) "MÉDIO"]).
Proof. split; reflexivity. Qed.

(** ** The raw-data column order *)

(** C9. For a non-empty record set, whenever the workbook can be written,
    the raw-data view is written with the priority columns that exist in
    the data, in their declared order, followed by every other column of
    the data in alphabetical order.  The workbook goes to the path that
    [os.path.join] makes of the output directory and the file name, the
    given one or, when none or an empty one is given, one made from the
    clock. *)
Theorem raw_data_column_order
        (env : ExcelExporter.Environment) (output_dir : string)
        (filename : option string) (df : Frame Row) :
  frame_empty df = false ->
  ExcelExporter.write_error env = None ->
  exists prefix suffix,
    ExcelExporter.export_results env output_dir df filename
    = ExcelExporter.Returned
        (ExcelExporter.mkExported
           (ExcelExporter.path_join env output_dir
              (ExcelExporter.workbook_name env filename))
           (Some (TableSheet (prefix ++ suffix) (rows df)))) /\
    (ExcelExporter.workbook_name env filename
     = match filename with
       | None | Some EmptyString =>
           String.append "seofrog_crawl_"
             (String.append (ExcelExporter.timestamp env) ".xlsx")
       | Some name => name
       end) /\
    prefix = filter (fun c => Py.mem c (columns df))
                    ExcelExporter._get_column_order /\
    Permutation suffix
      (filter (fun c => negb (Py.mem c ExcelExporter._get_column_order))
              (columns df)) /\
    StronglySorted (fun a b => String.leb a b = true) suffix /\
    (forall c, In c (prefix ++ suffix) <-> In c (columns df)).
Proof.
  intros Hne Hw.
  exists (filter (fun c => Py.mem c (columns df)) ExcelExporter._get_column_order),
         (stable_sort String.leb
            (filter (fun c => negb (Py.mem c ExcelExporter._get_column_order))
                    (columns df))).
  split; [|split; [reflexivity|split; [reflexivity|split; [|split]]]].
  - unfold ExcelExporter.export_results. rewrite Hne, Hw.
    unfold frame_empty in Hne. destruct (rows df); [discriminate|reflexivity].
  - symmetry. apply stable_sort_perm.
  - apply stable_sort_StronglySorted.
    + exact String.leb_total.
    + exact string_leb_trans.
  - intros c. rewrite in_app_iff, stable_sort_In, !filter_In, negb_true_iff.
    rewrite mem_In. split.
    + tauto.
    + intros Hc.
      destruct (Py.mem c ExcelExporter._get_column_order) eqn:Hm.
      * left. split; [now apply mem_In|assumption].
      * right. split; [assumption|reflexivity].
Qed.

Lemma raw_data_column_order_witness :
  let df := mkFrame ["zeta"; "title"; "url"; "alpha"] [blank_row "https://a/"] in
  frame_empty df = false /\
  ExcelExporter.write_error posix_environment = None /\
  exists prefix suffix,
    ExcelExporter.export_results posix_environment "out" df None
    = ExcelExporter.Returned
        (ExcelExporter.mkExported "out/seofrog_crawl_20240101_120000.xlsx"
           (Some (TableSheet (prefix ++ suffix) (rows df)))) /\
    StronglySorted (fun a b => String.leb a b = true) suffix.
Proof.
  intros df. split; [reflexivity|]. split; [reflexivity|].
  destruct (raw_data_column_order posix_environment "out" None df
              eq_refl eq_refl)
    as (p & s & H1 & _ & _ & _ & H2 & _).
  exists p, s. split; assumption.
Defined.

(** ** Length thresholds of titles and meta descriptions *)

Lemma safe_filter_present {A} (df : Frame A) (c : string) (mask : A -> bool) :
  has_column df c = true ->
  BaseSheet._safe_filter df c mask = mkFrame (columns df) (filter mask (rows df)).
Proof. intros H. unfold BaseSheet._safe_filter. now rewrite H. Qed.

Lemma row_get_present {V} (df : Frame Row) (c : string) (cell : option V) (d : V) :
  has_column df c = true -> row_get (columns df) c cell d = cell.
Proof. unfold has_column, row_get. now intros ->. Qed.

Lemma non_empty_text_spec (cell : option string) :
  negb (String.eqb (Py.fillna cell "") "") = true <-> non_empty_text cell.
Proof.
  unfold non_empty_text. rewrite negb_true_iff, String.eqb_neq. split.
  - destruct cell as [t|]; simpl; [|congruence]. intros H. now exists t.
  - intros (t & -> & Ht). exact Ht.
Qed.

Lemma str_of_count_present (F : FloatFormat) (df : Frame Row) (c : string)
      (v d : Z) :
  has_column df c = true ->
  str_of_count F (columns df) c (Some v) d = fmt_count F c v.
Proof. unfold has_column, str_of_count. now intros ->. Qed.

Lemma long_title_spec (F : FloatFormat) (df : Frame Row) (i : Issue) :
  has_column df "title_length" = true ->
  (In i (TitleProblemsSheet._find_long_title_issues F df) <->
   exists r n c,
     In r (rows df) /\ title_length r = Some n /\ 60 < n /\
     ((70 < n /\ c = "ALTO") \/ (n <= 70 /\ c = "MÉDIO")) /\
     i = plain_issue (url r) (long_title_label F n) c).
Proof.
  intros Hc. unfold TitleProblemsSheet._find_long_title_issues.
  rewrite Hc, (safe_filter_present _ _ _ Hc). simpl.
  rewrite in_map_iff. split.
  - intros (r & <- & Hr). apply filter_In in Hr. destruct Hr as [Hr Hm].
    unfold TitleProblemsSheet.long_title_issue.
    rewrite (row_get_present df _ _ _ Hc).
    destruct (title_length r) as [n|] eqn:Hn; simpl in Hm; [|discriminate].
    apply Z.ltb_lt in Hm. rewrite (str_of_count_present F df _ _ _ Hc).
    exists r, n, (if 70 <? n then "ALTO" else "MÉDIO").
    repeat split; try assumption.
    destruct (Z.ltb_spec 70 n); [left|right]; split; auto.
  - intros (r & n & c & Hr & Hn & H60 & Hcrit & ->). exists r. split.
    + unfold TitleProblemsSheet.long_title_issue.
      rewrite (row_get_present df _ _ _ Hc), Hn,
        (str_of_count_present F df _ _ _ Hc).
      unfold long_title_label. f_equal. simpl.
      destruct Hcrit as [[H ->]|[H ->]].
      * apply Z.ltb_lt in H. now rewrite H.
      * apply Z.ltb_ge in H. now rewrite H.
    + apply filter_In. split; [assumption|]. rewrite Hn. simpl.
      now apply Z.ltb_lt.
Qed.

Lemma short_title_spec (F : FloatFormat) (df : Frame Row) (i : Issue) :
  has_column df "title_length" = true -> has_column df "title" = true ->
  (In i (TitleProblemsSheet._find_short_title_issues F df) <->
   exists r n,
     In r (rows df) /\ title_length r = Some n /\ n < 30 /\
     non_empty_text (title r) /\
     i = plain_issue (url r) (short_title_label F n) "MÉDIO").
Proof.
  intros Hc Ht. unfold TitleProblemsSheet._find_short_title_issues.
  rewrite Hc, Ht, (safe_filter_present _ _ _ Hc). simpl.
  rewrite in_map_iff. split.
  - intros (r & <- & Hr). apply filter_In in Hr. destruct Hr as [Hr Hm].
    apply andb_true_iff in Hm. destruct Hm as [Hm Hne].
    apply non_empty_text_spec in Hne.
    unfold TitleProblemsSheet.short_title_issue.
    destruct (title_length r) as [n|] eqn:Hn; simpl in Hm; [|discriminate].
    apply Z.ltb_lt in Hm. rewrite (str_of_count_present F df _ _ _ Hc).
    exists r, n. repeat split; assumption.
  - intros (r & n & Hr & Hn & H30 & Hne & ->). exists r. split.
    + unfold TitleProblemsSheet.short_title_issue.
      now rewrite Hn, (str_of_count_present F df _ _ _ Hc).
    + apply filter_In. split; [assumption|]. rewrite Hn. simpl.
      apply andb_true_iff. split; [now apply Z.ltb_lt|].
      now apply non_empty_text_spec.
Qed.

Lemma long_meta_spec (F : FloatFormat) (df : Frame Row) (i : Issue) :
  has_column df "meta_description_length" = true ->
  (In i (MetaProblemsSheet._find_long_meta_issues F df) <->
   exists r n c,
     In r (rows df) /\ meta_description_length r = Some n /\ 160 < n /\
     ((180 <= n /\ c = "ALTO") \/ (n < 180 /\ c = "MÉDIO")) /\
     i = plain_issue (url r) (long_meta_label F n) c).
Proof.
  intros Hc. unfold MetaProblemsSheet._find_long_meta_issues.
  rewrite Hc, (safe_filter_present _ _ _ Hc). simpl.
  rewrite in_map_iff. split.
  - intros (r & <- & Hr). apply filter_In in Hr. destruct Hr as [Hr Hm].
    unfold MetaProblemsSheet.long_meta_issue.
    rewrite (row_get_present df _ _ _ Hc).
    destruct (meta_description_length r) as [n|] eqn:Hn; simpl in Hm;
      [|discriminate].
    apply Z.ltb_lt in Hm. rewrite (str_of_count_present F df _ _ _ Hc).
    exists r, n, (if n <? 180 then "MÉDIO" else "ALTO").
    repeat split; try assumption.
    destruct (Z.ltb_spec n 180); [right|left]; split; auto.
  - intros (r & n & c & Hr & Hn & H160 & Hcrit & ->). exists r. split.
    + unfold MetaProblemsSheet.long_meta_issue.
      rewrite (row_get_present df _ _ _ Hc), Hn,
        (str_of_count_present F df _ _ _ Hc).
      unfold long_meta_label. f_equal. simpl.
      destruct Hcrit as [[H ->]|[H ->]].
      * apply Z.ltb_ge in H. now rewrite H.
      * apply Z.ltb_lt in H. now rewrite H.
    + apply filter_In. split; [assumption|]. rewrite Hn. simpl.
      now apply Z.ltb_lt.
Qed.

Lemma short_meta_spec (F : FloatFormat) (df : Frame Row) (i : Issue) :
  has_column df "meta_description_length" = true ->
  has_column df "meta_description" = true ->
  (In i (MetaProblemsSheet._find_short_meta_issues F df) <->
   exists r n,
     In r (rows df) /\ meta_description_length r = Some n /\ n < 120 /\
     non_empty_text (meta_description r) /\
     i = plain_issue (url r) (short_meta_label F n) "BAIXO").
Proof.
  intros Hc Ht. unfold MetaProblemsSheet._find_short_meta_issues.
  rewrite Hc, Ht, (safe_filter_present _ _ _ Hc). simpl.
  rewrite in_map_iff. split.
  - intros (r & <- & Hr). apply filter_In in Hr. destruct Hr as [Hr Hm].
    apply andb_true_iff in Hm. destruct Hm as [Hm Hne].
    apply non_empty_text_spec in Hne.
    unfold MetaProblemsSheet.short_meta_issue.
    destruct (meta_description_length r) as [n|] eqn:Hn; simpl in Hm;
      [|discriminate].
    apply Z.ltb_lt in Hm. rewrite (str_of_count_present F df _ _ _ Hc).
    exists r, n. repeat split; assumption.
  - intros (r & n & Hr & Hn & H30 & Hne & ->). exists r. split.
    + unfold MetaProblemsSheet.short_meta_issue.
      now rewrite Hn, (str_of_count_present F df _ _ _ Hc).
    + apply filter_In. split; [assumption|]. rewrite Hn. simpl.
      apply andb_true_iff. split; [now apply Z.ltb_lt|].
      now apply non_empty_text_spec.
Qed.

(** C4. With the length columns present, the title rule flags a record
    long exactly when its title_length exceeds 60, with ALTO above 70 and
    MÉDIO otherwise; it flags a non-empty title short (MÉDIO) exactly when
    title_length is below 30.  The meta rule flags a description long
    exactly when its length exceeds 160, with ALTO from 180 on and MÉDIO
    below; it flags a non-empty description short (BAIXO) exactly when its
    length is below 120.  The label of each issue embeds the length as the
    f-string prints it, whatever the number format of the frame. *)
Theorem title_meta_length_thresholds (F : FloatFormat) (df : Frame Row) :
  has_column df "title_length" = true ->
  has_column df "title" = true ->
  has_column df "meta_description_length" = true ->
  has_column df "meta_description" = true ->
  (forall i,
      In i (TitleProblemsSheet._find_long_title_issues F df) <->
      exists r n c,
        In r (rows df) /\ title_length r = Some n /\ 60 < n /\
        ((70 < n /\ c = "ALTO") \/ (n <= 70 /\ c = "MÉDIO")) /\
        i = plain_issue (url r) (long_title_label F n) c) /\
  (forall i,
      In i (TitleProblemsSheet._find_short_title_issues F df) <->
      exists r n,
        In r (rows df) /\ title_length r = Some n /\ n < 30 /\
        non_empty_text (title r) /\
        i = plain_issue (url r) (short_title_label F n) "MÉDIO") /\
  (forall i,
      In i (MetaProblemsSheet._find_long_meta_issues F df) <->
      exists r n c,
        In r (rows df) /\ meta_description_length r = Some n /\ 160 < n /\
        ((180 <= n /\ c = "ALTO") \/ (n < 180 /\ c = "MÉDIO")) /\
        i = plain_issue (url r) (long_meta_label F n) c) /\
  (forall i,
      In i (MetaProblemsSheet._find_short_meta_issues F df) <->
      exists r n,
        In r (rows df) /\ meta_description_length r = Some n /\ n < 120 /\
        non_empty_text (meta_description r) /\
        i = plain_issue (url r) (short_meta_label F n) "BAIXO").
Proof.
  intros H1 H2 H3 H4. repeat split.
  - now apply long_title_spec.
  - now apply long_title_spec.
  - now apply short_title_spec.
  - now apply short_title_spec.
  - now apply long_meta_spec.
  - now apply long_meta_spec.
  - now apply short_meta_spec.
  - now apply short_meta_spec.
Qed.

Lemma title_meta_length_thresholds_witness :
  let F := integer_format in
  let df :=
    mkFrame ["url"; "title"; "title_length"; "meta_description";
             "meta_description_length"]
      [title_row "https://a/60" "sessenta" 60;
       title_row "https://a/61" "sessenta e um" 61;
       title_row "https://a/71" "setenta e um" 71] in
  has_column df "title_length" = true /\
  has_column df "title" = true /\
  has_column df "meta_description_length" = true /\
  has_column df "meta_description" = true /\
  In (plain_issue "https://a/61" "Título muito longo (61 chars)" "MÉDIO")
     (TitleProblemsSheet._find_long_title_issues F df) /\
  In (plain_issue "https://a/71" "Título muito longo (71 chars)" "ALTO")
     (TitleProblemsSheet._find_long_title_issues F df).
Proof.
  intros F df. repeat (split; [reflexivity|]).
  destruct (title_meta_length_thresholds F df eq_refl eq_refl eq_refl eq_refl)
    as (Hlong & _).
  split; apply Hlong.
  - exists (title_row "https://a/61" "sessenta e um" 61), 61, "MÉDIO".
    split; [simpl; tauto|]. split; [reflexivity|]. split; [lia|].
    split; [right; split; [lia|reflexivity]|reflexivity].
  - exists (title_row "https://a/71" "setenta e um" 71), 71, "ALTO".
    split; [simpl; tauto|]. split; [reflexivity|]. split; [lia|].
    split; [left; split; [lia|reflexivity]|reflexivity].
Defined.

(** The boundary values of the title rule, evaluated. *)
Example title_length_boundaries (F : FloatFormat) :
  map (fun i => (i_url i, criticidade i))
      (TitleProblemsSheet._find_long_title_issues F
         (mkFrame ["url"; "title"; "title_length"]
            [title_row "https://a/60" "sessenta" 60;
             title_row "https://a/61" "sessenta e um" 61;
             title_row "https://a/70" "setenta" 70;
             title_row "https://a/71" "setenta e um" 71]))
  = [("https://a/61", "MÉDIO"); ("https://a/70", "MÉDIO");
     ("https://a/71", "ALTO")].
Proof. reflexivity. Qed.

Example meta_length_boundaries (F : FloatFormat) :
  let df :=
    mkFrame ["url"; "meta_description"; "meta_description_length"]
      [meta_row "https://a/119" "m119" 119;
       meta_row "https://a/120" "m120" 120;
       meta_row "https://a/160" "m160" 160;
       meta_row "https://a/161" "m161" 161;
       meta_row "https://a/179" "m179" 179;
       meta_row "https://a/180" "m180" 180] in
  map (fun i => (i_url i, criticidade i))
      (MetaProblemsSheet._find_long_meta_issues F df
         ++ MetaProblemsSheet._find_short_meta_issues F df)
  = [("https://a/161", "MÉDIO"); ("https://a/179", "MÉDIO");
     ("https://a/180", "ALTO"); ("https://a/119", "BAIXO")].
Proof. reflexivity. Qed.

(** ** Duplicate titles *)

Lemma filter_filter_absorb {A} (p q : A -> bool) (l : list A) :
  (forall x, In x l -> p x = true -> q x = true) ->
  filter p (filter q l) = filter p l.
Proof.
  induction l as [|a t IH]; intros H; simpl; [reflexivity|].
  destruct (q a) eqn:Hq; simpl.
  - destruct (p a); [f_equal|]; apply IH; intros x Hx; apply H; now right.
  - destruct (p a) eqn:Hp.
    + rewrite (H a (or_introl eq_refl) Hp) in Hq. discriminate.
    + apply IH. intros x Hx. apply H. now right.
Qed.

Lemma key_is_spec (key : Row -> option string) (k : string) (r : Row) :
  key_is key k r = true <-> key r = Some k.
Proof.
  unfold key_is. destruct (key r) as [t|]; [|split; discriminate].
  rewrite String.eqb_eq. split; congruence.
Qed.

Lemma duplicated_group (key : Row -> option string) (k : string)
      (l : list Row) :
  (2 <= List.length (filter (key_is key k) l))%nat ->
  filter (key_is key k) (duplicated_keep_false key l)
  = filter (key_is key k) l.
Proof.
  intros Hn. unfold duplicated_keep_false. apply filter_filter_absorb.
  intros x _ Hx. apply key_is_spec in Hx. rewrite Hx.
  now apply Nat.leb_le.
Qed.

Lemma group_keys_In (key : Row -> option string) (k : string)
      (l : list Row) (r : Row) :
  In r l -> key r = Some k -> In k (group_keys key l).
Proof.
  intros Hr Hk. unfold group_keys. apply stable_sort_In.
  assert (Hin : In k (flat_map (fun r => match key r with
                                         | Some t => [t]
                                         | None => []
                                         end) l)).
  { apply in_flat_map. exists r. split; [assumption|]. rewrite Hk. now left. }
  destruct (dedup_from_keys String.eqb (fun k : string => k) String.eqb_eq
              [] _ k Hin) as (y & Hy & Heq); [intros []|].
  simpl in Heq. now subst.
Qed.

Lemma groupby_In (key : Row -> option string) (k : string)
      (l : list Row) (r : Row) :
  In r l -> key r = Some k ->
  In (k, filter (key_is key k) l) (groupby key l).
Proof.
  intros Hr Hk. unfold groupby.
  apply in_map_iff. exists k. split; [reflexivity|].
  now apply group_keys_In with r.
Qed.

(** ** Records without H1 and H2 *)



(** Export of a list consolidated by [_sort_by_criticality]. *)
Lemma sorted_export (name : string) (icols cols : list string)
      (issues : list Issue) :
  Py.mem "criticidade" icols = true -> Py.mem "url" icols = true ->
  In "url" cols -> issues <> [] ->
  let cdf :=
    BaseSheet._sort_by_criticality
      (mkFrame icols (drop_duplicates pair_eqb url_problema issues)) in
  rows cdf = stable_sort BaseSheet.sort_key_leb
               (drop_duplicates pair_eqb url_problema issues) /\
  BaseSheet._export_dataframe name i_url cdf cols
  = TableSheet (filter (has_column cdf) cols)
               (drop_duplicates String.eqb i_url (rows cdf)).
Proof.
  intros Hcrit Hurl Hcols Hne cdf.
  assert (Hrows : rows cdf = stable_sort BaseSheet.sort_key_leb
                               (drop_duplicates pair_eqb url_problema issues)).
  { unfold cdf, BaseSheet._sort_by_criticality, has_column. simpl.
    now rewrite Hcrit. }
  assert (Hcolumns : columns cdf = icols).
  { unfold cdf, BaseSheet._sort_by_criticality, has_column. simpl.
    now rewrite Hcrit. }
  split; [exact Hrows|].
  apply export_dataframe_table; [| |assumption].
  - destruct issues as [|i0 rest]; [congruence|].
    destruct (drop_duplicates_first pair_eqb url_problema pair_eqb_spec
                (i0 :: rest) i0 (or_introl eq_refl))
      as (f & _ & _ & Hf & _).
    assert (Hin : In f (rows cdf)) by (rewrite Hrows; now apply stable_sort_In).
    unfold frame_empty. rewrite Hcolumns.
    destruct (rows cdf); [destruct Hin|].
    destruct icols; [discriminate|reflexivity].
  - unfold has_column. now rewrite Hcolumns.
Qed.






(** The H1/H2 report of the same record set keeps the first draft of the
    url, "Sem H1", and drops the combined one. *)
Example h1_h2_report_of_bare_page :
  H1H2MissingSheet.create_sheet
    (mkFrame ["url"; "h1_count"; "h2_count"] [heading_row "a" 0 0])
  = Some (TableSheet
            ["url"; "problema_h1_h2"; "criticidade"; "h1_count"; "h2_count";
             "h1_text"; "title"; "page_type"; "action_required";
             "business_impact"; "technical_fix"]
            [H1H2MissingSheet.h1h2_issue "a" "Sem H1" "CRÍTICO" 1]).
Proof. reflexivity. Qed.

(** ** Order of the consolidated reports *)

Lemma StronglySorted_weaken_in {A} (R S : A -> A -> Prop) (l : list A) :
  (forall a b, In a l -> In b l -> R a b -> S a b) ->
  StronglySorted R l -> StronglySorted S l.
Proof.
  intros HRS Hs. induction Hs as [|a t Ht IH Hf]; constructor.
  - apply IH. intros x y Hx Hy. apply HRS; now right.
  - rewrite Forall_forall in *. intros b Hb.
    apply HRS; [now left|now right|now apply Hf].
Qed.

Lemma sorted_consolidation (icols : list string) (issues : list Issue) :
  Py.mem "criticidade" icols = true ->
  StronglySorted rank_url_le
    (rows (BaseSheet._sort_by_criticality
             (mkFrame icols (drop_duplicates pair_eqb url_problema issues)))).
Proof.
  intros H. unfold BaseSheet._sort_by_criticality, has_column. simpl.
  rewrite H. simpl. apply sorted_rows_rank_url.
Qed.

Lemma prioridade_url_sorted (l : list Issue) :
  StronglySorted (fun a b => H1H2MissingSheet.prioridade_url_leb a b = true)
                 (stable_sort H1H2MissingSheet.prioridade_url_leb l).
Proof.
  apply stable_sort_StronglySorted.
  - apply (lex_leb_total Z.compare prioridade).
    + intros x y. symmetry. rewrite <- Z.compare_antisym.
      now destruct (Z.compare y x).
    + intros x y. apply String.leb_total.
  - apply (lex_leb_trans Z.compare prioridade).
    + intros x y z. rewrite !Z.compare_lt_iff. lia.
    + intros x y. apply Z.compare_eq.
    + intros x y z. apply string_leb_trans.
Qed.

Lemma h1h2_draft_rank (df : Frame Row) (i : Issue) :
  In i (H1H2MissingSheet.detect df) -> prioridade i = Z.of_nat (rank i).
Proof.
  unfold H1H2MissingSheet.detect. rewrite !in_app_iff.
  intros [H|[H|H]].
  - unfold H1H2MissingSheet._find_no_h1_issues in H.
    destruct (negb (has_column df "h1_count")); [destruct H|].
    apply in_map_iff in H. destruct H as (r & <- & _). reflexivity.
  - unfold H1H2MissingSheet._find_no_h2_issues in H.
    destruct (negb (has_column df "h2_count")); [destruct H|].
    apply in_flat_map in H. destruct H as (r & _ & H).
    unfold H1H2MissingSheet.no_h2_issue in H.
    destruct (Py.gt _ 0); simpl in H; [destruct H as [<-|[]]|destruct H].
    reflexivity.
  - unfold H1H2MissingSheet._find_no_h1_h2_issues in H.
    destruct (negb (has_column df "h1_count") || negb (has_column df "h2_count"))%bool;
      [destruct H|].
    apply in_map_iff in H. destruct H as (r & <- & _). reflexivity.
Qed.

Lemma h1h2_consolidation_sorted (df : Frame Row) :
  StronglySorted rank_url_le
    (rows (H1H2MissingSheet.consolidate (H1H2MissingSheet.detect df))).
Proof.
  unfold H1H2MissingSheet.consolidate. simpl.
  eapply StronglySorted_weaken_in; [|apply prioridade_url_sorted].
  intros a b Ha Hb Hab.
  assert (Hdraft : forall x,
             In x (stable_sort H1H2MissingSheet.prioridade_url_leb
                     (drop_duplicates String.eqb i_url
                        (H1H2MissingSheet.detect df))) ->
             prioridade x = Z.of_nat (rank x)).
  { intros x Hx. apply (h1h2_draft_rank df).
    eapply drop_duplicates_In; [exact String.eqb_eq|].
    apply (proj1 (stable_sort_In H1H2MissingSheet.prioridade_url_leb _ x)).
    exact Hx. }
  simpl in Hab.
  unfold H1H2MissingSheet.prioridade_url_leb, lex_leb in Hab.
  unfold rank_url_le.
  rewrite (Hdraft a Ha), (Hdraft b Hb) in Hab.
  destruct (Z.compare_spec (Z.of_nat (rank a)) (Z.of_nat (rank b)))
    as [E|E|E]; try discriminate.
  - right. split; [lia|assumption].
  - left. lia.
Qed.

Lemma technical_draft_band (df : Frame Row) (i : Issue) :
  In i (TechnicalProblemsSheet.detect df) ->
  rank i = technical_band (prioridade i).
Proof.
  unfold TechnicalProblemsSheet.detect. rewrite !in_app_iff.
  intros [H|[H|[H|[H|[H|[H|H]]]]]].
  - unfold TechnicalProblemsSheet._find_canonical_issues in H.
    apply in_app_or in H. destruct H as [H|H].
    + destruct (has_column df "canonical_url"); [|destruct H].
      apply in_map_iff in H. destruct H as (r & <- & _). reflexivity.
    + destruct (has_column df "canonical_is_self"); [|destruct H].
      apply in_map_iff in H. destruct H as (r & <- & _). reflexivity.
  - unfold TechnicalProblemsSheet._find_viewport_issues in H.
    destruct (negb (has_column df "has_viewport")); [destruct H|].
    apply in_map_iff in H. destruct H as (r & <- & _). reflexivity.
  - unfold TechnicalProblemsSheet._find_charset_issues in H.
    destruct (negb (has_column df "has_charset")); [destruct H|].
    apply in_map_iff in H. destruct H as (r & <- & _). reflexivity.
  - unfold TechnicalProblemsSheet._find_schema_issues in H.
    destruct (negb (has_column df "schema_total_count")); [destruct H|].
    apply in_flat_map in H. destruct H as (r & _ & H).
    unfold TechnicalProblemsSheet.schema_issue in H.
    destruct (Py.mem _ _); [|destruct H].
    destruct (String.eqb _ "Produto"); destruct H as [<-|[]]; reflexivity.
  - unfold TechnicalProblemsSheet._find_robots_issues in H.
    apply in_app_or in H. destruct H as [H|H].
    + destruct (has_column df "meta_robots_noindex"); [|destruct H].
      apply in_map_iff in H. destruct H as (r & <- & _). reflexivity.
    + destruct (has_column df "meta_robots_nofollow"); [|destruct H].
      apply in_map_iff in H. destruct H as (r & <- & _). reflexivity.
  - unfold TechnicalProblemsSheet._find_favicon_issues in H.
    destruct (negb (has_column df "has_favicon")); [destruct H|].
    apply in_map_iff in H. destruct H as (r & <- & _). reflexivity.
  - unfold TechnicalProblemsSheet._find_og_issues in H.
    destruct (negb (has_column df "og_tags_count")); [destruct H|].
    apply in_flat_map in H. destruct H as (r & _ & H).
    unfold TechnicalProblemsSheet.og_issue in H.
    destruct (Py.mem _ ["Produto"; "Blog/Artigo"; "Homepage"]); [|destruct H].
    destruct (Py.mem _ ["Produto"; "Homepage"]); destruct H as [<-|[]];
      reflexivity.
Qed.

Lemma technical_band_antitone (p q : Z) :
  q <= p -> (technical_band p <= technical_band q)%nat.
Proof.
  unfold technical_band. intros H.
  destruct (Z.leb_spec 8 p), (Z.leb_spec 8 q), (Z.leb_spec 5 p),
    (Z.leb_spec 5 q); lia.
Qed.

Lemma priority_criticidade_sorted (l : list Issue) :
  StronglySorted
    (fun a b => TechnicalProblemsSheet.priority_criticidade_leb a b = true)
    (stable_sort TechnicalProblemsSheet.priority_criticidade_leb l).
Proof.
  apply stable_sort_StronglySorted.
  - apply (lex_leb_total (fun x y => Z.compare y x) prioridade).
    + intros x y. apply Z.compare_antisym.
    + intros x y. apply String.leb_total.
  - apply (lex_leb_trans (fun x y => Z.compare y x) prioridade).
    + intros x y z. rewrite !Z.compare_lt_iff. lia.
    + intros x y H. symmetry. now apply Z.compare_eq.
    + intros x y z. apply string_leb_trans.
Qed.

Lemma technical_consolidation_sorted (df : Frame Row) :
  StronglySorted rank_priority_le
    (rows (TechnicalProblemsSheet.consolidate
             (TechnicalProblemsSheet.detect df))).
Proof.
  unfold TechnicalProblemsSheet.consolidate. simpl.
  eapply StronglySorted_weaken_in; [|apply priority_criticidade_sorted].
  intros a b Ha Hb Hab.
  assert (Hdraft : forall x,
             In x (stable_sort TechnicalProblemsSheet.priority_criticidade_leb
                     (drop_duplicates pair_eqb url_problema
                        (TechnicalProblemsSheet.detect df))) ->
             rank x = technical_band (prioridade x)).
  { intros x Hx. apply (technical_draft_band df).
    eapply drop_duplicates_In; [exact pair_eqb_spec|].
    apply (proj1 (stable_sort_In
                    TechnicalProblemsSheet.priority_criticidade_leb _ x)).
    exact Hx. }
  simpl in Hab.
  assert (Hp : prioridade b <= prioridade a).
  { unfold TechnicalProblemsSheet.priority_criticidade_leb, lex_leb in Hab.
    destruct (Z.compare_spec (prioridade b) (prioridade a));
      [lia|lia|discriminate]. }
  unfold rank_priority_le. rewrite (Hdraft a Ha), (Hdraft b Hb).
  pose proof (technical_band_antitone _ _ Hp). lia.
Qed.

Lemma response_time_desc_total (a b : Issue) :
  PerformanceSheet.response_time_desc_leb a b = true \/
  PerformanceSheet.response_time_desc_leb b a = true.
Proof.
  unfold PerformanceSheet.response_time_desc_leb.
  destruct (i_response_time a) as [x|], (i_response_time b) as [y|]; auto.
  rewrite !Qle_bool_iff. destruct (Qlt_le_dec x y) as [H|H]; [right|left].
  - now apply Qlt_le_weak.
  - exact H.
Qed.

Lemma response_time_desc_trans (a b c : Issue) :
  PerformanceSheet.response_time_desc_leb a b = true ->
  PerformanceSheet.response_time_desc_leb b c = true ->
  PerformanceSheet.response_time_desc_leb a c = true.
Proof.
  unfold PerformanceSheet.response_time_desc_leb.
  destruct (i_response_time a) as [x|], (i_response_time b) as [y|],
    (i_response_time c) as [z|]; try congruence.
  rewrite !Qle_bool_iff. intros H1 H2. eapply Qle_trans; eauto.
Qed.

Lemma performance_consolidation_sorted (issues : list Issue) :
  StronglySorted priority_response_le
    (rows (PerformanceSheet.consolidate issues)).
Proof.
  unfold PerformanceSheet.consolidate. simpl.
  eapply StronglySorted_weaken;
    [|apply (stable_sort_StronglySorted PerformanceSheet.priority_response_leb)].
  - intros a b Hab.
    unfold PerformanceSheet.priority_response_leb, lex_leb in Hab.
    unfold priority_response_le.
    destruct (Z.compare_spec (prioridade b) (prioridade a)) as [E|E|E];
      try discriminate; auto.
  - apply (lex_leb_total (fun x y => Z.compare y x) prioridade).
    + intros x y. apply Z.compare_antisym.
    + exact response_time_desc_total.
  - apply (lex_leb_trans (fun x y => Z.compare y x) prioridade).
    + intros x y z. rewrite !Z.compare_lt_iff. lia.
    + intros x y H. symmetry. now apply Z.compare_eq.
    + exact response_time_desc_trans.
Qed.

(** C2 (as the code has it). The title, meta, heading and image
    categories order every draft list by criticality rank ascending, with
    ascending url as the tiebreak within a rank.  On the drafts its rules
    produce, the H1/H2 category (sorted by prioridade, then url) has the
    same rank-then-url order, and the technical category (sorted by
    priority_score descending) is in ascending rank order with the higher
    priority_score first within a rank.  The performance category orders
    by priority_score descending and, within a score, by response_time
    descending. *)
Theorem consolidation_orders :
  (forall issues,
      StronglySorted rank_url_le
        (rows (TitleProblemsSheet.consolidate issues))) /\
  (forall issues,
      StronglySorted rank_url_le
        (rows (MetaProblemsSheet.consolidate issues))) /\
  (forall issues,
      StronglySorted rank_url_le
        (rows (HeadingProblemsSheet.consolidate issues))) /\
  (forall issues,
      StronglySorted rank_url_le
        (rows (ImageProblemsSheet.consolidate issues))) /\
  (forall df,
      StronglySorted rank_url_le
        (rows (H1H2MissingSheet.consolidate (H1H2MissingSheet.detect df)))) /\
  (forall df,
      StronglySorted rank_priority_le
        (rows (TechnicalProblemsSheet.consolidate
                 (TechnicalProblemsSheet.detect df)))) /\
  (forall issues,
      StronglySorted priority_response_le
        (rows (PerformanceSheet.consolidate issues))).
Proof.
  repeat split.
  - intros issues. now apply sorted_consolidation.
  - intros issues. now apply sorted_consolidation.
  - intros issues. now apply sorted_consolidation.
  - intros issues. now apply sorted_consolidation.
  - exact h1h2_consolidation_sorted.
  - exact technical_consolidation_sorted.
  - exact performance_consolidation_sorted.
Qed.

(** The two pages of [resource_pages] draw the same priority score 6; the
    slower one, of criticality MÉDIO, is listed before the ALTO one. *)
Example resource_pages_report (F : FloatFormat) :
  map (fun i => (i_url i, criticidade i, prioridade i))
      (rows (PerformanceSheet.consolidate
               (PerformanceSheet.detect F resource_pages)))
  = [("https://a/", "MÉDIO", 6); ("https://b/", "ALTO", 6)].
Proof. reflexivity. Qed.

(** C2 (as stated) fails for the performance category: its consolidated
    report is not always in ascending rank order. *)
Lemma performance_order_not_by_rank :
  ~ (forall (F : FloatFormat) (df : Frame Row),
        ranks_ascending
          (rows (PerformanceSheet.consolidate (PerformanceSheet.detect F df)))).
Proof.
  intros H.
  specialize (H integer_format resource_pages).
  unfold ranks_ascending in H.
  inversion H as [|a l _ Hall Heq]; subst.
  inversion Hall as [|b l' Hab _ Heq']; subst.
  vm_compute in Hab. lia.
Qed.

(** ** Missing columns *)

(** C3 (where the code departs from it). On a record set without the
    [is_https_page] column the first mixed-content rule raises a KeyError
    instead of contributing no issue, and so does the second one without
    [http_links_count]; the category sheet becomes an error marker. *)
Theorem mixed_content_rules_raise_without_columns
        (F : FloatFormat) (pandas_error : string) :
  MixedContentSheet._process_https_issues F
    (mkFrame ["url"] [blank_row "https://a/"])
  = Raise (KeyError "is_https_page") /\
  MixedContentSheet._process_http_issues F
    (mkFrame ["url"] [blank_row "https://a/"])
  = Raise (KeyError "http_links_count") /\
  MixedContentSheet.create_sheet F pandas_error
    (mkFrame ["url"] [blank_row "https://a/"])
  = Some (ErrorSheet "Erro: 'is_https_page'").
Proof. repeat split; reflexivity. Qed.

(** The guarded rules of the other categories, on the same record set. *)
Example guarded_rules_without_columns (F : FloatFormat) :
  let df := mkFrame ["url"] [blank_row "https://a/"] in
  TitleProblemsSheet.detect F df = Ok [] /\
  MetaProblemsSheet.detect F df = Ok [] /\
  HeadingProblemsSheet.detect F df = [] /\
  H1H2MissingSheet.detect df = [] /\
  ImageProblemsSheet.detect F df = [] /\
  TechnicalProblemsSheet.detect df = [] /\
  PerformanceSheet.detect F df = [].
Proof. repeat split; reflexivity. Qed.

(** ** The empty record set *)

Lemma safe_filter_no_rows {A} (cols : list string) (c : string)
      (mask : A -> bool) :
  rows (BaseSheet._safe_filter (mkFrame cols []) c mask) = [].
Proof. unfold BaseSheet._safe_filter. now destruct (has_column _ c). Qed.

Ltac no_rows :=
  repeat rewrite safe_filter_no_rows; simpl;
  repeat match goal with
         | |- context [if ?b then _ else _] => destruct b; simpl
         end;
  try reflexivity.

Lemma title_detect_no_rows (F : FloatFormat) (cols : list string) :
  TitleProblemsSheet.detect F (mkFrame cols []) = Ok [].
Proof.
  unfold TitleProblemsSheet.detect, TitleProblemsSheet._find_no_title_issues,
    TitleProblemsSheet._find_long_title_issues,
    TitleProblemsSheet._find_short_title_issues,
    TitleProblemsSheet._find_duplicate_title_issues.
  no_rows.
Qed.

Lemma meta_detect_no_rows (F : FloatFormat) (cols : list string) :
  MetaProblemsSheet.detect F (mkFrame cols []) = Ok [].
Proof.
  unfold MetaProblemsSheet.detect, MetaProblemsSheet._find_no_meta_issues,
    MetaProblemsSheet._find_long_meta_issues,
    MetaProblemsSheet._find_short_meta_issues,
    MetaProblemsSheet._find_duplicate_meta_issues.
  no_rows.
Qed.

Lemma heading_detect_no_rows (F : FloatFormat) (cols : list string) :
  HeadingProblemsSheet.detect F (mkFrame cols []) = [].
Proof.
  unfold HeadingProblemsSheet.detect, HeadingProblemsSheet._find_no_h1_issues,
    HeadingProblemsSheet._find_multiple_h1_issues,
    HeadingProblemsSheet._find_no_h2_issues,
    HeadingProblemsSheet._find_hierarchy_issues,
    HeadingProblemsSheet._find_long_h1_issues.
  no_rows.
Qed.

Lemma h1h2_detect_no_rows (cols : list string) :
  H1H2MissingSheet.detect (mkFrame cols []) = [].
Proof.
  unfold H1H2MissingSheet.detect, H1H2MissingSheet._find_no_h1_issues,
    H1H2MissingSheet._find_no_h2_issues,
    H1H2MissingSheet._find_no_h1_h2_issues.
  no_rows.
Qed.

Lemma image_detect_no_rows (F : FloatFormat) (cols : list string) :
  ImageProblemsSheet.detect F (mkFrame cols []) = [].
Proof.
  unfold ImageProblemsSheet.detect, ImageProblemsSheet._find_no_alt_issues,
    ImageProblemsSheet._find_no_src_issues,
    ImageProblemsSheet._find_many_images_issues,
    ImageProblemsSheet._find_no_images_issues,
    ImageProblemsSheet._find_dimension_issues.
  no_rows.
Qed.

Lemma technical_detect_no_rows (cols : list string) :
  TechnicalProblemsSheet.detect (mkFrame cols []) = [].
Proof.
  unfold TechnicalProblemsSheet.detect,
    TechnicalProblemsSheet._find_canonical_issues,
    TechnicalProblemsSheet._find_viewport_issues,
    TechnicalProblemsSheet._find_charset_issues,
    TechnicalProblemsSheet._find_schema_issues,
    TechnicalProblemsSheet._find_robots_issues,
    TechnicalProblemsSheet._find_favicon_issues,
    TechnicalProblemsSheet._find_og_issues.
  no_rows.
Qed.

Lemma performance_detect_no_rows (F : FloatFormat) (cols : list string) :
  PerformanceSheet.detect F (mkFrame cols []) = [].
Proof.
  unfold PerformanceSheet.detect, PerformanceSheet._find_slow_pages_issues,
    PerformanceSheet._find_very_slow_pages_issues,
    PerformanceSheet._find_heavy_pages_issues,
    PerformanceSheet._find_resource_heavy_issues,
    PerformanceSheet._find_content_efficiency_issues.
  no_rows.
Qed.

(** C6 (as the code has it). On a record set without records the summary
    is the marker "Nenhum dado para resumir" and the title, meta, heading,
    H1/H2, image, technical and performance reports are their all-clear
    markers; the status report of the set built from no record at all is
    the marker "Coluna status_code não encontrada"; [export_results]
    returns the empty path and writes no sheet.  Nothing is raised. *)
Theorem empty_record_set_reports (F : FloatFormat) (cols : list string) :
  SummarySheet.create_sheet F (mkFrame cols [])
  = Some (ErrorSheet "Nenhum dado para resumir") /\
  TitleProblemsSheet.create_sheet F (mkFrame cols [])
  = Some (SuccessSheet "✅ Nenhum problema de título encontrado!") /\
  MetaProblemsSheet.create_sheet F (mkFrame cols [])
  = Some (SuccessSheet "✅ Nenhum problema de meta description!") /\
  HeadingProblemsSheet.create_sheet F (mkFrame cols [])
  = Some (SuccessSheet "✅ Estrutura de headings adequada!") /\
  H1H2MissingSheet.create_sheet (mkFrame cols [])
  = Some (SuccessSheet "✅ Estrutura de H1/H2 adequada!") /\
  ImageProblemsSheet.create_sheet F (mkFrame cols [])
  = Some (SuccessSheet "✅ Nenhum problema de imagem encontrado!") /\
  TechnicalProblemsSheet.create_sheet (mkFrame cols [])
  = Some (SuccessSheet "✅ Nenhum problema técnico encontrado!") /\
  PerformanceSheet.create_sheet F (mkFrame cols [])
  = Some (SuccessSheet "✅ Nenhum problema de performance encontrado!") /\
  (forall sort_values,
      StatusProblemsSheet.create_sheet sort_values (mkFrame [] [])
      = Some (ErrorSheet "Coluna status_code não encontrada")) /\
  (forall env output_dir filename,
      ExcelExporter.export_results env output_dir (mkFrame cols []) filename
      = ExcelExporter.Returned (ExcelExporter.mkExported "" None)).
Proof.
  split; [reflexivity|].
  split; [unfold TitleProblemsSheet.create_sheet;
          now rewrite title_detect_no_rows|].
  split; [unfold MetaProblemsSheet.create_sheet;
          now rewrite meta_detect_no_rows|].
  split; [unfold HeadingProblemsSheet.create_sheet;
          now rewrite heading_detect_no_rows|].
  split; [unfold H1H2MissingSheet.create_sheet;
          now rewrite h1h2_detect_no_rows|].
  split; [unfold ImageProblemsSheet.create_sheet;
          now rewrite image_detect_no_rows|].
  split; [unfold TechnicalProblemsSheet.create_sheet;
          now rewrite technical_detect_no_rows|].
  split; [unfold PerformanceSheet.create_sheet;
          now rewrite performance_detect_no_rows|].
  split; reflexivity.
Qed.

(** C6 (as stated) fails on the record set built from no record: the
    status report is not an all-clear marker, and [export_results] writes
    neither a summary nor any report. *)
Lemma empty_set_not_all_clear :
  ~ (exists sort_values,
       is_all_clear
         (StatusProblemsSheet.create_sheet sort_values (mkFrame [] []))) /\
  ExcelExporter.export_results posix_environment "seofrog_output"
                               (mkFrame [] []) (Some "crawl.xlsx")
  = ExcelExporter.Returned (ExcelExporter.mkExported "" None).
Proof.
  split; [|reflexivity].
  intros (sort_values & msg & H). vm_compute in H. discriminate H.
Qed.

(** The mixed-content report of the same set is an error marker as well,
    for the reason given under C3. *)
Example empty_set_mixed_content_report
        (F : FloatFormat) (pandas_error : string) :
  MixedContentSheet.create_sheet F pandas_error (mkFrame [] [])
  = Some (ErrorSheet "Erro: 'is_https_page'").
Proof. reflexivity. Qed.

(** ** The page-type classifiers *)

Ltac classify :=
  unfold spec_classifier, homepage_heuristic; simpl;
  repeat match goal with
         | |- context [Py.contains ?p ?u] => destruct (Py.contains p u); simpl
         end;
  try reflexivity.

Lemma h1h2_classifier_spec (row : Row) :
  H1H2MissingSheet._detect_page_type row
  = spec_classifier h1h2_checks true (url row).
Proof. unfold H1H2MissingSheet._detect_page_type, h1h2_checks. classify. Qed.

Lemma technical_classifier_spec (row : Row) :
  TechnicalProblemsSheet._detect_page_type row
  = spec_classifier technical_checks true (url row).
Proof.
  unfold TechnicalProblemsSheet._detect_page_type, technical_checks. classify.
Qed.

Lemma image_classifier_spec (row : Row) :
  ImageProblemsSheet._detect_page_type row
  = spec_classifier image_checks false (url row).
Proof. unfold ImageProblemsSheet._detect_page_type, image_checks. classify. Qed.

Lemma performance_classifier_spec (row : Row) :
  PerformanceSheet._detect_page_type row
  = spec_classifier performance_checks true (url row).
Proof.
  unfold PerformanceSheet._detect_page_type, performance_checks. classify.
Qed.

Lemma spec_classifier_tags (checks : list (list string * string))
      (with_homepage : bool) (u : string) (tags : list string) :
  (forall c, In c checks -> In (snd c) tags) ->
  In "Homepage" tags -> In "Conteúdo" tags ->
  In (spec_classifier checks with_homepage u) tags.
Proof.
  intros Hchecks Hhome Hcont. unfold spec_classifier.
  destruct (first_match checks (Py.lower u)) as [tag|] eqn:Hm.
  - revert Hm. induction checks as [|[ps t] rest IH]; simpl; [discriminate|].
    destruct (existsb _ ps).
    + intros [= <-]. apply (Hchecks (ps, t)). now left.
    + apply IH. intros c Hc. apply Hchecks. now right.
  - destruct (with_homepage && homepage_heuristic (Py.lower u))%bool;
      assumption.
Qed.

(** C8 (as the code has it). The H1/H2 rule pack's classifier is the
    ordered check list blog/article, product, category, institutional,
    contact, then the homepage heuristic, else Content, and returns one of
    the seven tags.  The technical pack's classifier is the same list with
    "/post/" added to the blog/article check.  The image pack's classifier
    checks blog/article, product, category, gallery (tag "Galeria") and
    institutional, and has neither the contact check nor the homepage
    heuristic.  The performance pack's classifier checks blog/article,
    product and category, then the homepage heuristic. *)
Theorem page_type_classifiers :
  (forall row,
      H1H2MissingSheet._detect_page_type row
      = spec_classifier h1h2_checks true (url row) /\
      In (H1H2MissingSheet._detect_page_type row) seven_tags) /\
  (forall row,
      TechnicalProblemsSheet._detect_page_type row
      = spec_classifier technical_checks true (url row) /\
      In (TechnicalProblemsSheet._detect_page_type row) seven_tags) /\
  (forall row,
      ImageProblemsSheet._detect_page_type row
      = spec_classifier image_checks false (url row) /\
      In (ImageProblemsSheet._detect_page_type row) ("Galeria" :: seven_tags)) /\
  (forall row,
      PerformanceSheet._detect_page_type row
      = spec_classifier performance_checks true (url row) /\
      In (PerformanceSheet._detect_page_type row) seven_tags).
Proof.
  repeat split.
  - apply h1h2_classifier_spec.
  - rewrite h1h2_classifier_spec. apply spec_classifier_tags;
      [|simpl; tauto|simpl; tauto].
    intros c Hc. simpl in Hc. repeat destruct Hc as [<-|Hc]; simpl; tauto.
  - apply technical_classifier_spec.
  - rewrite technical_classifier_spec. apply spec_classifier_tags;
      [|simpl; tauto|simpl; tauto].
    intros c Hc. simpl in Hc. repeat destruct Hc as [<-|Hc]; simpl; tauto.
  - apply image_classifier_spec.
  - rewrite image_classifier_spec. apply spec_classifier_tags;
      [|simpl; tauto|simpl; tauto].
    intros c Hc. simpl in Hc. repeat destruct Hc as [<-|Hc]; simpl; tauto.
  - apply performance_classifier_spec.
  - rewrite performance_classifier_spec. apply spec_classifier_tags;
      [|simpl; tauto|simpl; tauto].
    intros c Hc. simpl in Hc. repeat destruct Hc as [<-|Hc]; simpl; tauto.
Qed.

(** C8 (as stated) fails for the image rule pack: a gallery url is tagged
    "Galeria", which is none of the seven tags. *)
Lemma image_classifier_gallery_tag :
  ~ In (ImageProblemsSheet._detect_page_type
          (blank_row "https://site.com/galeria/fotos"))
       seven_tags.
Proof.
  vm_compute. intros H.
  repeat (destruct H as [H|H]; [discriminate H|]). exact H.
Qed.

(** The packs also disagree on urls the seven tags cover. *)
Example classifiers_disagree :
  H1H2MissingSheet._detect_page_type (blank_row "https://site.com/post/x")
  = "Conteúdo" /\
  TechnicalProblemsSheet._detect_page_type (blank_row "https://site.com/post/x")
  = "Blog/Artigo" /\
  H1H2MissingSheet._detect_page_type (blank_row "https://site.com/")
  = "Homepage" /\
  ImageProblemsSheet._detect_page_type (blank_row "https://site.com/")
  = "Conteúdo" /\
  H1H2MissingSheet._detect_page_type (blank_row "https://site.com/contato")
  = "Contato" /\
  PerformanceSheet._detect_page_type (blank_row "https://site.com/contato")
  = "Conteúdo".
Proof. repeat split; reflexivity. Qed.

(** * Further properties of the sheets *)

(** ** Stability of the sort *)

Lemma insert_sorted_filter {A} (leb : A -> A -> bool) (P : A -> bool)
      (x : A) (s : list A) :
  (forall y, In y s -> P x = true -> P y = true -> leb x y = true) ->
  filter P (insert_sorted leb x s)
  = if P x then x :: filter P s else filter P s.
Proof.
  induction s as [|y t IH]; intros H; simpl.
  - now destruct (P x).
  - destruct (leb x y) eqn:Hxy; simpl.
    + now destruct (P x).
    + rewrite IH by (intros z Hz; apply H; now right).
      destruct (P x) eqn:Hx, (P y) eqn:Hy; try reflexivity.
      rewrite (H y (or_introl eq_refl) eq_refl Hy) in Hxy. discriminate.
Qed.

Lemma stable_sort_filter {A} (leb : A -> A -> bool) (P : A -> bool)
      (l : list A) :
  (forall x y, P x = true -> P y = true -> leb x y = true) ->
  filter P (stable_sort leb l) = filter P l.
Proof.
  intros H. induction l as [|x t IH]; simpl; [reflexivity|].
  rewrite insert_sorted_filter by (intros y _; apply H).
  now rewrite IH.
Qed.

Lemma find_filter_hd {A} (P : A -> bool) (l : list A) :
  find P l = hd_error (filter P l).
Proof.
  induction l as [|x t IH]; simpl; [reflexivity|].
  now destruct (P x).
Qed.

Lemma same_rank_url_leb (r x y : Issue) :
  same_rank_url r x = true -> same_rank_url r y = true ->
  BaseSheet.sort_key_leb x y = true.
Proof.
  unfold same_rank_url, BaseSheet.sort_key_leb, lex_leb, rank.
  rewrite !andb_true_iff, !Nat.eqb_eq, !String.eqb_eq.
  intros [Hr1 Hu1] [Hr2 Hu2]. rewrite Hr1, Hr2, Nat.compare_refl, Hu1, Hu2.
  destruct (String.leb_total (i_url r) (i_url r)); assumption.
Qed.

(** The row kept by the export of a list consolidated by
    [_sort_by_criticality]. *)
Lemma kept_row_first_least_rank (icols : list string) (issues : list Issue)
      (r : Issue) :
  Py.mem "criticidade" icols = true ->
  In r (drop_duplicates String.eqb i_url
          (rows (BaseSheet._sort_by_criticality
                   (mkFrame icols
                      (drop_duplicates pair_eqb url_problema issues))))) ->
  (forall x, In x (drop_duplicates pair_eqb url_problema issues) ->
             i_url x = i_url r -> (rank r <= rank x)%nat) /\
  find (same_rank_url r) (drop_duplicates pair_eqb url_problema issues)
  = Some r.
Proof.
  intros Hc Hr.
  set (D := drop_duplicates pair_eqb url_problema issues) in *.
  assert (Hrows : rows (BaseSheet._sort_by_criticality (mkFrame icols D))
                  = stable_sort BaseSheet.sort_key_leb D).
  { unfold BaseSheet._sort_by_criticality, has_column. simpl. now rewrite Hc. }
  rewrite Hrows in Hr.
  destruct (dedup_from_first String.eqb i_url String.eqb_eq [] _ r Hr)
    as (l1 & l2 & Hl & Hl1).
  split.
  - intros x Hx Hu.
    pose proof (sorted_rows_rank_url D) as Hs. rewrite Hl in Hs.
    apply StronglySorted_app_r in Hs. inversion Hs as [|? ? _ Hall]; subst.
    apply (stable_sort_In BaseSheet.sort_key_leb) in Hx. rewrite Hl in Hx.
    apply in_app_or in Hx. destruct Hx as [Hx|[<-|Hx]].
    + exfalso. now apply (Hl1 x Hx).
    + lia.
    + apply rank_url_le_rank. rewrite Forall_forall in Hall. now apply Hall.
  - rewrite find_filter_hd.
    rewrite <- (stable_sort_filter BaseSheet.sort_key_leb (same_rank_url r) D)
      by (intros x y; apply same_rank_url_leb).
    rewrite Hl, filter_app.
    assert (Hnil : filter (same_rank_url r) l1 = []).
    { clear Hl. induction l1 as [|a t IH]; simpl; [reflexivity|].
      assert (Ha : same_rank_url r a = false).
      { unfold same_rank_url. apply andb_false_iff. right.
        apply String.eqb_neq. apply Hl1. now left. }
      rewrite Ha. apply IH. intros y Hy. apply Hl1. now right. }
    rewrite Hnil. simpl.
    assert (Hrr : same_rank_url r r = true).
    { unfold same_rank_url. now rewrite Nat.eqb_refl, String.eqb_refl. }
    now rewrite Hrr.
Qed.

Lemma sorted_export_body (name : string) (icols cols : list string)
      (issues : list Issue) (tcols : list string) (body : list Issue) :
  Py.mem "criticidade" icols = true -> Py.mem "url" icols = true ->
  In "url" cols ->
  match issues with
  | [] => None
  | _ => Some (BaseSheet._export_dataframe name i_url
                 (BaseSheet._sort_by_criticality
                    (mkFrame icols
                       (drop_duplicates pair_eqb url_problema issues)))
                 cols)
  end = Some (TableSheet tcols body) ->
  body = drop_duplicates String.eqb i_url
           (rows (BaseSheet._sort_by_criticality
                    (mkFrame icols
                       (drop_duplicates pair_eqb url_problema issues)))).
Proof.
  intros Hc Hu Hcols H.
  assert (Hne : issues <> []) by (intros E; rewrite E in H; discriminate).
  destruct (sorted_export name icols cols issues Hc Hu Hcols Hne)
    as [_ Hexp].
  destruct issues as [|i0 rest]; [congruence|].
  rewrite Hexp in H. now inversion H.
Qed.

(** X1. In the title, meta, heading and image reports the row written
    for a url is, among the deduplicated drafts of that url, one of least
    rank, and among those of that rank the first in detection order. *)
Theorem exported_row_is_first_least_rank_draft
        (issues : list Issue) (cols : list string) (body : list Issue)
        (r : Issue) :
  (TitleProblemsSheet._export_consolidated_issues issues
   = Some (TableSheet cols body) \/
   MetaProblemsSheet._export_consolidated_issues issues
   = Some (TableSheet cols body) \/
   HeadingProblemsSheet._export_consolidated_issues issues
   = Some (TableSheet cols body) \/
   ImageProblemsSheet._export_consolidated_issues issues
   = Some (TableSheet cols body)) ->
  In r body ->
  (forall x, In x (drop_duplicates pair_eqb url_problema issues) ->
             i_url x = i_url r -> (rank r <= rank x)%nat) /\
  find (same_rank_url r) (drop_duplicates pair_eqb url_problema issues)
  = Some r.
Proof.
  intros [H|[H|[H|H]]] Hr.
  - apply (sorted_export_body _ TitleProblemsSheet.issue_columns) in H;
      [|reflexivity|reflexivity|now left].
    subst body. now apply (kept_row_first_least_rank
                             TitleProblemsSheet.issue_columns).
  - apply (sorted_export_body _ MetaProblemsSheet.issue_columns) in H;
      [|reflexivity|reflexivity|now left].
    subst body. now apply (kept_row_first_least_rank
                             MetaProblemsSheet.issue_columns).
  - apply (sorted_export_body _ HeadingProblemsSheet.issue_columns) in H;
      [|reflexivity|reflexivity|now left].
    subst body. now apply (kept_row_first_least_rank
                             HeadingProblemsSheet.issue_columns).
  - apply (sorted_export_body _ ImageProblemsSheet.issue_columns) in H;
      [|reflexivity|reflexivity|now left].
    subst body. now apply (kept_row_first_least_rank
                             ImageProblemsSheet.issue_columns).
Qed.

Lemma exported_row_is_first_least_rank_draft_witness :
  let issues :=
    [plain_issue "https://a/1" "Título muito curto (4 chars)" "MÉDIO";
     plain_issue "https://a/1" "Título duplicado (5 páginas)" "ALTO";
     plain_issue "https://a/1" "Título duplicado (5 páginas)" "ALTO"] in
  let r := plain_issue "https://a/1" "Título duplicado (5 páginas)" "ALTO" in
  TitleProblemsSheet._export_consolidated_issues issues
  = Some (TableSheet TitleProblemsSheet.issue_columns [r]) /\
  In r [r] /\
  find (same_rank_url r) (drop_duplicates pair_eqb url_problema issues)
  = Some r.
Proof.
  intros issues r. split; [reflexivity|]. split; [now left|].
  apply (exported_row_is_first_least_rank_draft issues
           TitleProblemsSheet.issue_columns [r] r);
    [left; reflexivity|now left].
Defined.

(** ** Deduplication on (url, problem) *)

Lemma find_first_key {A K} (eqb : K -> K -> bool) (key : A -> K)
      (l : list A) (r : A) :
  (forall a b, eqb a b = true <-> a = b) ->
  In r (drop_duplicates eqb key l) ->
  find (fun x => eqb (key x) (key r)) l = Some r.
Proof.
  intros Hspec H.
  destruct (dedup_from_first eqb key Hspec [] l r H) as (l1 & l2 & -> & Hl1).
  apply find_first.
  - intros y Hy. destruct (eqb (key y) (key r)) eqn:E; [|reflexivity].
    apply Hspec in E. now apply Hl1 in Hy.
  - now apply Hspec.
Qed.

Lemma sorted_dedup_keeps_pairs (leb : Issue -> Issue -> bool)
      (issues : list Issue) :
  keeps_each_pair_once issues
    (stable_sort leb (drop_duplicates pair_eqb url_problema issues)).
Proof.
  set (D := drop_duplicates pair_eqb url_problema issues).
  assert (Hperm : Permutation D (stable_sort leb D)) by apply stable_sort_perm.
  split; [|split].
  - eapply Permutation_NoDup; [apply Permutation_map; exact Hperm|].
    apply drop_duplicates_NoDup. exact pair_eqb_spec.
  - intros k. rewrite !in_map_iff. split.
    + intros (x & Hk & Hx).
      destruct (drop_duplicates_first pair_eqb url_problema pair_eqb_spec
                  issues x Hx) as (f & _ & _ & Hf & Hfk & _).
      exists f. split; [congruence|].
      apply (proj2 (stable_sort_In leb _ f)). exact Hf.
    + intros (x & Hk & Hx). exists x. split; [assumption|].
      apply (proj1 (stable_sort_In leb _ x)) in Hx.
      eapply drop_duplicates_In; [exact pair_eqb_spec|exact Hx].
  - intros r Hr. apply (proj1 (stable_sort_In leb _ r)) in Hr.
    apply find_first_key; [exact pair_eqb_spec|exact Hr].
Qed.

(** X2. In the title, meta, heading, image, technical and performance
    categories the consolidation of a non-empty draft list (an empty one
    is never consolidated) keeps every (url, problem) pair of the drafts
    exactly once, represented by the first draft that carries the pair,
    and adds no row. *)
Theorem consolidation_keeps_each_pair_once (issues : list Issue) :
  issues <> [] ->
  keeps_each_pair_once issues (rows (TitleProblemsSheet.consolidate issues)) /\
  keeps_each_pair_once issues (rows (MetaProblemsSheet.consolidate issues)) /\
  keeps_each_pair_once issues
    (rows (HeadingProblemsSheet.consolidate issues)) /\
  keeps_each_pair_once issues (rows (ImageProblemsSheet.consolidate issues)) /\
  keeps_each_pair_once issues
    (rows (TechnicalProblemsSheet.consolidate issues)) /\
  keeps_each_pair_once issues (rows (PerformanceSheet.consolidate issues)).
Proof.
  intros _.
  split; [exact (sorted_dedup_keeps_pairs BaseSheet.sort_key_leb issues)|].
  split; [exact (sorted_dedup_keeps_pairs BaseSheet.sort_key_leb issues)|].
  split; [exact (sorted_dedup_keeps_pairs BaseSheet.sort_key_leb issues)|].
  split; [exact (sorted_dedup_keeps_pairs BaseSheet.sort_key_leb issues)|].
  split.
  - exact (sorted_dedup_keeps_pairs
             TechnicalProblemsSheet.priority_criticidade_leb issues).
  - exact (sorted_dedup_keeps_pairs
             PerformanceSheet.priority_response_leb issues).
Qed.

Lemma consolidation_keeps_each_pair_once_witness :
  let issues :=
    [plain_issue "https://a/2" "Título muito curto (4 chars)" "MÉDIO";
     plain_issue "https://a/1" "Sem título" "CRÍTICO";
     plain_issue "https://a/2" "Título muito curto (4 chars)" "MÉDIO"] in
  issues <> [] /\
  keeps_each_pair_once issues (rows (TitleProblemsSheet.consolidate issues)) /\
  keeps_each_pair_once issues (rows (PerformanceSheet.consolidate issues)).
Proof.
  intros issues.
  assert (Hne : issues <> []) by discriminate.
  split; [exact Hne|].
  destruct (consolidation_keeps_each_pair_once issues Hne)
    as (Ht & _ & _ & _ & _ & Hp).
  split; assumption.
Defined.

(** ** The sheet of a category *)







(** ** Rows of the H1/H2 report *)

Lemma find_app_some {A} (P : A -> bool) (l1 l2 : list A) (a : A) :
  In a l1 -> P a = true ->
  exists a', In a' l1 /\ find P (l1 ++ l2) = Some a'.
Proof.
  induction l1 as [|x t IH]; intros Hin Hp; [destruct Hin|]. simpl.
  destruct (P x) eqn:Hx.
  - exists x. split; [now left|reflexivity].
  - destruct Hin as [->|Hin]; [congruence|].
    destruct (IH Hin Hp) as (a' & Ha' & Hf). exists a'. split; [now right|exact Hf].
Qed.

Lemma export_nonempty_table (name : string) (icols cols : list string)
      (l : list Issue) :
  Py.mem "url" icols = true -> In "url" cols -> l <> [] ->
  BaseSheet._export_dataframe name i_url (mkFrame icols l) cols
  = TableSheet (filter (has_column (mkFrame icols l)) cols)
               (drop_duplicates String.eqb i_url l).
Proof.
  intros Hu Hcols Hl. apply export_dataframe_table; try assumption.
  unfold frame_empty. simpl. destruct l; [congruence|].
  destruct icols; [discriminate|reflexivity].
Qed.

Lemma sorted_dedup_nonempty {K} (leb : Issue -> Issue -> bool)
      (eqb : K -> K -> bool) (key : Issue -> K) (d0 : Issue)
      (ds : list Issue) :
  stable_sort leb (drop_duplicates eqb key (d0 :: ds)) <> [].
Proof.
  intros E.
  assert (H : In d0 (stable_sort leb (drop_duplicates eqb key (d0 :: ds)))).
  { apply (proj2 (stable_sort_In leb _ d0)).
    unfold drop_duplicates. simpl. now left. }
  rewrite E in H. destruct H.
Qed.

Lemma h1h2_export_body (issues : list Issue) :
  issues <> [] ->
  exists cols,
    H1H2MissingSheet._export_consolidated_issues issues
    = Some (TableSheet cols
              (drop_duplicates String.eqb i_url
                 (stable_sort H1H2MissingSheet.prioridade_url_leb
                    (drop_duplicates String.eqb i_url issues)))).
Proof.
  intros Hne. destruct issues as [|d0 ds]; [congruence|].
  eexists. unfold H1H2MissingSheet._export_consolidated_issues. f_equal.
  apply (export_nonempty_table H1H2MissingSheet.get_sheet_name
           H1H2MissingSheet.issue_columns _
           (stable_sort H1H2MissingSheet.prioridade_url_leb
              (drop_duplicates String.eqb i_url (d0 :: ds))));
    [reflexivity|now left|apply sorted_dedup_nonempty].
Qed.

Lemma h1h2_body_first_drafts (df : Frame Row) (cols : list string)
      (body : list Issue) (r : Issue) :
  H1H2MissingSheet.create_sheet df = Some (TableSheet cols body) ->
  In r body ->
  In r (drop_duplicates String.eqb i_url (H1H2MissingSheet.detect df)).
Proof.
  unfold H1H2MissingSheet.create_sheet.
  destruct (H1H2MissingSheet.detect df) as [|d0 ds] eqn:Hd; [discriminate|].
  destruct (h1h2_export_body (d0 :: ds)) as (c & Hc); [discriminate|].
  rewrite Hc. intros H Hr.
  assert (E : body = drop_duplicates String.eqb i_url
                       (stable_sort H1H2MissingSheet.prioridade_url_leb
                          (drop_duplicates String.eqb i_url (d0 :: ds))))
    by congruence.
  rewrite E in Hr.
  apply (drop_duplicates_In String.eqb i_url String.eqb_eq) in Hr.
  apply (proj1 (stable_sort_In H1H2MissingSheet.prioridade_url_leb _ r)) in Hr.
  exact Hr.
Qed.

Lemma h1h2_combined_has_no_h1_draft (df : Frame Row) (i : Issue) :
  In i (H1H2MissingSheet._find_no_h1_h2_issues df) ->
  exists a, In a (H1H2MissingSheet._find_no_h1_issues df) /\
            String.eqb (i_url a) (i_url i) = true.
Proof.
  unfold H1H2MissingSheet._find_no_h1_h2_issues,
    H1H2MissingSheet._find_no_h1_issues.
  destruct (has_column df "h1_count") eqn:Hc1; simpl; [|intros []].
  destruct (has_column df "h2_count") eqn:Hc2; simpl; [|intros []].
  rewrite !(safe_filter_present _ _ _ Hc1). simpl.
  intros H. apply in_map_iff in H. destruct H as (r & <- & Hr).
  apply filter_In in Hr. destruct Hr as [Hr Hm].
  apply andb_true_iff in Hm. destruct Hm as [Hm _].
  exists (H1H2MissingSheet.h1h2_issue (url r) "Sem H1" "CRÍTICO" 1). split.
  - apply in_map_iff. exists r. split; [reflexivity|].
    apply filter_In. now split.
  - simpl. apply String.eqb_refl.
Qed.

(** X4. Every row of the H1/H2 report is either "Sem H1" with criticality
    CRÍTICO or "Sem H2" with criticality ALTO: the combined draft
    "Sem H1 E sem H2" of a url is always preceded by the "Sem H1" draft of
    the same url and is dropped by the deduplication on url. *)
Theorem h1h2_report_rows (df : Frame Row) (cols : list string)
        (body : list Issue) (r : Issue) :
  H1H2MissingSheet.create_sheet df = Some (TableSheet cols body) ->
  In r body ->
  (problema r = "Sem H1" /\ criticidade r = "CRÍTICO" /\ prioridade r = 1) \/
  (problema r = "Sem H2" /\ criticidade r = "ALTO" /\ prioridade r = 2).
Proof.
  intros Hs Hr.
  pose proof (h1h2_body_first_drafts df cols body r Hs Hr) as Hd.
  pose proof (first_with_url_dedup i_url _ r Hd) as Hfirst.
  apply (drop_duplicates_In String.eqb i_url String.eqb_eq) in Hd.
  unfold H1H2MissingSheet.detect in Hd, Hfirst.
  apply in_app_or in Hd. destruct Hd as [Hd|Hd].
  - left. unfold H1H2MissingSheet._find_no_h1_issues in Hd.
    destruct (negb (has_column df "h1_count")); [destruct Hd|].
    apply in_map_iff in Hd. destruct Hd as (row & <- & _). now repeat split.
  - apply in_app_or in Hd. destruct Hd as [Hd|Hd].
    + right. unfold H1H2MissingSheet._find_no_h2_issues in Hd.
      destruct (negb (has_column df "h2_count")); [destruct Hd|].
      apply in_flat_map in Hd. destruct Hd as (row & _ & Hd).
      unfold H1H2MissingSheet.no_h2_issue in Hd.
      destruct (Py.gt _ 0); simpl in Hd; [destruct Hd as [<-|[]]|destruct Hd].
      now repeat split.
    + exfalso.
      destruct (h1h2_combined_has_no_h1_draft df r Hd) as (a & Ha & Hau).
      unfold first_with_url in Hfirst.
      destruct (find_app_some (fun x => String.eqb (i_url x) (i_url r))
                  (H1H2MissingSheet._find_no_h1_issues df)
                  (H1H2MissingSheet._find_no_h2_issues df
                     ++ H1H2MissingSheet._find_no_h1_h2_issues df)
                  a Ha Hau) as (a' & Ha' & Hf).
      rewrite Hf in Hfirst. injection Hfirst as ->.
      unfold H1H2MissingSheet._find_no_h1_issues in Ha'.
      destruct (negb (has_column df "h1_count")); [destruct Ha'|].
      apply in_map_iff in Ha'. destruct Ha' as (row & Heq & _).
      unfold H1H2MissingSheet._find_no_h1_h2_issues in Hd.
      destruct (negb (has_column df "h1_count") || negb (has_column df "h2_count"))%bool;
        [destruct Hd|].
      apply in_map_iff in Hd. destruct Hd as (row' & Heq' & _).
      rewrite <- Heq' in Heq. discriminate Heq.
Qed.

Lemma h1h2_report_rows_witness :
  let df := mkFrame ["url"; "h1_count"; "h2_count"]
                    [heading_row "a" 0 0; heading_row "b" 1 0] in
  let r := H1H2MissingSheet.h1h2_issue "a" "Sem H1" "CRÍTICO" 1 in
  let body := [r; H1H2MissingSheet.h1h2_issue "b" "Sem H2" "ALTO" 2] in
  H1H2MissingSheet.create_sheet df
  = Some (TableSheet
            ["url"; "problema_h1_h2"; "criticidade"; "h1_count"; "h2_count";
             "h1_text"; "title"; "page_type"; "action_required";
             "business_impact"; "technical_fix"] body) /\
  In r body /\
  ((problema r = "Sem H1" /\ criticidade r = "CRÍTICO" /\ prioridade r = 1) \/
   (problema r = "Sem H2" /\ criticidade r = "ALTO" /\ prioridade r = 2)).
Proof.
  intros df r body. split; [reflexivity|]. split; [now left|].
  apply (h1h2_report_rows df _ body r eq_refl). now left.
Defined.

(** ** The mixed-content sheet *)

Lemma statistics_raise_iff (pandas_error : string)
      (issues : list MixedContentSheet.MixedIssue) :
  MixedContentSheet._export_issues_statistics pandas_error issues
  = Raise (PandasError pandas_error) <->
  exists i, In i (table_rows (MixedContentSheet._export_issues issues)) /\
            MixedContentSheet.risco i = None.
Proof.
  unfold MixedContentSheet._export_issues_statistics,
    MixedContentSheet._export_issues. simpl.
  destruct (existsb MixedContentSheet.risk_missing
              (drop_duplicates MixedContentSheet.dedup_key_eqb
                               MixedContentSheet.dedup_key issues)) eqn:E.
  - split; [intros _|reflexivity].
    apply existsb_exists in E. destruct E as (i & Hi & Hr).
    exists i. split.
    + apply (proj2 (stable_sort_In MixedContentSheet.risk_url_leb _ i)).
      exact Hi.
    + unfold MixedContentSheet.risk_missing in Hr.
      destruct (MixedContentSheet.risco i); [discriminate|reflexivity].
  - split; [discriminate|]. intros (i & Hi & Hr).
    apply (proj1 (stable_sort_In MixedContentSheet.risk_url_leb _ i)) in Hi.
    assert (H : existsb MixedContentSheet.risk_missing
                  (drop_duplicates MixedContentSheet.dedup_key_eqb
                                   MixedContentSheet.dedup_key issues) = true).
    { apply existsb_exists. exists i. split; [exact Hi|].
      unfold MixedContentSheet.risk_missing. now rewrite Hr. }
    congruence.
Qed.

(** X5. Each mixed-content rule returns its issues exactly when both
    columns of its mask exist, and raises a KeyError otherwise.  The sheet
    is written all the same for every record set: what is written last is
    an error marker exactly when one of the four mask columns is missing,
    or when a row of the exported table has no risk, on which the
    statistics that follow the export raise. *)
Theorem mixed_content_sheet_total (F : FloatFormat) (pandas_error : string)
        (df : Frame Row) :
  ((exists l, MixedContentSheet._process_https_issues F df = Ok l) <->
   has_column df "is_https_page" = true /\
   has_column df "total_mixed_content_count" = true) /\
  ((exists l, MixedContentSheet._process_http_issues F df = Ok l) <->
   has_column df "http_links_count" = true /\
   has_column df "http_forms_count" = true) /\
  (exists s, MixedContentSheet.create_sheet F pandas_error df = Some s /\
             ((exists m, s = ErrorSheet m) <->
              mixed_mask_columns df = false \/ exports_missing_risk F df)).
Proof.
  unfold MixedContentSheet.create_sheet, exports_missing_risk,
    MixedContentSheet._process_https_issues,
    MixedContentSheet._process_http_issues, column_or_raise, mixed_mask_columns.
  destruct (has_column df "is_https_page"),
    (has_column df "total_mixed_content_count"),
    (has_column df "http_links_count"),
    (has_column df "http_forms_count"); simpl;
    (split; [|split]);
    try (split; [intros (l & H); discriminate H|intros [H1 H2]; discriminate]);
    try (split; [intros _; now split|intros _; eexists; reflexivity]);
    try (eexists; split; [reflexivity|];
         split; [intros _; now left|intros _; eexists; reflexivity]).
  match goal with
  | |- context [match ?l with [] => _ | _ :: _ => _ end] =>
      remember l as issues eqn:Hissues
  end.
  destruct issues as [|i0 issues].
  - eexists. split; [reflexivity|]. split.
    + intros (m & H). discriminate H.
    + intros [H|(https & http & E1 & E2 & i & Hi & _)]; [discriminate|].
      injection E1 as <-. injection E2 as <-.
      rewrite <- Hissues in Hi. destruct Hi.
  - destruct (MixedContentSheet._export_issues_statistics
                pandas_error (i0 :: issues)) as [u|e] eqn:E.
    + eexists. split; [reflexivity|]. split.
      * intros (m & H). discriminate H.
      * intros [H|(https & http & E1 & E2 & Hi)]; [discriminate|].
        injection E1 as <-. injection E2 as <-.
        rewrite <- Hissues in Hi.
        apply (proj2 (statistics_raise_iff pandas_error (i0 :: issues))) in Hi.
        congruence.
    + eexists. split; [reflexivity|]. split.
      * intros _. right. do 2 eexists.
        split; [reflexivity|]. split; [reflexivity|].
        rewrite <- Hissues.
        apply (proj1 (statistics_raise_iff pandas_error (i0 :: issues))).
        unfold MixedContentSheet._export_issues_statistics in *.
        destruct (existsb _ _); [reflexivity|discriminate].
      * intros _. eexists. reflexivity.
Qed.

Lemma dedup_key_eqb_spec (a b : string * (string * string)) :
  MixedContentSheet.dedup_key_eqb a b = true <-> a = b.
Proof.
  destruct a as [a1 [a2 a3]], b as [b1 [b2 b3]].
  unfold MixedContentSheet.dedup_key_eqb. simpl.
  rewrite !andb_true_iff, !String.eqb_eq. split.
  - intros [[-> ->] ->]. reflexivity.
  - intros H. inversion H. auto.
Qed.

Lemma risk_url_sorted (l : list MixedContentSheet.MixedIssue) :
  StronglySorted risk_url_le (stable_sort MixedContentSheet.risk_url_leb l).
Proof.
  eapply StronglySorted_weaken;
    [|apply (stable_sort_StronglySorted MixedContentSheet.risk_url_leb)].
  - intros a b. unfold MixedContentSheet.risk_url_leb, lex_leb, risk_url_le.
    destruct (Nat.compare_spec
                (MixedContentSheet.risk_order (MixedContentSheet.risco a))
                (MixedContentSheet.risk_order (MixedContentSheet.risco b)))
      as [E|E|E]; intros H; try discriminate; auto.
  - apply (lex_leb_total Nat.compare
             (fun i => MixedContentSheet.risk_order (MixedContentSheet.risco i))).
    + intros x y. apply Nat.compare_antisym.
    + intros x y. apply String.leb_total.
  - apply (lex_leb_trans Nat.compare
             (fun i => MixedContentSheet.risk_order (MixedContentSheet.risco i))).
    + exact nat_compare_lt_trans.
    + intros x y. apply Nat.compare_eq.
    + intros x y z. apply string_leb_trans.
Qed.

(** X6. For a non-empty list of issues (the only case in which
    [create_sheet] exports) the mixed-content report lists every distinct
    (url, kind, http url) triple of the issues once, by its first issue, in
    the order blocked active content, passive content, insecure forms, http
    links, any other risk, and by url within a risk. *)
Theorem mixed_content_export_order
        (issues : list MixedContentSheet.MixedIssue) :
  issues <> [] ->
  exists body,
    MixedContentSheet._export_issues issues
    = TableSheet MixedContentSheet.issue_columns body /\
    StronglySorted risk_url_le body /\
    NoDup (map MixedContentSheet.dedup_key body) /\
    (forall k, In k (map MixedContentSheet.dedup_key issues) <->
               In k (map MixedContentSheet.dedup_key body)) /\
    (forall r, In r body ->
       find (fun x => MixedContentSheet.dedup_key_eqb
                        (MixedContentSheet.dedup_key x)
                        (MixedContentSheet.dedup_key r)) issues = Some r) /\
    map MixedContentSheet.risk_order
        [Some "CRÍTICO - Bloqueado pelo browser";
         Some "MÉDIO - Cadeado quebrado";
         Some "MÉDIO - Dados não criptografados";
         Some "BAIXO - Não é mixed content"; Some "DESCONHECIDO"; None]
    = [1; 2; 3; 4; 5; 5]%nat.
Proof.
  intros _.
  set (D := drop_duplicates MixedContentSheet.dedup_key_eqb
                            MixedContentSheet.dedup_key issues).
  exists (stable_sort MixedContentSheet.risk_url_leb D).
  split; [reflexivity|]. split; [apply risk_url_sorted|].
  split; [|split; [|split; [|reflexivity]]].
  - eapply Permutation_NoDup;
      [apply Permutation_map; apply stable_sort_perm|].
    apply drop_duplicates_NoDup. exact dedup_key_eqb_spec.
  - intros k. rewrite !in_map_iff. split.
    + intros (x & Hk & Hx).
      destruct (drop_duplicates_first MixedContentSheet.dedup_key_eqb
                  MixedContentSheet.dedup_key dedup_key_eqb_spec issues x Hx)
        as (f & _ & _ & Hf & Hfk & _).
      exists f. split; [congruence|].
      apply (proj2 (stable_sort_In MixedContentSheet.risk_url_leb _ f)).
      exact Hf.
    + intros (x & Hk & Hx). exists x. split; [assumption|].
      apply (proj1 (stable_sort_In MixedContentSheet.risk_url_leb _ x)) in Hx.
      eapply drop_duplicates_In; [exact dedup_key_eqb_spec|exact Hx].
  - intros r Hr.
    apply (proj1 (stable_sort_In MixedContentSheet.risk_url_leb _ r)) in Hr.
    apply find_first_key; [exact dedup_key_eqb_spec|exact Hr].
Qed.

Lemma mixed_content_export_order_witness :
  let issues :=
    [MixedContentSheet.mkMixedIssue "https://b/" "HTTP LINKS" "LINKS"
       "2 links HTTP" (Some "BAIXO - Não é mixed content");
     MixedContentSheet.mkMixedIssue "https://a/" "HTTP FORMS" "FORMS"
       "1 forms HTTP" (Some "MÉDIO - Dados não criptografados");
     MixedContentSheet.mkMixedIssue "https://b/" "HTTP LINKS" "LINKS"
       "2 links HTTP" (Some "BAIXO - Não é mixed content")] in
  issues <> [] /\
  exists body,
    MixedContentSheet._export_issues issues
    = TableSheet MixedContentSheet.issue_columns body /\
    StronglySorted risk_url_le body.
Proof.
  intros issues.
  assert (Hne : issues <> []) by discriminate.
  split; [exact Hne|].
  destruct (mixed_content_export_order issues Hne) as (body & H1 & H2 & _).
  exists body. split; assumption.
Defined.

(** ** The status sheet *)

Lemma dedup_from_StronglySorted {A K} (eqb : K -> K -> bool) (key : A -> K)
      (R : A -> A -> Prop) (seen : list K) (l : list A) :
  (forall a b, eqb a b = true <-> a = b) ->
  StronglySorted R l -> StronglySorted R (dedup_from eqb key seen l).
Proof.
  intros Hspec Hs. revert seen.
  induction Hs as [|a t Ht IH Hall]; intros seen; simpl; [constructor|].
  destruct (existsb (eqb (key a)) seen); [apply IH|].
  constructor; [apply IH|].
  rewrite Forall_forall in *. intros x Hx. apply Hall.
  now apply (dedup_from_In eqb key Hspec) in Hx.
Qed.

Lemma status_sorted (l : list Row) :
  StronglySorted status_le (stable_sort StatusProblemsSheet.status_leb l).
Proof.
  eapply StronglySorted_weaken;
    [|apply (stable_sort_StronglySorted StatusProblemsSheet.status_leb)].
  - intros a b. unfold StatusProblemsSheet.status_leb, status_le.
    destruct (status_code a), (status_code b); try discriminate; auto.
    intros H. now apply Z.leb_le.
  - intros x y. unfold StatusProblemsSheet.status_leb.
    destruct (status_code x) as [a|], (status_code y) as [b|]; auto.
    rewrite !Z.leb_le. lia.
  - intros x y z. unfold StatusProblemsSheet.status_leb.
    destruct (status_code x) as [a|], (status_code y) as [b|],
      (status_code z) as [c|]; try congruence.
    rewrite !Z.leb_le. lia.
Qed.

Lemma frame_empty_mk {A} (cols : list string) (l : list A) :
  cols <> [] -> l <> [] -> frame_empty (mkFrame cols l) = false.
Proof.
  intros Hc Hl. unfold frame_empty. simpl.
  destruct l; [congruence|]. destruct cols; [congruence|reflexivity].
Qed.

Lemma status_sheet_cases (sort_values : list Row -> list Row)
      (df : Frame Row) :
  has_column df "status_code" = true ->
  StatusProblemsSheet.create_sheet sort_values df
  = let problems :=
      filter (fun r => negb (Z.eqb (Py.fillna (status_code r) 0) 200))
             (rows df) in
    match problems with
    | [] => Some (SuccessSheet "✅ Nenhum erro HTTP encontrado!")
    | _ =>
        Some (BaseSheet._export_dataframe StatusProblemsSheet.get_sheet_name
                url
                (mkFrame (columns df) (sort_values problems))
                ["url"; "status_code"; "final_url"; "response_time"])
    end.
Proof.
  intros Hc.
  assert (Hcols : columns df <> []).
  { unfold has_column in Hc. destruct (columns df); [discriminate|congruence]. }
  unfold StatusProblemsSheet.create_sheet. rewrite Hc. simpl negb. cbv iota.
  rewrite (safe_filter_present _ _ _ Hc). cbv zeta.
  destruct (filter _ (rows df)) as [|p ps] eqn:Hf.
  - reflexivity.
  - rewrite frame_empty_mk by (assumption || discriminate). reflexivity.
Qed.

Lemma status_le_refl (r : Row) : status_le r r.
Proof. unfold status_le. destruct (status_code r); [lia|exact I]. Qed.

Lemma stable_sort_sorts_by_status :
  sorts_by_status (stable_sort StatusProblemsSheet.status_leb).
Proof.
  intros l. split; [apply stable_sort_perm|apply status_sorted].
Qed.

(** X7. With the status_code and url columns present, and whatever the
    sort does with records of equal status, the status report is the
    all-clear marker exactly when every record has status 200 (a missing
    status counts as an error).  Otherwise it is a table of records whose
    status is not 200, one row per url, in ascending status order with the
    missing statuses last; the row kept for a url has the least status
    among the records of that url whose status is not 200. *)
Theorem status_report (sort_values : list Row -> list Row) (df : Frame Row) :
  sorts_by_status sort_values ->
  has_column df "status_code" = true -> has_column df "url" = true ->
  (StatusProblemsSheet.create_sheet sort_values df
   = Some (SuccessSheet "✅ Nenhum erro HTTP encontrado!") <->
   forall r, In r (rows df) -> status_code r = Some 200) /\
  ((exists r, In r (rows df) /\ status_code r <> Some 200) ->
   exists body,
     StatusProblemsSheet.create_sheet sort_values df
     = Some (TableSheet
               (filter (has_column df)
                       ["url"; "status_code"; "final_url"; "response_time"])
               body) /\
     StronglySorted status_le body /\
     NoDup (map url body) /\
     (forall r, In r body -> In r (rows df) /\ status_code r <> Some 200) /\
     (forall r, In r (rows df) -> status_code r <> Some 200 ->
                exists k, In k body /\ url k = url r /\ status_le k r)).
Proof.
  intros Hsort Hc Hu.
  rewrite (status_sheet_cases sort_values df Hc). cbv zeta.
  set (mask := fun r => negb (Z.eqb (Py.fillna (status_code r) 0) 200)).
  assert (Hmask : forall r, mask r = true <-> status_code r <> Some 200).
  { intros r. unfold mask. rewrite negb_true_iff, Z.eqb_neq.
    destruct (status_code r) as [c|]; simpl; split; congruence. }
  assert (Hcols : columns df <> []).
  { unfold has_column in Hc. destruct (columns df); [discriminate|congruence]. }
  assert (Hdec : forall r, status_code r = Some 200 \/ status_code r <> Some 200).
  { intros r. destruct (status_code r) as [c|]; [|right; discriminate].
    destruct (Z.eq_dec c 200) as [->|Hn]; [now left|right; congruence]. }
  destruct (filter mask (rows df)) as [|p ps] eqn:Hf.
  - split.
    + split; [|reflexivity]. intros _ r Hr.
      destruct (Hdec r) as [H|H]; [exact H|].
      assert (Hin : In r (filter mask (rows df)))
        by (apply filter_In; split; [assumption|now apply Hmask]).
      rewrite Hf in Hin. destruct Hin.
    + intros (r & Hr & Hs).
      assert (Hin : In r (filter mask (rows df)))
        by (apply filter_In; split; [assumption|now apply Hmask]).
      rewrite Hf in Hin. destruct Hin.
  - rewrite <- Hf.
    set (S := sort_values (filter mask (rows df))).
    destruct (Hsort (filter mask (rows df))) as [Hperm Hsorted].
    fold S in Hperm, Hsorted.
    assert (HS : forall x, In x S <-> In x (rows df) /\ mask x = true).
    { intros x. rewrite <- filter_In. split; apply Permutation_in;
        [symmetry|]; exact Hperm. }
    assert (Hp : In p S) by (apply HS, filter_In; rewrite Hf; now left).
    assert (Hexp :
              BaseSheet._export_dataframe StatusProblemsSheet.get_sheet_name url
                (mkFrame (columns df) S)
                ["url"; "status_code"; "final_url"; "response_time"]
              = TableSheet
                  (filter (has_column df)
                          ["url"; "status_code"; "final_url"; "response_time"])
                  (drop_duplicates String.eqb url S)).
    { apply (export_dataframe_table StatusProblemsSheet.get_sheet_name url
               (mkFrame (columns df) S)); [|exact Hu|now left].
      apply frame_empty_mk; [assumption|].
      intros E. rewrite E in Hp. destruct Hp. }
    rewrite Hexp. split.
    + split; [discriminate|]. intros Hall.
      apply HS in Hp. destruct Hp as [Hp Hm].
      apply Hmask in Hm. now apply Hall in Hp.
    + intros _. exists (drop_duplicates String.eqb url S).
      split; [reflexivity|]. split; [|split; [|split]].
      * apply dedup_from_StronglySorted; [exact String.eqb_eq|exact Hsorted].
      * apply drop_duplicates_NoDup. exact String.eqb_eq.
      * intros r Hr.
        apply (drop_duplicates_In String.eqb url String.eqb_eq) in Hr.
        apply HS in Hr. destruct Hr as [Hr Hm]. split; [assumption|].
        now apply Hmask.
      * intros r Hr Hs.
        assert (HrS : In r S) by (apply HS; split; [assumption|now apply Hmask]).
        destruct (drop_duplicates_first String.eqb url String.eqb_eq S r HrS)
          as (f & l1 & l2 & Hf' & Hfk & HSeq & _ & Hrf).
        exists f. split; [assumption|]. split; [assumption|].
        rewrite HSeq in Hsorted. apply StronglySorted_app_r in Hsorted.
        destruct Hrf as [<-|Hrl]; [apply status_le_refl|].
        inversion Hsorted as [|a t _ Hall]; subst.
        rewrite Forall_forall in Hall. now apply Hall.
Qed.

Lemma status_report_witness :
  let df := mkFrame ["url"; "status_code"]
                    [status_row "https://a/" 200; status_row "https://b/" 404;
                     blank_row "https://c/"; status_row "https://b/" 301] in
  let sort_values := stable_sort StatusProblemsSheet.status_leb in
  sorts_by_status sort_values /\
  has_column df "status_code" = true /\ has_column df "url" = true /\
  (exists r, In r (rows df) /\ status_code r <> Some 200) /\
  exists body,
    StatusProblemsSheet.create_sheet sort_values df
    = Some (TableSheet ["url"; "status_code"] body) /\
    StronglySorted status_le body.
Proof.
  intros df sort_values.
  split; [exact stable_sort_sorts_by_status|].
  split; [reflexivity|]. split; [reflexivity|].
  assert (Hbad : exists r, In r (rows df) /\ status_code r <> Some 200).
  { exists (status_row "https://b/" 404). split; [simpl; tauto|discriminate]. }
  split; [exact Hbad|].
  destruct (status_report sort_values df stable_sort_sorts_by_status
                          eq_refl eq_refl) as [_ H].
  destruct (H Hbad) as (body & H1 & H2 & _).
  exists body. split; assumption.
Defined.

(** ** The summary sheet *)

Lemma in_firstn {A} (n : nat) (l : list A) (x : A) :
  In x (firstn n l) -> In x l.
Proof.
  revert l; induction n as [|n IH]; intros [|a t]; simpl; try tauto.
  intros [H|H]; [now left|right; now apply IH].
Qed.

Lemma present_length (l : list (option Z)) :
  (List.length (flat_map (fun c => match c with Some v => [v] | None => [] end) l)
   <= List.length l)%nat.
Proof.
  induction l as [|[v|] t IH]; simpl; lia.
Qed.

Lemma value_counts_bounds (l : list (option Z)) (k : Z) (c : nat) :
  In (k, c) (SummarySheet.value_counts l) ->
  (1 <= c <= List.length l)%nat.
Proof.
  unfold SummarySheet.value_counts.
  set (present := flat_map (fun c => match c with Some v => [v] | None => [] end) l).
  intros H.
  apply (proj1 (stable_sort_In _ _ (k, c))) in H.
  apply in_map_iff in H. destruct H as (k' & Heq & Hk').
  injection Heq as -> <-.
  apply (drop_duplicates_In Z.eqb (fun k : Z => k) Z.eqb_eq) in Hk'.
  split.
  - assert (Hin : In k (filter (Z.eqb k) present))
      by (apply filter_In; split; [assumption|apply Z.eqb_refl]).
    destruct (filter (Z.eqb k) present); [destruct Hin|simpl; lia].
  - pose proof (filter_length_le (Z.eqb k) present).
    pose proof (present_length l). fold present in H0. lia.
Qed.

Lemma stat_row_bounds (F : FloatFormat) (label : string) (df : Frame Row)
      (p : Row -> bool) (total : nat) (s : SummarySheet.SummaryRow) :
  total = List.length (rows df) ->
  In s (SummarySheet.stat_row F label (SummarySheet.count_rows df p) total) ->
  1 <= SummarySheet.valor s <= Z.of_nat total.
Proof.
  intros -> H. unfold SummarySheet.stat_row, SummarySheet.count_rows in H.
  destruct (Nat.ltb_spec 0 (List.length (filter p (rows df)))) as [Hlt|Hge];
    [|destruct H].
  destruct H as [<-|[]]. simpl.
  pose proof (filter_length_le p (rows df)). lia.
Qed.

Lemma stat_row_length (F : FloatFormat) (label : string) (c total : nat) :
  (List.length (SummarySheet.stat_row F label c total) <= 1)%nat.
Proof. unfold SummarySheet.stat_row. destruct (Nat.ltb 0 c); simpl; lia. Qed.

(** X8. For a record set of n >= 1 records the summary is always a table
    (the branch "Erro na criação do resumo" is never taken).  Its first
    row is the total, n at 100%; then come at most ten status rows and at
    most eleven problem rows, and every count shown lies between 1 and n:
    a metric whose count is zero has no row. *)
Theorem summary_table (F : FloatFormat) (df : Frame Row) :
  rows df <> [] ->
  exists status_rows problem_rows,
    SummarySheet.create_sheet F df
    = Some (TableSheet ["Métrica"; "Valor"; "Percentual"]
              (SummarySheet.mkSummaryRow "Total de URLs"
                 (Z.of_nat (List.length (rows df))) "100%"
               :: status_rows ++ problem_rows)) /\
    (List.length status_rows <= 10)%nat /\
    (List.length problem_rows <= 11)%nat /\
    (forall s, In s (status_rows ++ problem_rows) ->
               1 <= SummarySheet.valor s <= Z.of_nat (List.length (rows df))).
Proof.
  intros Hne.
  set (n := List.length (rows df)).
  exists (SummarySheet._add_status_codes_stats F df n),
         (SummarySheet._add_seo_problems_stats F df n
            ++ SummarySheet._add_technical_stats F df n
            ++ SummarySheet._add_mixed_content_stats F df n).
  split; [|split; [|split]].
  - unfold SummarySheet.create_sheet. fold n.
    assert (Hn : Nat.eqb n 0 = false).
    { apply Nat.eqb_neq. unfold n. destruct (rows df); [congruence|discriminate]. }
    rewrite Hn. reflexivity.
  - unfold SummarySheet._add_status_codes_stats.
    destruct (negb (has_column df "status_code")); [simpl; lia|].
    rewrite length_map. apply firstn_le_length.
  - unfold SummarySheet._add_seo_problems_stats,
      SummarySheet._add_technical_stats, SummarySheet._add_mixed_content_stats.
    rewrite !length_app.
    repeat match goal with
           | |- context [if ?b then SummarySheet.stat_row F ?l ?c ?t else []] =>
               let H := fresh "H" in
               assert (H : (List.length (if b then SummarySheet.stat_row F l c t
                                         else []) <= 1)%nat)
                 by (destruct b; [apply stat_row_length|simpl; lia]);
               generalize dependent (if b then SummarySheet.stat_row F l c t
                                     else []); intros
           end.
    lia.
  - intros s Hs. apply in_app_or in Hs. destruct Hs as [Hs|Hs].
    + unfold SummarySheet._add_status_codes_stats in Hs.
      destruct (negb (has_column df "status_code")); [destruct Hs|].
      apply in_map_iff in Hs. destruct Hs as ([k c] & <- & Hkc).
      apply in_firstn in Hkc. apply value_counts_bounds in Hkc.
      rewrite length_map in Hkc. simpl. fold n in Hkc. lia.
    + unfold SummarySheet._add_seo_problems_stats,
        SummarySheet._add_technical_stats,
        SummarySheet._add_mixed_content_stats in Hs.
      repeat (apply in_app_or in Hs; destruct Hs as [Hs|Hs]);
        match type of Hs with
        | In _ (if ?b then _ else _) => destruct b; [|destruct Hs]
        end;
        now apply (stat_row_bounds F _ df _ n s eq_refl) in Hs.
Qed.

Lemma summary_table_witness :
  let F := integer_format in
  let df := mkFrame ["url"; "status_code"]
                    [status_row "https://a/" 200; status_row "https://b/" 404] in
  rows df <> [] /\
  exists status_rows problem_rows,
    SummarySheet.create_sheet F df
    = Some (TableSheet ["Métrica"; "Valor"; "Percentual"]
              (SummarySheet.mkSummaryRow "Total de URLs" 2 "100%"
               :: status_rows ++ problem_rows)) /\
    (List.length status_rows <= 10)%nat.
Proof.
  intros F df. split; [discriminate|].
  destruct (summary_table F df ltac:(discriminate))
    as (s & p & H1 & H2 & _).
  exists s, p. split; assumption.
Defined.

(** ** Speed and size bands *)







(** ** Heading counts *)

Lemma fillna_zero (c : option Z) :
  Z.eqb (Py.fillna c 0) 0 = true <-> zero_or_missing c.
Proof.
  unfold zero_or_missing. destruct c as [n|]; simpl.
  - rewrite Z.eqb_eq. split; [intros ->; now right|intros [H|H]; congruence].
  - split; [now left|reflexivity].
Qed.

(** X11. With the h1_count, h2_count and h1_length columns present, the
    heading rules draft: "Sem H1" (CRÍTICO) exactly for the records whose
    H1 count is zero or missing; "Múltiplos H1" (ALTO) exactly for an H1
    count above 1; "Sem H2" (MÉDIO) exactly for the records whose H2 count
    is zero or missing while their H1 count is positive; "H1 muito longo"
    (BAIXO) exactly for an H1 length above 70.  The number in a label is
    the count as the f-string prints it. *)
Theorem heading_count_rules (F : FloatFormat) (df : Frame Row) (i : Issue) :
  has_column df "h1_count" = true -> has_column df "h2_count" = true ->
  has_column df "h1_length" = true ->
  (In i (HeadingProblemsSheet._find_no_h1_issues df) <->
   exists r, In r (rows df) /\ zero_or_missing (h1_count r) /\
             i = plain_issue (url r) "Sem H1" "CRÍTICO") /\
  (In i (HeadingProblemsSheet._find_multiple_h1_issues F df) <->
   exists r n, In r (rows df) /\ h1_count r = Some n /\ 1 < n /\
               i = plain_issue (url r) (multiple_h1_label F n) "ALTO") /\
  (In i (HeadingProblemsSheet._find_no_h2_issues df) <->
   exists r n, In r (rows df) /\ zero_or_missing (h2_count r) /\
               h1_count r = Some n /\ 0 < n /\
               i = plain_issue (url r) "Sem H2 (estrutura incompleta)" "MÉDIO") /\
  (In i (HeadingProblemsSheet._find_long_h1_issues F df) <->
   exists r n, In r (rows df) /\ h1_length r = Some n /\ 70 < n /\
               i = plain_issue (url r) (long_h1_label F n) "BAIXO").
Proof.
  intros H1 H2 HL. split; [|split; [|split]].
  - unfold HeadingProblemsSheet._find_no_h1_issues.
    rewrite H1, (safe_filter_present _ _ _ H1). simpl.
    rewrite in_map_iff. split.
    + intros (r & <- & Hr). apply filter_In in Hr. destruct Hr as [Hr Hm].
      exists r. split; [assumption|]. split; [now apply fillna_zero|reflexivity].
    + intros (r & Hr & Hz & ->). exists r. split; [reflexivity|].
      apply filter_In. split; [assumption|now apply fillna_zero].
  - unfold HeadingProblemsSheet._find_multiple_h1_issues.
    rewrite H1, (safe_filter_present _ _ _ H1). simpl.
    rewrite in_map_iff. split.
    + intros (r & <- & Hr). apply filter_In in Hr. destruct Hr as [Hr Hm].
      unfold HeadingProblemsSheet.multiple_h1_issue.
      destruct (h1_count r) as [n|] eqn:Hn; simpl in Hm; [|discriminate].
      rewrite (str_of_count_present F df _ _ _ H1).
      apply Z.ltb_lt in Hm. exists r, n. repeat split; assumption.
    + intros (r & n & Hr & Hn & Hgt & ->). exists r. split.
      * unfold HeadingProblemsSheet.multiple_h1_issue.
        now rewrite Hn, (str_of_count_present F df _ _ _ H1).
      * apply filter_In. split; [assumption|]. rewrite Hn. simpl.
        now apply Z.ltb_lt.
  - unfold HeadingProblemsSheet._find_no_h2_issues.
    rewrite H2, (safe_filter_present _ _ _ H2). simpl.
    rewrite in_flat_map. split.
    + intros (r & Hr & Hi). apply filter_In in Hr. destruct Hr as [Hr Hm].
      unfold HeadingProblemsSheet.no_h2_issue in Hi.
      rewrite (row_get_present df _ _ _ H1) in Hi.
      destruct (h1_count r) as [n|] eqn:Hn; simpl in Hi; [|destruct Hi].
      destruct (Z.ltb_spec 0 n); [|destruct Hi].
      destruct Hi as [<-|[]]. exists r, n.
      repeat split; try assumption. now apply fillna_zero.
    + intros (r & n & Hr & Hz & Hn & Hgt & ->). exists r. split.
      * apply filter_In. split; [assumption|now apply fillna_zero].
      * unfold HeadingProblemsSheet.no_h2_issue.
        rewrite (row_get_present df _ _ _ H1), Hn. simpl.
        apply Z.ltb_lt in Hgt. rewrite Hgt. now left.
  - unfold HeadingProblemsSheet._find_long_h1_issues.
    rewrite HL, (safe_filter_present _ _ _ HL). simpl.
    rewrite in_map_iff. split.
    + intros (r & <- & Hr). apply filter_In in Hr. destruct Hr as [Hr Hm].
      unfold HeadingProblemsSheet.long_h1_issue.
      destruct (h1_length r) as [n|] eqn:Hn; simpl in Hm; [|discriminate].
      rewrite (str_of_count_present F df _ _ _ HL).
      apply Z.ltb_lt in Hm. exists r, n. repeat split; assumption.
    + intros (r & n & Hr & Hn & Hgt & ->). exists r. split.
      * unfold HeadingProblemsSheet.long_h1_issue.
        now rewrite Hn, (str_of_count_present F df _ _ _ HL).
      * apply filter_In. split; [assumption|]. rewrite Hn. simpl.
        now apply Z.ltb_lt.
Qed.

Lemma heading_count_rules_witness :
  let df := mkFrame ["url"; "h1_count"; "h2_count"; "h1_length"]
                    [heading_row "https://a/" 1 0; heading_row "https://b/" 0 0;
                     heading_row "https://c/" 3 2] in
  has_column df "h1_count" = true /\ has_column df "h2_count" = true /\
  has_column df "h1_length" = true /\
  In (plain_issue "https://c/" "Múltiplos H1 (3 H1s)" "ALTO")
     (HeadingProblemsSheet._find_multiple_h1_issues integer_format df).
Proof.
  intros df. repeat (split; [reflexivity|]).
  destruct (heading_count_rules integer_format df
              (plain_issue "https://c/" "Múltiplos H1 (3 H1s)" "ALTO")
              eq_refl eq_refl eq_refl) as (_ & H & _).
  apply H. exists (heading_row "https://c/" 3 2), 3.
  split; [simpl; tauto|]. split; [reflexivity|]. split; [lia|reflexivity].
Defined.

(** ** Image rules *)





(** ** Technical rules *)

Lemma fillna_false (c : option bool) :
  Bool.eqb (Py.fillna c false) false = true <-> false_or_missing c.
Proof.
  unfold false_or_missing. destruct c as [[|]|]; simpl; split;
    try discriminate; auto; intros [H|H]; discriminate.
Qed.

Lemma fillna_true (c : option bool) :
  Bool.eqb (Py.fillna c false) true = true <-> c = Some true.
Proof. destruct c as [[|]|]; simpl; split; try discriminate; auto. Qed.

Lemma fillna_self (c : option bool) :
  Bool.eqb (Py.fillna c true) false = true <-> c = Some false.
Proof. destruct c as [[|]|]; simpl; split; try discriminate; auto. Qed.

(** X14. Every draft of the technical rules has a priority score between
    2 and 9, and the score fixes the criticality: 8 and 9 are ALTO, 5 to 7
    are MÉDIO, 2 to 4 are BAIXO. *)
Theorem technical_priority_bands (df : Frame Row) (i : Issue) :
  In i (TechnicalProblemsSheet.detect df) ->
  2 <= prioridade i <= 9 /\
  ((8 <= prioridade i /\ criticidade i = "ALTO") \/
   (5 <= prioridade i <= 7 /\ criticidade i = "MÉDIO") \/
   (prioridade i <= 4 /\ criticidade i = "BAIXO")).
Proof.
  unfold TechnicalProblemsSheet.detect. rewrite !in_app_iff.
  intros [H|[H|[H|[H|[H|[H|H]]]]]].
  - unfold TechnicalProblemsSheet._find_canonical_issues in H.
    apply in_app_or in H. destruct H as [H|H].
    + destruct (has_column df "canonical_url"); [|destruct H].
      apply in_map_iff in H. destruct H as (r & <- & _). simpl.
      split; [lia|right; left; split; [lia|reflexivity]].
    + destruct (has_column df "canonical_is_self"); [|destruct H].
      apply in_map_iff in H. destruct H as (r & <- & _). simpl.
      split; [lia|right; right; split; [lia|reflexivity]].
  - unfold TechnicalProblemsSheet._find_viewport_issues in H.
    destruct (negb (has_column df "has_viewport")); [destruct H|].
    apply in_map_iff in H. destruct H as (r & <- & _). simpl.
    split; [lia|left; split; [lia|reflexivity]].
  - unfold TechnicalProblemsSheet._find_charset_issues in H.
    destruct (negb (has_column df "has_charset")); [destruct H|].
    apply in_map_iff in H. destruct H as (r & <- & _). simpl.
    split; [lia|right; left; split; [lia|reflexivity]].
  - unfold TechnicalProblemsSheet._find_schema_issues in H.
    destruct (negb (has_column df "schema_total_count")); [destruct H|].
    apply in_flat_map in H. destruct H as (r & _ & H).
    unfold TechnicalProblemsSheet.schema_issue in H.
    destruct (Py.mem _ _); [|destruct H].
    destruct (String.eqb _ "Produto"); destruct H as [<-|[]]; simpl.
    + split; [lia|right; left; split; [lia|reflexivity]].
    + split; [lia|right; right; split; [lia|reflexivity]].
  - unfold TechnicalProblemsSheet._find_robots_issues in H.
    apply in_app_or in H. destruct H as [H|H].
    + destruct (has_column df "meta_robots_noindex"); [|destruct H].
      apply in_map_iff in H. destruct H as (r & <- & _). simpl.
      split; [lia|left; split; [lia|reflexivity]].
    + destruct (has_column df "meta_robots_nofollow"); [|destruct H].
      apply in_map_iff in H. destruct H as (r & <- & _). simpl.
      split; [lia|right; left; split; [lia|reflexivity]].
  - unfold TechnicalProblemsSheet._find_favicon_issues in H.
    destruct (negb (has_column df "has_favicon")); [destruct H|].
    apply in_map_iff in H. destruct H as (r & <- & _). simpl.
    split; [lia|right; right; split; [lia|reflexivity]].
  - unfold TechnicalProblemsSheet._find_og_issues in H.
    destruct (negb (has_column df "og_tags_count")); [destruct H|].
    apply in_flat_map in H. destruct H as (r & _ & H).
    unfold TechnicalProblemsSheet.og_issue in H.
    destruct (Py.mem _ ["Produto"; "Blog/Artigo"; "Homepage"]); [|destruct H].
    destruct (Py.mem _ ["Produto"; "Homepage"]); destruct H as [<-|[]]; simpl.
    + split; [lia|right; left; split; [lia|reflexivity]].
    + split; [lia|right; right; split; [lia|reflexivity]].
Qed.

Lemma technical_priority_bands_witness :
  let df := mkFrame ["url"; "has_viewport"; "has_favicon"]
                    [flag_row "https://a/" (Some false) None (Some true)] in
  let i := TechnicalProblemsSheet.tech_issue "https://a/" "Sem meta viewport"
                                             "ALTO" 8 in
  In i (TechnicalProblemsSheet.detect df) /\ 2 <= prioridade i <= 9.
Proof.
  intros df i.
  assert (Hin : In i (TechnicalProblemsSheet.detect df)) by (now left).
  split; [exact Hin|].
  destruct (technical_priority_bands df i Hin) as [H _]. exact H.
Defined.

(** X15. With their columns present, the flag rules of the technical pack
    read a missing flag against the page for viewport, charset and favicon
    (drafted when the flag is false or missing) and in its favour for
    noindex, nofollow and the self-canonical flag (drafted only when
    noindex or nofollow is true, or canonical_is_self is false). *)
Theorem technical_flag_rules (df : Frame Row) (i : Issue) :
  has_column df "has_viewport" = true -> has_column df "has_charset" = true ->
  has_column df "has_favicon" = true ->
  has_column df "meta_robots_noindex" = true ->
  has_column df "meta_robots_nofollow" = true ->
  has_column df "canonical_is_self" = true ->
  (In i (TechnicalProblemsSheet._find_viewport_issues df) <->
   exists r, In r (rows df) /\ false_or_missing (has_viewport r) /\
             i = TechnicalProblemsSheet.tech_issue (url r) "Sem meta viewport"
                                                   "ALTO" 8) /\
  (In i (TechnicalProblemsSheet._find_charset_issues df) <->
   exists r, In r (rows df) /\ false_or_missing (has_charset r) /\
             i = TechnicalProblemsSheet.tech_issue (url r)
                   "Sem charset definido" "MÉDIO" 5) /\
  (In i (TechnicalProblemsSheet._find_favicon_issues df) <->
   exists r, In r (rows df) /\ false_or_missing (has_favicon r) /\
             i = TechnicalProblemsSheet.tech_issue (url r) "Sem favicon"
                                                   "BAIXO" 2) /\
  (In i (TechnicalProblemsSheet._find_robots_issues df) <->
   exists r, In r (rows df) /\
             ((meta_robots_noindex r = Some true /\
               i = TechnicalProblemsSheet.tech_issue (url r)
                     "Meta robots: noindex" "ALTO" 9) \/
              (meta_robots_nofollow r = Some true /\
               i = TechnicalProblemsSheet.tech_issue (url r)
                     "Meta robots: nofollow" "MÉDIO" 5))) /\
  (forall r, In r (rows df) ->
     (In (TechnicalProblemsSheet.tech_issue (url r)
            "Canonical aponta para outra URL" "BAIXO" 3)
         (TechnicalProblemsSheet._find_canonical_issues df) <->
      exists r', In r' (rows df) /\ url r' = url r /\
                 canonical_is_self r' = Some false)).
Proof.
  intros HV HC HF HN HO HS. split; [|split; [|split; [|split]]].
  - unfold TechnicalProblemsSheet._find_viewport_issues.
    rewrite HV, (safe_filter_present _ _ _ HV). simpl. rewrite in_map_iff.
    split.
    + intros (r & <- & Hr). apply filter_In in Hr. destruct Hr as [Hr Hm].
      exists r. split; [assumption|]. split; [now apply fillna_false|reflexivity].
    + intros (r & Hr & Hz & ->). exists r. split; [reflexivity|].
      apply filter_In. split; [assumption|now apply fillna_false].
  - unfold TechnicalProblemsSheet._find_charset_issues.
    rewrite HC, (safe_filter_present _ _ _ HC). simpl. rewrite in_map_iff.
    split.
    + intros (r & <- & Hr). apply filter_In in Hr. destruct Hr as [Hr Hm].
      exists r. split; [assumption|]. split; [now apply fillna_false|reflexivity].
    + intros (r & Hr & Hz & ->). exists r. split; [reflexivity|].
      apply filter_In. split; [assumption|now apply fillna_false].
  - unfold TechnicalProblemsSheet._find_favicon_issues.
    rewrite HF, (safe_filter_present _ _ _ HF). simpl. rewrite in_map_iff.
    split.
    + intros (r & <- & Hr). apply filter_In in Hr. destruct Hr as [Hr Hm].
      exists r. split; [assumption|]. split; [now apply fillna_false|reflexivity].
    + intros (r & Hr & Hz & ->). exists r. split; [reflexivity|].
      apply filter_In. split; [assumption|now apply fillna_false].
  - unfold TechnicalProblemsSheet._find_robots_issues.
    rewrite HN, HO, (safe_filter_present _ _ _ HN),
      (safe_filter_present _ _ _ HO). simpl.
    rewrite in_app_iff, !in_map_iff. split.
    + intros [(r & <- & Hr)|(r & <- & Hr)]; apply filter_In in Hr;
        destruct Hr as [Hr Hm]; apply fillna_true in Hm; exists r;
        (split; [assumption|]); [left|right]; now split.
    + intros (r & Hr & [[Hm ->]|[Hm ->]]); [left|right]; exists r;
        (split; [reflexivity|]); apply filter_In;
        (split; [assumption|now apply fillna_true]).
  - intros r Hr. unfold TechnicalProblemsSheet._find_canonical_issues.
    rewrite HS, (safe_filter_present _ _ _ HS).
    rewrite in_app_iff. split.
    + intros [H|H].
      * destruct (has_column df "canonical_url"); [|destruct H].
        apply in_map_iff in H. destruct H as (r' & Heq & _). discriminate Heq.
      * simpl in H. apply in_map_iff in H. destruct H as (r' & Heq & Hr').
        apply filter_In in Hr'. destruct Hr' as [Hr' Hm].
        apply fillna_self in Hm. exists r'.
        injection Heq as Hu. repeat split; assumption.
    + intros (r' & Hr' & Hu & Hm). right. simpl. apply in_map_iff.
      exists r'. split; [now rewrite Hu|].
      apply filter_In. split; [assumption|now apply fillna_self].
Qed.

Lemma technical_flag_rules_witness :
  let df := mkFrame ["url"; "has_viewport"; "has_charset"; "has_favicon";
                     "meta_robots_noindex"; "meta_robots_nofollow";
                     "canonical_is_self"]
                    [flag_row "https://a/" None (Some true) (Some true)] in
  has_column df "has_viewport" = true /\ has_column df "has_charset" = true /\
  has_column df "has_favicon" = true /\
  has_column df "meta_robots_noindex" = true /\
  has_column df "meta_robots_nofollow" = true /\
  has_column df "canonical_is_self" = true /\
  In (TechnicalProblemsSheet.tech_issue "https://a/" "Sem meta viewport"
                                        "ALTO" 8)
     (TechnicalProblemsSheet._find_viewport_issues df) /\
  TechnicalProblemsSheet._find_robots_issues df = [] /\
  TechnicalProblemsSheet._find_canonical_issues df = [].
Proof.
  intros df. repeat (split; [reflexivity|]).
  split; [|split; reflexivity].
  destruct (technical_flag_rules df
              (TechnicalProblemsSheet.tech_issue "https://a/"
                 "Sem meta viewport" "ALTO" 8)
              eq_refl eq_refl eq_refl eq_refl eq_refl eq_refl) as (H & _).
  apply H. exists (flag_row "https://a/" None (Some true) (Some true)).
  split; [now left|]. split; [now left|reflexivity].
Defined.

(** ** Columns of the raw-data view *)

Lemma column_order_NoDup : NoDup ExcelExporter._get_column_order.
Proof.
  assert (E : nodup string_dec ExcelExporter._get_column_order
              = ExcelExporter._get_column_order) by (vm_compute; reflexivity).
  rewrite <- E. apply NoDup_nodup.
Qed.

Lemma NoDup_app_disjoint {A} (l1 l2 : list A) :
  NoDup l1 -> NoDup l2 -> (forall x, In x l1 -> In x l2 -> False) ->
  NoDup (l1 ++ l2).
Proof.
  induction l1 as [|a t IH]; intros H1 H2 Hd; simpl; [assumption|].
  inversion H1; subst. constructor.
  - rewrite in_app_iff. intros [H|H]; [contradiction|].
    apply (Hd a); [now left|assumption].
  - apply IH; try assumption. intros x Hx. apply Hd. now right.
Qed.

(** X16. When the record set's columns are pairwise distinct, the
    raw-data view lists every column of the data exactly once and no
    other column: the written column list is a rearrangement of the
    data's columns. *)
Theorem raw_data_columns_rearranged (cols : list string) :
  NoDup cols ->
  NoDup (ExcelExporter.final_columns cols) /\
  Permutation (ExcelExporter.final_columns cols) cols.
Proof.
  intros Hnd.
  assert (Hin : forall c, In c (ExcelExporter.final_columns cols) <-> In c cols).
  { intros c. unfold ExcelExporter.final_columns.
    rewrite in_app_iff, stable_sort_In, !filter_In, negb_true_iff, mem_In.
    split; [tauto|]. intros Hc.
    destruct (Py.mem c ExcelExporter._get_column_order) eqn:Hm.
    - left. split; [now apply mem_In|assumption].
    - right. split; [assumption|reflexivity]. }
  assert (Hfinal : NoDup (ExcelExporter.final_columns cols)).
  { unfold ExcelExporter.final_columns. apply NoDup_app_disjoint.
    - apply NoDup_filter. exact column_order_NoDup.
    - eapply Permutation_NoDup; [apply stable_sort_perm|].
      apply NoDup_filter. exact Hnd.
    - intros x H1 H2. apply filter_In in H1.
      apply (proj1 (stable_sort_In String.leb _ x)) in H2.
      apply filter_In in H2. destruct H1 as [H1 _], H2 as [_ H2].
      apply negb_true_iff in H2. apply mem_In in H1. congruence. }
  split; [exact Hfinal|]. now apply NoDup_Permutation.
Qed.

Lemma raw_data_columns_rearranged_witness :
  let cols := ["zeta"; "title"; "url"; "alpha"] in
  NoDup cols /\ Permutation (ExcelExporter.final_columns cols) cols.
Proof.
  intros cols.
  assert (Hnd : NoDup cols).
  { assert (E : nodup string_dec cols = cols) by reflexivity.
    rewrite <- E. apply NoDup_nodup. }
  split; [exact Hnd|].
  destruct (raw_data_columns_rearranged cols Hnd) as [_ H]. exact H.
Defined.

(** ** How the classifiers relate *)

(** X17. On every url the technical classifier agrees with the H1/H2
    classifier unless the url contains "/post/", which it tags
    Blog/Artigo; the image and performance classifiers agree with the
    H1/H2 classifier whenever that one answers Blog/Artigo, Produto or
    Categoria, and the performance classifier also on every url that the
    H1/H2 classifier does not tag Institucional or Contato. *)
Theorem classifiers_agreement (row : Row) :
  (TechnicalProblemsSheet._detect_page_type row
   = H1H2MissingSheet._detect_page_type row \/
   (Py.contains "/post/" (Py.lower (url row)) = true /\
    TechnicalProblemsSheet._detect_page_type row = "Blog/Artigo")) /\
  (ImageProblemsSheet._detect_page_type row
   = H1H2MissingSheet._detect_page_type row \/
   In (H1H2MissingSheet._detect_page_type row)
      ["Institucional"; "Contato"; "Homepage"; "Conteúdo"]) /\
  (PerformanceSheet._detect_page_type row
   = H1H2MissingSheet._detect_page_type row \/
   In (H1H2MissingSheet._detect_page_type row) ["Institucional"; "Contato"]).
Proof.
  unfold TechnicalProblemsSheet._detect_page_type,
    H1H2MissingSheet._detect_page_type, ImageProblemsSheet._detect_page_type,
    PerformanceSheet._detect_page_type.
  set (u := Py.lower (url row)).
  destruct (Py.contains "/blog/" u); simpl; [tauto|].
  destruct (Py.contains "/artigo/" u); simpl; [tauto|].
  destruct (Py.contains "/produto/" u); simpl;
    [destruct (Py.contains "/post/" u); simpl; tauto|].
  destruct (Py.contains "/product/" u); simpl;
    [destruct (Py.contains "/post/" u); simpl; tauto|].
  destruct (Py.contains "/categoria/" u); simpl;
    [destruct (Py.contains "/post/" u); simpl; tauto|].
  destruct (Py.contains "/category/" u); simpl;
    [destruct (Py.contains "/post/" u); simpl; tauto|].
  destruct (Py.contains "/post/" u), (Py.contains "/sobre" u),
    (Py.contains "/about" u), (Py.contains "/contato" u),
    (Py.contains "/contact" u), (Py.contains "/galeria/" u),
    (Py.contains "/gallery/" u),
    (Py.endswith_char "/" u && Nat.leb (Py.count_char "/" u) 3)%bool;
    simpl; tauto.
Qed.

(** ** Groups of duplicates *)

Section DuplicateGroups.
Variable key : Row -> option string.

Let non_empty (l : list Row) : list Row :=
  filter (fun r => negb (String.eqb (Py.fillna (key r) "") "")) l.

Lemma non_empty_group (l : list Row) (k : string) :
  k <> "" -> filter (key_is key k) (non_empty l) = filter (key_is key k) l.
Proof.
  intros Hk. unfold non_empty. apply filter_filter_absorb.
  intros x _ Hx. apply key_is_spec in Hx. rewrite Hx. simpl.
  now apply negb_true_iff, String.eqb_neq.
Qed.

Lemma duplicate_groups_sound (l : list Row) (k : string) (grp : list Row) :
  In (k, grp) (groupby key (duplicated_keep_false key (non_empty l))) ->
  k <> "" /\ grp = filter (key_is key k) l /\ (2 <= List.length grp)%nat.
Proof.
  unfold groupby. intros H. apply in_map_iff in H.
  destruct H as (k' & Heq & Hk'). injection Heq as -> <-.
  unfold group_keys in Hk'.
  apply (proj1 (stable_sort_In String.leb _ k)) in Hk'.
  apply (drop_duplicates_In String.eqb (fun k : string => k) String.eqb_eq)
    in Hk'.
  apply in_flat_map in Hk'. destruct Hk' as (r & Hr & Hrk).
  destruct (key r) as [t|] eqn:Ht; [|destruct Hrk].
  destruct Hrk as [->|[]].
  unfold duplicated_keep_false in Hr. apply filter_In in Hr.
  destruct Hr as [Hr Hcount]. rewrite Ht in Hcount. apply Nat.leb_le in Hcount.
  assert (Hk : k <> "").
  { unfold non_empty in Hr. apply filter_In in Hr. destruct Hr as [_ Hr].
    rewrite Ht in Hr. simpl in Hr. now apply negb_true_iff, String.eqb_neq in Hr. }
  split; [exact Hk|].
  rewrite (duplicated_group key k _ Hcount), (non_empty_group l k Hk).
  split; [reflexivity|]. now rewrite <- (non_empty_group l k Hk).
Qed.

Lemma duplicate_groups_complete (l : list Row) (k : string) (r : Row) :
  k <> "" -> In r l -> key r = Some k ->
  (2 <= List.length (filter (key_is key k) l))%nat ->
  In (k, filter (key_is key k) l)
     (groupby key (duplicated_keep_false key (non_empty l))).
Proof.
  intros Hk Hr Hrk Hn.
  assert (Hcount : (2 <= List.length (filter (key_is key k) (non_empty l)))%nat)
    by now rewrite (non_empty_group l k Hk).
  rewrite <- (non_empty_group l k Hk), <- (duplicated_group key k _ Hcount).
  apply groupby_In with r; [|assumption].
  unfold duplicated_keep_false. apply filter_In. split.
  - unfold non_empty. apply filter_In. split; [assumption|].
    rewrite Hrk. simpl. now apply negb_true_iff, String.eqb_neq.
  - rewrite Hrk. now apply Nat.leb_le.
Qed.
Lemma duplicate_groups_none (l : list Row) (k : string) (r : Row) :
  groupby key (duplicated_keep_false key (non_empty l)) = [] ->
  k <> "" -> In r l -> key r = Some k ->
  ~ (2 <= List.length (filter (key_is key k) l))%nat.
Proof.
  intros E Hk Hr Hrk Hn.
  pose proof (duplicate_groups_complete l k r Hk Hr Hrk Hn) as H.
  rewrite E in H. destruct H.
Qed.

Lemma duplicate_groups_some (l : list Row) (g : string * list Row)
      (gs : list (string * list Row)) :
  groupby key (duplicated_keep_false key (non_empty l)) = g :: gs ->
  exists r k, In r l /\ key r = Some k /\ k <> "" /\
              (2 <= List.length (filter (key_is key k) l))%nat.
Proof.
  intros E. destruct g as [k grp].
  assert (H : In (k, grp)
                 (groupby key (duplicated_keep_false key (non_empty l))))
    by (rewrite E; now left).
  apply duplicate_groups_sound in H. destruct H as (Hk & -> & Hn).
  destruct (filter (key_is key k) l) as [|r rest] eqn:Hf; [simpl in Hn; lia|].
  assert (Hr : In r (filter (key_is key k) l)) by (rewrite Hf; now left).
  apply filter_In in Hr. destruct Hr as [Hr Hrk]. apply key_is_spec in Hrk.
  exists r, k. rewrite Hf. repeat split; assumption.
Qed.
End DuplicateGroups.

(** ** Duplicate titles and descriptions *)

Lemma duplicate_title_cases (df : Frame Row) :
  has_column df "title" = true ->
  TitleProblemsSheet._find_duplicate_title_issues df
  = match groupby title
            (duplicated_keep_false title
               (filter (fun r => negb (String.eqb (Py.fillna (title r) "") ""))
                       (rows df))) with
    | [] => Ok []
    | groups =>
        column_or_raise df "url"
          (Ok (flat_map
                 (fun g : string * list Row =>
                    map (TitleProblemsSheet.duplicate_title_issue
                           (List.length (snd g))) (snd g))
                 groups))
    end.
Proof.
  intros Hc. unfold TitleProblemsSheet._find_duplicate_title_issues.
  rewrite Hc. simpl negb. cbv iota zeta.
  destruct (filter _ (rows df)); reflexivity.
Qed.

Lemma duplicate_meta_cases (df : Frame Row) :
  has_column df "meta_description" = true ->
  MetaProblemsSheet._find_duplicate_meta_issues df
  = match groupby meta_description
            (duplicated_keep_false meta_description
               (filter (fun r => negb (String.eqb
                                         (Py.fillna (meta_description r) "") ""))
                       (rows df))) with
    | [] => Ok []
    | groups =>
        column_or_raise df "url"
          (Ok (flat_map
                 (fun g : string * list Row =>
                    map (MetaProblemsSheet.duplicate_meta_issue
                           (List.length (snd g))) (snd g))
                 groups))
    end.
Proof.
  intros Hc. unfold MetaProblemsSheet._find_duplicate_meta_issues.
  rewrite Hc. simpl negb. cbv iota zeta.
  destruct (filter _ (rows df)); reflexivity.
Qed.

(** With the url column the duplicate-title rule returns, and drafts
    the records that share a title. *)
Lemma duplicate_title_ok (df : Frame Row) :
  has_column df "title" = true -> has_column df "url" = true ->
  exists l,
    TitleProblemsSheet._find_duplicate_title_issues df = Ok l /\
    forall i,
      In i l <->
      exists r t,
        shared_title df r t /\
        i = TitleProblemsSheet.duplicate_title_issue
              (List.length (rows_with_title t df)) r.
Proof.
  intros Hc Hu. rewrite (duplicate_title_cases df Hc).
  unfold column_or_raise. rewrite Hu.
  set (groups := groupby title _).
  exists (flat_map
            (fun g : string * list Row =>
               map (TitleProblemsSheet.duplicate_title_issue
                      (List.length (snd g))) (snd g))
            groups).
  split; [destruct groups; reflexivity|].
  intros i. rewrite in_flat_map. unfold shared_title, rows_with_title. split.
  - intros ([k grp] & Hg & Hi). simpl in Hi.
    apply duplicate_groups_sound in Hg. destruct Hg as (Hk & -> & Hn).
    apply in_map_iff in Hi. destruct Hi as (r & <- & Hr).
    exists r, k. apply filter_In in Hr. destruct Hr as [Hr Hrk].
    apply key_is_spec in Hrk. repeat split; assumption.
  - intros (r & t & (Hr & Ht & Hne & Hn) & ->).
    exists (t, filter (key_is title t) (rows df)). split.
    + now apply duplicate_groups_complete with r.
    + simpl. apply in_map_iff. exists r. split; [reflexivity|].
      apply filter_In. split; [assumption|now apply key_is_spec].
Qed.

Lemma duplicate_meta_ok (df : Frame Row) :
  has_column df "meta_description" = true -> has_column df "url" = true ->
  exists l,
    MetaProblemsSheet._find_duplicate_meta_issues df = Ok l /\
    forall i,
      In i l <->
      exists r m,
        shared_meta df r m /\
        i = MetaProblemsSheet.duplicate_meta_issue
              (List.length (rows_with_meta m df)) r.
Proof.
  intros Hc Hu. rewrite (duplicate_meta_cases df Hc).
  unfold column_or_raise. rewrite Hu.
  set (groups := groupby meta_description _).
  exists (flat_map
            (fun g : string * list Row =>
               map (MetaProblemsSheet.duplicate_meta_issue
                      (List.length (snd g))) (snd g))
            groups).
  split; [destruct groups; reflexivity|].
  intros i. rewrite in_flat_map. unfold shared_meta, rows_with_meta. split.
  - intros ([k grp] & Hg & Hi). simpl in Hi.
    apply duplicate_groups_sound in Hg. destruct Hg as (Hk & -> & Hn).
    apply in_map_iff in Hi. destruct Hi as (r & <- & Hr).
    exists r, k. apply filter_In in Hr. destruct Hr as [Hr Hrk].
    apply key_is_spec in Hrk. repeat split; assumption.
  - intros (r & m & (Hr & Hm & Hne & Hn) & ->).
    exists (m, filter (key_is meta_description m) (rows df)). split.
    + now apply duplicate_groups_complete with r.
    + simpl. apply in_map_iff. exists r. split; [reflexivity|].
      apply filter_In. split; [assumption|now apply key_is_spec].
Qed.

(** Without the url column the rule raises as soon as there is a group
    to visit, and returns nothing otherwise. *)
Lemma duplicate_title_without_url (df : Frame Row) :
  has_column df "title" = true -> has_column df "url" = false ->
  (TitleProblemsSheet._find_duplicate_title_issues df = Raise (KeyError "url")
   <-> exists r t, shared_title df r t) /\
  (TitleProblemsSheet._find_duplicate_title_issues df = Ok []
   <-> ~ exists r t, shared_title df r t).
Proof.
  intros Hc Hu. rewrite (duplicate_title_cases df Hc).
  unfold column_or_raise. rewrite Hu.
  unfold shared_title, rows_with_title.
  destruct (groupby title _) as [|g gs] eqn:E.
  - assert (Hno : ~ exists r t,
                      In r (rows df) /\ title r = Some t /\ t <> "" /\
                      (2 <= List.length (filter (key_is title t) (rows df)))%nat).
    { intros (r & t & Hr & Ht & Hne & Hn).
      exact (duplicate_groups_none title (rows df) t r E Hne Hr Ht Hn). }
    split; split; try discriminate; try reflexivity; tauto.
  - apply duplicate_groups_some in E.
    split; split; try discriminate; try reflexivity; tauto.
Qed.

Lemma duplicate_meta_without_url (df : Frame Row) :
  has_column df "meta_description" = true -> has_column df "url" = false ->
  (MetaProblemsSheet._find_duplicate_meta_issues df = Raise (KeyError "url")
   <-> exists r m, shared_meta df r m) /\
  (MetaProblemsSheet._find_duplicate_meta_issues df = Ok []
   <-> ~ exists r m, shared_meta df r m).
Proof.
  intros Hc Hu. rewrite (duplicate_meta_cases df Hc).
  unfold column_or_raise. rewrite Hu.
  unfold shared_meta, rows_with_meta.
  destruct (groupby meta_description _) as [|g gs] eqn:E.
  - assert (Hno : ~ exists r m,
                      In r (rows df) /\ meta_description r = Some m /\
                      m <> "" /\
                      (2 <= List.length
                              (filter (key_is meta_description m) (rows df)))%nat).
    { intros (r & m & Hr & Hm & Hne & Hn).
      exact (duplicate_groups_none meta_description (rows df) m r
                                   E Hne Hr Hm Hn). }
    split; split; try discriminate; try reflexivity; tauto.
  - apply duplicate_groups_some in E.
    split; split; try discriminate; try reflexivity; tauto.
Qed.




(** Four records sharing a title are flagged ALTO, with the count in the
    label. *)
Example duplicate_titles_of_four :
  TitleProblemsSheet._find_duplicate_title_issues
    (mkFrame ["url"; "title"]
       [title_row "u1" "T" 1; title_row "u2" "T" 1;
        title_row "u3" "T" 1; title_row "u4" "T" 1])
  = Ok [plain_issue "u1" "Título duplicado (4 páginas)" "ALTO";
        plain_issue "u2" "Título duplicado (4 páginas)" "ALTO";
        plain_issue "u3" "Título duplicado (4 páginas)" "ALTO";
        plain_issue "u4" "Título duplicado (4 páginas)" "ALTO"].
Proof. reflexivity. Qed.

(** X18. With the title and url columns present the duplicate-title rule
    returns, and drafts exactly the records whose non-empty title is
    carried by at least two records of the set, each with the size of its
    group in the label: a record without title, or whose title no other
    record carries, is never drafted as a duplicate.  With the title
    column and without the url column, the rule raises a KeyError on url
    exactly when some non-empty title is carried by at least two records,
    and returns no draft otherwise. *)
Theorem duplicate_title_drafts (df : Frame Row) :
  has_column df "title" = true ->
  (has_column df "url" = true ->
   exists l,
     TitleProblemsSheet._find_duplicate_title_issues df = Ok l /\
     forall i,
       In i l <->
       exists r t,
         shared_title df r t /\
         i = TitleProblemsSheet.duplicate_title_issue
               (List.length (rows_with_title t df)) r) /\
  (has_column df "url" = false ->
   (TitleProblemsSheet._find_duplicate_title_issues df = Raise (KeyError "url")
    <-> exists r t, shared_title df r t) /\
   (TitleProblemsSheet._find_duplicate_title_issues df = Ok []
    <-> ~ exists r t, shared_title df r t)).
Proof.
  intros Hc. split; intros Hu.
  - exact (duplicate_title_ok df Hc Hu).
  - exact (duplicate_title_without_url df Hc Hu).
Qed.

Lemma duplicate_title_drafts_witness :
  let df :=
    mkFrame ["url"; "title"; "title_length"]
      [title_row "https://a/1" "Home" 4; title_row "https://a/2" "Home" 4;
       title_row "https://a/3" "Outro" 5] in
  has_column df "title" = true /\
  exists l,
    TitleProblemsSheet._find_duplicate_title_issues df = Ok l /\
    ~ In (TitleProblemsSheet.duplicate_title_issue 1
            (title_row "https://a/3" "Outro" 5)) l.
Proof.
  intros df. split; [reflexivity|].
  destruct (duplicate_title_drafts df eq_refl) as [H _].
  destruct (H eq_refl) as (l & Hl & Hmem).
  exists l. split; [exact Hl|]. intros Hin.
  apply Hmem in Hin.
  destruct Hin as (r & t & (Hr & Ht & _ & Hn) & Heq).
  simpl in Hr. destruct Hr as [<-|[<-|[<-|[]]]];
    injection Ht as <-; vm_compute in Hn; try lia; discriminate Heq.
Defined.

(** X19. With the meta_description and url columns present the
    duplicate-meta rule returns, and drafts exactly the records whose
    non-empty description is carried by at least two records, with the
    size N of the group in the label; the draft is ALTO when N > 2 and
    MÉDIO when N = 2.  Without the url column the rule raises a KeyError
    on url exactly when some non-empty description is carried by at least
    two records, and returns no draft otherwise. *)
Theorem duplicate_meta_drafts (df : Frame Row) :
  has_column df "meta_description" = true ->
  (has_column df "url" = true ->
   exists l,
     MetaProblemsSheet._find_duplicate_meta_issues df = Ok l /\
     forall i,
       In i l <->
       exists r m c,
         shared_meta df r m /\
         (((2 < List.length (rows_with_meta m df))%nat /\ c = "ALTO") \/
          (List.length (rows_with_meta m df) = 2%nat /\ c = "MÉDIO")) /\
         i = plain_issue (url r)
               (duplicate_meta_label (List.length (rows_with_meta m df))) c) /\
  (has_column df "url" = false ->
   (MetaProblemsSheet._find_duplicate_meta_issues df = Raise (KeyError "url")
    <-> exists r m, shared_meta df r m) /\
   (MetaProblemsSheet._find_duplicate_meta_issues df = Ok []
    <-> ~ exists r m, shared_meta df r m)).
Proof.
  intros Hc. split; intros Hu.
  - destruct (duplicate_meta_ok df Hc Hu) as (l & Hl & Hmem).
    exists l. split; [exact Hl|]. intros i. rewrite Hmem. split.
    + intros (r & m & Hs & ->).
      set (N := List.length (rows_with_meta m df)).
      exists r, m, (if Nat.ltb 2 N then "ALTO" else "MÉDIO").
      split; [exact Hs|]. split; [|reflexivity].
      destruct Hs as (_ & _ & _ & Hn). fold N in Hn.
      destruct (Nat.ltb_spec 2 N); [left|right]; split; auto; lia.
    + intros (r & m & c & Hs & Hcrit & ->). exists r, m.
      split; [exact Hs|].
      unfold MetaProblemsSheet.duplicate_meta_issue, duplicate_meta_label.
      f_equal. destruct Hcrit as [[H ->]|[H ->]].
      * apply Nat.ltb_lt in H. now rewrite H.
      * rewrite H. reflexivity.
  - exact (duplicate_meta_without_url df Hc Hu).
Qed.

Lemma duplicate_meta_drafts_witness :
  let df :=
    mkFrame ["url"; "meta_description"; "meta_description_length"]
      [meta_row "https://a/1" "igual" 5; meta_row "https://a/2" "igual" 5;
       meta_row "https://a/3" "igual" 5] in
  has_column df "meta_description" = true /\
  exists l,
    MetaProblemsSheet._find_duplicate_meta_issues df = Ok l /\
    In (plain_issue "https://a/2" "Meta description duplicada (3 páginas)"
                    "ALTO") l.
Proof.
  intros df. split; [reflexivity|].
  destruct (duplicate_meta_drafts df eq_refl) as [H _].
  destruct (H eq_refl) as (l & Hl & Hmem).
  exists l. split; [exact Hl|]. apply Hmem.
  exists (meta_row "https://a/2" "igual" 5), "igual", "ALTO".
  split; [|split; [left; split; [vm_compute; lia|reflexivity]|reflexivity]].
  split; [simpl; tauto|]. split; [reflexivity|]. split; [discriminate|].
  vm_compute; lia.
Defined.

(** ** The hierarchy rule *)

Lemma level_gap_spec (cols : list string) (lo : string) (lc : option Z)
      (up : string) (uc : option Z) :
  (Py.gt (row_get cols lo lc 0) 0 && Py.eq (row_get cols up uc 0) 0)%bool = true
  <-> level_gap cols lo lc up uc.
Proof.
  unfold level_gap. rewrite andb_true_iff. split.
  - intros [Hg He]. split.
    + destruct (row_get cols lo lc 0) as [n|]; [|discriminate].
      exists n. split; [reflexivity|]. now apply Z.ltb_lt.
    + destruct (row_get cols up uc 0) as [n|]; [|discriminate].
      simpl in He. apply Z.eqb_eq in He. now subst.
  - intros [(n & -> & Hn) ->]. split; [now apply Z.ltb_lt|reflexivity].
Qed.

Lemma hierarchy_problems_spec (cols : list string) (r : Row) :
  HeadingProblemsSheet.hierarchy_problems cols r <> []
  <-> broken_hierarchy cols r.
Proof.
  unfold broken_hierarchy, HeadingProblemsSheet.hierarchy_problems.
  cbv zeta. rewrite <- !level_gap_spec.
  destruct (Py.gt (row_get cols "h3_count" (h3_count r) 0) 0
            && Py.eq (row_get cols "h2_count" (h2_count r) 0) 0)%bool;
    [split; [auto|discriminate]|].
  destruct (Py.gt (row_get cols "h4_count" (h4_count r) 0) 0
            && Py.eq (row_get cols "h3_count" (h3_count r) 0) 0)%bool;
    [split; [auto|discriminate]|].
  destruct (Py.gt (row_get cols "h5_count" (h5_count r) 0) 0
            && Py.eq (row_get cols "h4_count" (h4_count r) 0) 0)%bool;
    [split; [auto|discriminate]|].
  destruct (Py.gt (row_get cols "h6_count" (h6_count r) 0) 0
            && Py.eq (row_get cols "h5_count" (h5_count r) 0) 0)%bool;
    [split; [auto|discriminate]|].
  simpl. split; [congruence|].
  intros [H|[H|[H|H]]]; discriminate.
Qed.

Lemma hierarchy_issue_cases (cols : list string) (r : Row) :
  (HeadingProblemsSheet.hierarchy_issue cols r = [] /\
   ~ broken_hierarchy cols r) \/
  (exists p, HeadingProblemsSheet.hierarchy_issue cols r
             = [plain_issue (url r) p "MÉDIO"] /\
             broken_hierarchy cols r).
Proof.
  unfold HeadingProblemsSheet.hierarchy_issue.
  pose proof (hierarchy_problems_spec cols r) as Hs.
  destruct (HeadingProblemsSheet.hierarchy_problems cols r) as [|p ps].
  - left. split; [reflexivity|]. intros H. now apply Hs in H.
  - right. eexists. split; [reflexivity|]. apply Hs. discriminate.
Qed.

(** X20. The hierarchy rule of the heading pack needs no column and drafts
    at most one issue per record, always MÉDIO: a url is drafted exactly
    when one of its records uses a level among H3..H6 (count above zero)
    while the level above reads zero, where the count of a column missing
    from the data reads zero and a missing cell of a present column reads
    NaN, which never opens a gap. *)
Theorem hierarchy_rule (df : Frame Row) :
  (forall u,
     (exists i, In i (HeadingProblemsSheet._find_hierarchy_issues df) /\
                i_url i = u) <->
     (exists r, In r (rows df) /\ url r = u /\
                broken_hierarchy (columns df) r)) /\
  (forall i, In i (HeadingProblemsSheet._find_hierarchy_issues df) ->
             criticidade i = "MÉDIO") /\
  (List.length (HeadingProblemsSheet._find_hierarchy_issues df)
   <= List.length (rows df))%nat.
Proof.
  unfold HeadingProblemsSheet._find_hierarchy_issues.
  split; [|split].
  - intros u. split.
    + intros (i & Hi & <-). apply in_flat_map in Hi.
      destruct Hi as (r & Hr & Hi). exists r.
      destruct (hierarchy_issue_cases (columns df) r)
        as [[E _]|(p & E & Hb)]; rewrite E in Hi.
      * destruct Hi.
      * destruct Hi as [<-|[]]. auto.
    + intros (r & Hr & <- & Hb).
      destruct (hierarchy_issue_cases (columns df) r)
        as [[_ Hn]|(p & E & _)]; [contradiction|].
      exists (plain_issue (url r) p "MÉDIO"). split; [|reflexivity].
      apply in_flat_map. exists r. split; [assumption|].
      rewrite E. now left.
  - intros i Hi. apply in_flat_map in Hi. destruct Hi as (r & _ & Hi).
    destruct (hierarchy_issue_cases (columns df) r)
      as [[E _]|(p & E & _)]; rewrite E in Hi.
    + destruct Hi.
    + destruct Hi as [<-|[]]. reflexivity.
  - induction (rows df) as [|r l IH]; [simpl; lia|].
    simpl. rewrite length_app.
    destruct (hierarchy_issue_cases (columns df) r)
      as [[E _]|(p & E & _)]; rewrite E; simpl; lia.
Qed.
